(** * Api_Guard: the test execution engine

    A shallow embedding of the intake (zod/schemas.ts,
    controllers/test.controller.ts), the worker (workers/worker.ts), the two
    probe runners (engine/runners/idempotency.ts,
    engine/runners/race-conditions.ts) and the oracle client (utils/ai.ts),
    followed by the properties of the engine that the specification states.

    Conventions of the embedding.
    - A value typed [any] in the source, or cast to a type without a check
      (response bodies, request bodies, every reply of the oracle, the
      results of [_.get], the verdict and the reason taken from a reply) is
      a [js.value]: a JSON value or [undefined].
    - A value the program builds itself at a declared interface is a record.
    - The language operations that can throw a TypeError on such values
      (reading a property of null, iterating a value that is not iterable,
      converting an object to a string or to a number) return a [Res].
    - Asynchronous, failing and logging code runs in a state-and-exception
      monad [M]. The answers of the outside world (target endpoint, oracle)
      are read from an environment [Env], indexed by the number of calls made
      so far, so that every sequence of answers is covered. *)

From Stdlib Require Import ZArith NArith QArith String Ascii List Bool Lia.
From stdpp Require Import base option list gmap strings pretty.

Set Warnings "-register-all".
Close Scope Q_scope.
Open Scope string_scope.
Open Scope Z_scope.

(** How a computation ends: with a value, or with a thrown [Error] of which
    the program only reads [message]. *)
Inductive Res (A : Type) :=
| Ok (a : A)
| Throw (message : string).
Arguments Ok {A} a.
Arguments Throw {A} message.

Definition res_bind {A B} (r : Res A) (k : A -> Res B) : Res B :=
  match r with
  | Ok a => k a
  | Throw message => Throw message
  end.

Notation "'let?' x ':=' r 'in' k" := (res_bind r (fun x => k))
  (at level 10, x name, r at level 100, k at level 200).

(* ===================================================================== *)
(** ** JavaScript values *)
(* ===================================================================== *)

Module js.

(** A JavaScript number: a finite value (kept exact, as a rational), an
    infinity or NaN. *)
Inductive number :=
| NaN
| Infinity (negative : bool)
| Fin (q : Q).

Definition of_Z (z : Z) : number := Fin (inject_Z z).
Definition of_nat (n : nat) : number := of_Z (Z.of_nat n).

(** [ToBoolean] on a number: zero and NaN are falsy. *)
Definition num_truthy (n : number) : bool :=
  match n with
  | NaN => false
  | Infinity _ => true
  | Fin q => negb (Qeq_bool q 0)
  end.

(** [a > b] on numbers; every comparison with NaN is false. *)
Definition num_gt (a b : number) : bool :=
  match a, b with
  | NaN, _ | _, NaN => false
  | Infinity na, Infinity nb => negb na && nb
  | Infinity na, Fin _ => negb na
  | Fin _, Infinity nb => nb
  | Fin x, Fin y => negb (Qle_bool x y)
  end.

(** [a === b] on numbers. *)
Definition num_eq (a b : number) : bool :=
  match a, b with
  | Infinity na, Infinity nb => Bool.eqb na nb
  | Fin x, Fin y => Qeq_bool x y
  | _, _ => false
  end.

(** [n || d] at type number. *)
Definition num_or (n d : number) : number := if num_truthy n then n else d.

(** A JSON value or [undefined]. A string is the sequence of its code units
    (each below 256); an object lists its own properties, each key once. *)
Inductive value :=
| VUndefined
| VNull
| VBool (b : bool)
| VNum (n : number)
| VStr (s : string)
| VArr (items : list value)
| VObj (props : list (string * value)).

(** [ToBoolean]. *)
Definition truthy (v : value) : bool :=
  match v with
  | VUndefined | VNull => false
  | VBool b => b
  | VNum n => num_truthy n
  | VStr s => negb (String.eqb s EmptyString)
  | VArr _ | VObj _ => true
  end.

(** [a || b]. *)
Definition or_else (a b : value) : value := if truthy a then a else b.

(** [typeof v === 'object']: null, arrays and objects. *)
Definition typeof_object (v : value) : bool :=
  match v with
  | VNull | VArr _ | VObj _ => true
  | _ => false
  end.

(** [a === b]. Arrays and objects compare by reference; the operands met
    in this program are two separately parsed values, or a parsed value and
    a string literal, which never share a reference. *)
Definition strict_eq (a b : value) : bool :=
  match a, b with
  | VUndefined, VUndefined => true
  | VNull, VNull => true
  | VBool x, VBool y => Bool.eqb x y
  | VNum x, VNum y => num_eq x y
  | VStr x, VStr y => String.eqb x y
  | _, _ => false
  end.

(** The keys "0", "1", ... of an array or of a string. *)
Definition index_keys (n : nat) : list string := map pretty (seq 0 n).

(** The number a string of decimal digits denotes. *)
Fixpoint digits (s : string) (acc : N) : option N :=
  match s with
  | EmptyString => Some acc
  | String c rest =>
      let d := Ascii.N_of_ascii c in
      if ((48 <=? d) && (d <=? 57))%N then digits rest (10 * acc + (d - 48))%N else None
  end.

(** An array index: a key that is the canonical decimal form of an integer
    below 2^32 - 1. *)
Definition array_index (key : string) : option N :=
  match key with
  | EmptyString => None
  | _ =>
      match digits key 0 with
      | Some n => if String.eqb (pretty n) key && (n <? 4294967295)%N then Some n else None
      | None => None
      end
  end.

Fixpoint insert_index (k : N * string) (sorted : list (N * string)) : list (N * string) :=
  match sorted with
  | [] => [k]
  | k' :: rest => if (fst k <? fst k')%N then k :: sorted else k' :: insert_index k rest
  end.

(** The own keys of an object in the order the language lists them: the
    array indices in ascending order, then the other keys in the order they
    were added. *)
Definition own_keys (props : list (string * value)) : list string :=
  let keys := map fst props in
  let indices :=
    foldr insert_index []
      (omap (fun k => match array_index k with
                      | Some n => Some (n, k)
                      | None => None
                      end) keys) in
  (map snd indices
   ++ List.filter (fun k => match array_index k with
                            | Some _ => false
                            | None => true
                            end) keys)%list.

(** [Object.keys(v)] for a [v] that is neither null nor undefined (the only
    call sites are guarded by a truthiness test). *)
Definition Object_keys (v : value) : list string :=
  match v with
  | VObj props => own_keys props
  | VArr items => index_keys (length items)
  | VStr s => index_keys (String.length s)
  | _ => []
  end.

Fixpoint assoc (k : string) (props : list (string * value)) : value :=
  match props with
  | [] => VUndefined
  | (k', v) :: rest => if String.eqb k k' then v else assoc k rest
  end.

Definition has_own (k : string) (props : list (string * value)) : bool :=
  existsb (fun p => String.eqb k (fst p)) props.

(** [v.k] for a key [k] that no prototype defines ([identity], [data],
    [verdict], [reason], [max_successes]): [None] stands for the TypeError
    raised on null and undefined. *)
Definition prop (v : value) (k : string) : option value :=
  match v with
  | VUndefined | VNull => None
  | VObj props => Some (assoc k props)
  | _ => Some VUndefined
  end.

(** The TypeErrors the language raises on a value. *)
Inductive TypeErrorKind :=
| ReadOfNullish (v : value) (key : string)
| NotIterable (v : value)
| NotPrimitive (v : value).

(** What the program takes from its libraries and from the language
    runtime: lodash's [_.get] (with a path that is a string, where it does
    not throw, and with any other path) and [_.isEqual], the two conversions
    between numbers and strings, and the message of a TypeError. *)
Class Host := {
  lodash_get : value -> string -> value;
  lodash_get_path : value -> value -> Res value;
  lodash_isEqual : value -> value -> bool;
  NumberToString : number -> string;
  StringToNumber : string -> number;
  TypeError_message : TypeErrorKind -> string;
}.

Section conversions.
Context `{Host}.

(** [v.k] where the read may throw. *)
Definition read (v : value) (k : string) : Res value :=
  match prop v k with
  | Some x => Ok x
  | None => Throw (TypeError_message (ReadOfNullish v k))
  end.

(** The values [for (const x of v)] binds [x] to: the items of an array,
    the characters of a string; nothing else among these values is
    iterable. *)
Definition iterate (v : value) : Res (list value) :=
  match v with
  | VArr items => Ok items
  | VStr s => Ok (map (fun c => VStr (String c EmptyString)) (list_ascii_of_string s))
  | _ => Throw (TypeError_message (NotIterable v))
  end.

(** [String(v)], the conversion applied by a template literal. An object
    that owns a key [toString] holds there a value that is not callable,
    and so cannot be converted; an array converts its items in turn. *)
Fixpoint ToString (v : value) : Res string :=
  match v with
  | VUndefined => Ok "undefined"
  | VNull => Ok "null"
  | VBool true => Ok "true"
  | VBool false => Ok "false"
  | VNum n => Ok (NumberToString n)
  | VStr s => Ok s
  | VArr items =>
      let? parts :=
        (fix join (items : list value) : Res (list string) :=
           match items with
           | [] => Ok []
           | x :: rest =>
               let? part := match x with
                            | VUndefined | VNull => Ok EmptyString
                            | _ => ToString x
                            end in
               let? parts := join rest in
               Ok (part :: parts)
           end) items in
      Ok (String.concat "," parts)
  | VObj props =>
      if has_own "toString" props then Throw (TypeError_message (NotPrimitive v))
      else Ok "[object Object]"
  end.

(** [Number(v)]. An array or an object is first converted to a string. *)
Definition Number (v : value) : Res number :=
  match v with
  | VUndefined => Ok NaN
  | VNull => Ok (of_Z 0)
  | VBool b => Ok (of_Z (if b then 1 else 0))
  | VNum n => Ok n
  | VStr s => Ok (StringToNumber s)
  | VArr _ | VObj _ =>
      let? s := ToString v in
      Ok (StringToNumber s)
  end.

(** [_.get(object, path)]. *)
Definition get (object path : value) : Res value :=
  match path with
  | VStr field => Ok (lodash_get object field)
  | _ => lodash_get_path object path
  end.

End conversions.

End js.

Import js.

(* ===================================================================== *)
(** ** Shared data types *)
(* ===================================================================== *)

(** The verdict of a probe, ['PASS' | 'FAIL' | 'WARN' | 'ERROR']. The
    declared type is not checked when the verdict is taken from a reply of
    the oracle, so a verdict is a value; these are the four literals. *)
Abbreviation PASS := (VStr "PASS").
Abbreviation FAIL := (VStr "FAIL").
Abbreviation WARN := (VStr "WARN").
Abbreviation ERROR := (VStr "ERROR").

(** The status column of a test run. *)
Inductive RunStatus := PENDING | RUNNING | COMPLETED | FAILED.

Definition terminal (s : RunStatus) : bool :=
  match s with
  | COMPLETED | FAILED => true
  | PENDING | RUNNING => false
  end.

(** [Record<string, string>]. *)
Abbreviation Headers := (gmap string string).

(** utils/ai.ts, [interface RaceConstraint], as [analyzeRaceConditionIntent]
    builds it. [reason] is declared a string but is assigned from the
    untyped reply, so it holds any value. *)
Module RaceConstraint.
Inductive max_t := UNLIMITED | Limit (n : number).
Record t := {
  max_successes : max_t;
  reason : value;
}.
End RaceConstraint.

(* ===================================================================== *)
(** ** The outside world and the effect monad *)
(* ===================================================================== *)

(** A promise: the time it takes to settle, in milliseconds, and how it
    settles. *)
Record Promise (A : Type) := {
  took : Z;
  outcome : Res A;
}.
Arguments took {A} _.
Arguments outcome {A} _.

(** axios: the request configuration and the response. With
    [validateStatus: () => true] every HTTP status resolves; only a network
    failure or the timeout rejects. *)
Module AxiosRequestConfig.
Record t := {
  method : string;
  url : string;
  headers : option Headers;
  data : value;
  timeout : Z;
}.
End AxiosRequestConfig.

Module AxiosResponse.
Record t := {
  status : Z;
  data : value;
}.
End AxiosResponse.

(** fetch: the init object and the response. [text] is the outcome of
    [res.text()]. *)
Module FetchInit.
Record t := {
  method : string;
  headers : option Headers;
  body : option value;
}.
End FetchInit.

Module FetchResponse.
Record t := {
  status : Z;
  text : Res string;
}.
(** [res.ok]: the status is in the range 200-299. *)
Definition ok (r : t) : bool := (200 <=? status r) && (status r <=? 299).
End FetchResponse.

(** An HTTP call sent to the target, by axios or by fetch. *)
Inductive HttpCall :=
| AxiosCall (config : AxiosRequestConfig.t)
| FetchCall (url : string) (init : FetchInit.t).

(** The [timeout] option a call is issued with. *)
Definition call_timeout (c : HttpCall) : option Z :=
  match c with
  | AxiosCall config => Some (AxiosRequestConfig.timeout config)
  | FetchCall _ _ => None
  end.

(** What the oracle is asked. The prompt text is a function of these
    arguments and only influences the reply, which is an input here. *)
Inductive Question :=
| AskSchema (responseBody : value) (status : Z)
| AskMismatch (status1 : Z) (body1 : value) (status2 : Z) (body2 : value)
| AskRaceIntent (method url : string) (body : value).

(** The reply to a chat completion after [content || '{}'] and
    [JSON.parse(content) as T]: the parsed value, whatever its shape (the
    cast checks nothing; an absent content parses to the empty object), or
    a failure of the call or of the parse. *)
Inductive GroqOutcome :=
| GroqError (message : string)
| GroqParsed (reply : value).

(** The outside world: the promise the target returns to call number [k]
    (calls are numbered in the order they are issued) and the oracle's reply
    to question number [k], on the channel of each of its three
    operations. *)
Record Env := {
  axios_net : nat -> Promise AxiosResponse.t;
  fetch_net : nat -> Promise FetchResponse.t;
  groq_schema : nat -> GroqOutcome;
  groq_mismatch : nat -> GroqOutcome;
  groq_race : nat -> GroqOutcome;
}.

(** The state a runner acts on: the clock ([performance.now()], in
    milliseconds), the HTTP calls issued and the questions asked. *)
Record NetState := {
  clock : Z;
  calls : list HttpCall;
  asked : list Question;
}.

Section monad.
Context {S : Type}.

Definition M (A : Type) : Type := Env -> S -> Res A * S.

Definition ret {A} (a : A) : M A := fun _ s => (Ok a, s).

Definition throw {A} (message : string) : M A := fun _ s => (Throw message, s).

(** A computation that touches neither the world nor the state. *)
Definition pure {A} (r : Res A) : M A := fun _ s => (r, s).

Definition bind {A B} (m : M A) (k : A -> M B) : M B :=
  fun e s =>
    match m e s with
    | (Ok a, s') => k a e s'
    | (Throw message, s') => (Throw message, s')
    end.

(** [try { m } catch (err) { handler(err.message) }]. *)
Definition try_catch {A} (m : M A) (handler : string -> M A) : M A :=
  fun e s =>
    match m e s with
    | (Ok a, s') => (Ok a, s')
    | (Throw message, s') => handler message e s'
    end.

(** [Array(n).fill(null).map(() => m)]: [m] is run [n] times, in order. *)
Fixpoint repeatM {A} (n : nat) (m : M A) : M (list A) :=
  match n with
  | O => ret []
  | Datatypes.S n' => bind m (fun x => bind (repeatM n' m) (fun xs => ret (x :: xs)))
  end.

End monad.
Arguments M S A : clear implicits.

Notation "'let!' x ':=' m 'in' k" := (bind m (fun x => k))
  (at level 10, x name, m at level 100, k at level 200).
Notation "m ';;;' k" := (bind m (fun _ => k))
  (at level 100, k at level 200, right associativity).

(** *** Primitive effects of a runner *)

Definition tick (ms : Z) (s : NetState) : NetState :=
  {| clock := clock s + ms; calls := calls s; asked := asked s |}.

Definition record_call (c : HttpCall) (s : NetState) : NetState :=
  {| clock := clock s; calls := calls s ++ [c]; asked := asked s |}.

Definition record_question (q : Question) (s : NetState) : NetState :=
  {| clock := clock s; calls := calls s; asked := asked s ++ [q] |}.

(** [performance.now()]. *)
Definition performance_now : M NetState Z := fun _ s => (Ok (clock s), s).

(** [await new Promise((r) => setTimeout(r, ms))]. *)
Definition setTimeout (ms : Z) : M NetState unit := fun _ s => (Ok tt, tick ms s).

(** [await p]: time passes until [p] settles. *)
Definition await {A} (p : Promise A) : M NetState A :=
  fun _ s => (outcome p, tick (took p) s).

(** [axios(config)]: the request is issued; the promise is the target's
    answer to the call of that index. *)
Definition axios (config : AxiosRequestConfig.t) : M NetState (Promise AxiosResponse.t) :=
  fun e s => (Ok (axios_net e (length (calls s))), record_call (AxiosCall config) s).

(** [fetch(url, init)]. *)
Definition fetch (url : string) (init : FetchInit.t) : M NetState (Promise FetchResponse.t) :=
  fun e s => (Ok (fetch_net e (length (calls s))), record_call (FetchCall url init) s).

(** [p.then(f)] for an [f] that does not fail. *)
Definition then_ {A B} (p : Promise A) (f : A -> B) : Promise B :=
  {| took := took p;
     outcome := match outcome p with
                | Ok a => Ok (f a)
                | Throw message => Throw message
                end |}.

(** [p.catch((err) => g(err.message))]. *)
Definition catch_ {A} (p : Promise A) (g : string -> A) : Promise A :=
  {| took := took p;
     outcome := match outcome p with
                | Ok a => Ok a
                | Throw message => Ok (g message)
                end |}.

(** [Promise.all(ps)]: settles when the last promise does, with all the
    values in the order of [ps], or rejects with a rejection among them
    (the first in the order of [ps]). *)
Fixpoint all_outcomes {A} (ps : list (Promise A)) : Res (list A) :=
  match ps with
  | [] => Ok []
  | p :: rest =>
      match outcome p with
      | Throw message => Throw message
      | Ok a =>
          match all_outcomes rest with
          | Ok xs => Ok (a :: xs)
          | Throw message => Throw message
          end
      end
  end.

Definition Promise_all {A} (ps : list (Promise A)) : Promise (list A) :=
  {| took := foldr Z.max 0 (map took ps);
     outcome := all_outcomes ps |}.

(** [await groq.chat.completions.create(...)] followed by the parse of the
    content, on one of the three channels. *)
Definition groq_completion (channel : Env -> nat -> GroqOutcome)
    (prompt : Question) : M NetState value :=
  fun e s =>
    match channel e (length (asked s)) with
    | GroqError message => (Throw message, record_question prompt s)
    | GroqParsed reply => (Ok reply, record_question prompt s)
    end.

(* ===================================================================== *)
(** ** utils/ai.ts *)
(* ===================================================================== *)

Section ai.
Context `{Host}.

(** [askGroqJSON<T>(systemPrompt, userPrompt, fallback)]. *)
Definition askGroqJSON (channel : Env -> nat -> GroqOutcome)
    (prompt : Question) (fallback : value) : M NetState value :=
  try_catch
    (let! parsed := groq_completion channel prompt in
     ret parsed)
    (fun _ => ret fallback).

(** An array of strings. *)
Definition strings (keys : list string) : value := VArr (map VStr keys).

Definition analyzeIdempotencySchema (responseBody : value) (status : Z)
    : M NetState value :=
  if negb (truthy responseBody) || (length (Object_keys responseBody) =? 0)%nat then
    ret (VObj [("identity", VArr []); ("noise", VArr []); ("data", VArr [])])
  else
    askGroqJSON groq_schema (AskSchema responseBody status)
      (VObj [("identity", VArr []); ("noise", VArr []);
             ("data", strings (Object_keys responseBody))]).

Definition evaluateIdempotencyMismatch (req1 req2 : Z * value)
    : M NetState value :=
  askGroqJSON groq_mismatch
    (AskMismatch (fst req1) (snd req1) (fst req2) (snd req2))
    (VObj [("verdict", FAIL);
           ("reason", VStr "AI Analysis Failed, defaulting to strict fail.")]).

(** The object literal is evaluated in the order it is written: the read
    and the conversion of [max_successes], then the read of [reason]. *)
Definition analyzeRaceConditionIntent (method url : string) (body : value)
    : M NetState RaceConstraint.t :=
  let! result := askGroqJSON groq_race (AskRaceIntent method url body)
                   (VObj [("max_successes", VNum (of_Z 1));
                          ("reason", VStr "Fallback Default")]) in
  let! max_successes := pure (read result "max_successes") in
  let! max_successes' :=
    if strict_eq max_successes (VStr "UNLIMITED")
    then ret RaceConstraint.UNLIMITED
    else
      let! n := pure (Number max_successes) in
      ret (RaceConstraint.Limit (num_or n (of_Z 1))) in
  let! reason := pure (read result "reason") in
  ret {| RaceConstraint.max_successes := max_successes';
         RaceConstraint.reason := or_else reason (VStr "AI Default") |}.

End ai.

(* ===================================================================== *)
(** ** engine/runners/idempotency.ts *)
(* ===================================================================== *)

Module IdempotencyConfig.
Record t := {
  url : string;
  method : string;
  headers : option Headers;
  body : value;
}.
End IdempotencyConfig.

(** [{ field, val1, val2 }]. *)
Module Diff.
Record t := {
  field : value;
  val1 : value;
  val2 : value;
}.
End Diff.

Module IdempotencyMeta.
Record t := {
  req1Status : Z;
  req2Status : Z;
  req1Time : Z;
  req2Time : Z;
  aiSchema : option value;
  diff : option Diff.t;
}.
End IdempotencyMeta.

(** [verdict] and [description] are values: in the status-mismatch case
    they are properties of the oracle's reply. *)
Module IdempotencyResult.
Record t := {
  verdict : value;
  title : string;
  description : value;
  meta : IdempotencyMeta.t;
}.
End IdempotencyResult.

(** The return type of [validateBodies]. *)
Module Validation.
Record t := {
  verdict : value;
  title : string;
  description : string;
  diff : option Diff.t;
}.
End Validation.

Section idempotency.
Context `{Host}.

(** The fields a loop [for (const field of schema.key || [])] walks. *)
Definition field_list (schema : value) (key : string) : Res (list value) :=
  let? fields := read schema key in
  iterate (or_else fields (VArr [])).

(** One [for (const field of fields)] loop of [validateBodies], up to its
    [return]: the first field whose two values are not [_.isEqual]. *)
Fixpoint first_changed (body1 body2 : value) (fields : list value) : Res (option Diff.t) :=
  match fields with
  | [] => Ok None
  | field :: rest =>
      let? val1 := get body1 field in
      let? val2 := get body2 field in
      if negb (lodash_isEqual val1 val2)
      then Ok (Some {| Diff.field := field; Diff.val1 := val1; Diff.val2 := val2 |})
      else first_changed body1 body2 rest
  end.

Definition validateBodies (body1 body2 schema : value) : Res Validation.t :=
  let? identity := field_list schema "identity" in
  let? changed_identity := first_changed body1 body2 identity in
  match changed_identity with
  | Some d =>
      let? field := ToString (Diff.field d) in
      let? val1 := ToString (Diff.val1 d) in
      let? val2 := ToString (Diff.val2 d) in
      Ok {| Validation.verdict := FAIL;
            Validation.title := "Double Execution Detected";
            Validation.description :=
              "Critical identity field '" ++ field ++ "' changed from '"
              ++ val1 ++ "' to '" ++ val2
              ++ "'. This implies a new resource was created.";
            Validation.diff := Some d |}
  | None =>
      let? data := field_list schema "data" in
      let? changed_data := first_changed body1 body2 data in
      match changed_data with
      | Some d =>
          let? field := ToString (Diff.field d) in
          Ok {| Validation.verdict := WARN;
                Validation.title := "State Mutation Detected";
                Validation.description :=
                  "Field '" ++ field
                  ++ "' changed value. This might be a side-effect, but the resource ID remained stable.";
                Validation.diff := Some d |}
      | None =>
          Ok {| Validation.verdict := PASS;
                Validation.title := "Idempotent Response";
                Validation.description :=
                  "Response body is functionally identical (ignoring dynamic metadata).";
                Validation.diff := None |}
      end
  end.

Definition idempotency_meta (req1Status req2Status req1Time req2Time : Z)
    : IdempotencyMeta.t :=
  {| IdempotencyMeta.req1Status := req1Status;
     IdempotencyMeta.req2Status := req2Status;
     IdempotencyMeta.req1Time := req1Time;
     IdempotencyMeta.req2Time := req2Time;
     IdempotencyMeta.aiSchema := None;
     IdempotencyMeta.diff := None |}.

(** Case B, the block guarded by [status1 !== status2]; the source holds
    it twice, word for word (lines 95-119 and 120-144). The reads of
    [aiJudgment.verdict] and [aiJudgment.reason] throw when the reply is
    null. *)
Definition status_mismatch (res1 res2 : AxiosResponse.t) (time1 time2 : Z)
    : M NetState IdempotencyResult.t :=
  let status1 := AxiosResponse.status res1 in
  let status2 := AxiosResponse.status res2 in
  let! aiJudgment :=
    evaluateIdempotencyMismatch (status1, AxiosResponse.data res1)
                                (status2, AxiosResponse.data res2) in
  let! verdict := pure (read aiJudgment "verdict") in
  let! reason := pure (read aiJudgment "reason") in
  ret {| IdempotencyResult.verdict := verdict;
         IdempotencyResult.title :=
           if strict_eq verdict PASS
           then "Safe Idempotent Rejection"
           else "Inconsistent Status Code";
         IdempotencyResult.description := reason;
         IdempotencyResult.meta := idempotency_meta status1 status2 time1 time2 |}.

Definition runIdempotencyTest (config : IdempotencyConfig.t)
    : M NetState IdempotencyResult.t :=
  let requestConfig :=
    {| AxiosRequestConfig.method := IdempotencyConfig.method config;
       AxiosRequestConfig.url := IdempotencyConfig.url config;
       AxiosRequestConfig.headers := IdempotencyConfig.headers config;
       AxiosRequestConfig.data := IdempotencyConfig.body config;
       AxiosRequestConfig.timeout := 8000 |} in
  try_catch
    (let! start1 := performance_now in
     let! pending1 := axios requestConfig in
     let! res1 := await pending1 in
     let! end1 := performance_now in
     let time1 := end1 - start1 in
     if AxiosResponse.status res1 >=? 500 then
       ret {| IdempotencyResult.verdict := FAIL;
              IdempotencyResult.title := "Server Crash";
              IdempotencyResult.description :=
                VStr ("API returned " ++ pretty (AxiosResponse.status res1)
                      ++ " on the first request. Cannot test idempotency on a broken endpoint.");
              IdempotencyResult.meta :=
                idempotency_meta (AxiosResponse.status res1) 0 time1 0 |}
     else
       let! schema :=
         analyzeIdempotencySchema (AxiosResponse.data res1) (AxiosResponse.status res1) in
       setTimeout 500 ;;;
       let! start2 := performance_now in
       let! pending2 := axios requestConfig in
       let! res2 := await pending2 in
       let! end2 := performance_now in
       let time2 := end2 - start2 in
       if (AxiosResponse.status res1 >=? 200) && (AxiosResponse.status res1 <? 300)
          && (AxiosResponse.status res2 =? 409) then
         ret {| IdempotencyResult.verdict := PASS;
                IdempotencyResult.title := "Conflict Correctly Handled";
                IdempotencyResult.description :=
                  VStr "Server identified the duplicate request and returned 409 Conflict.";
                IdempotencyResult.meta :=
                  idempotency_meta (AxiosResponse.status res1) (AxiosResponse.status res2)
                                   time1 time2 |}
       else
         let status1 := AxiosResponse.status res1 in
         let status2 := AxiosResponse.status res2 in
         if negb (status1 =? status2) then status_mismatch res1 res2 time1 time2
         else if negb (status1 =? status2) then status_mismatch res1 res2 time1 time2
         else if negb (typeof_object (AxiosResponse.data res1)) then
           ret {| IdempotencyResult.verdict :=
                    if strict_eq (AxiosResponse.data res1) (AxiosResponse.data res2)
                    then PASS else WARN;
                  IdempotencyResult.title := "Non-JSON Response";
                  IdempotencyResult.description :=
                    VStr "Response was text/html. Simple string comparison performed.";
                  IdempotencyResult.meta :=
                    idempotency_meta (AxiosResponse.status res1) (AxiosResponse.status res2)
                                     time1 time2 |}
         else
           let! validation :=
             pure (validateBodies (AxiosResponse.data res1) (AxiosResponse.data res2)
                                  schema) in
           ret {| IdempotencyResult.verdict := Validation.verdict validation;
                  IdempotencyResult.title := Validation.title validation;
                  IdempotencyResult.description := VStr (Validation.description validation);
                  IdempotencyResult.meta :=
                    {| IdempotencyMeta.req1Status := AxiosResponse.status res1;
                       IdempotencyMeta.req2Status := AxiosResponse.status res2;
                       IdempotencyMeta.req1Time := time1;
                       IdempotencyMeta.req2Time := time2;
                       IdempotencyMeta.aiSchema := Some schema;
                       IdempotencyMeta.diff := Validation.diff validation |} |})
    (fun message =>
       ret {| IdempotencyResult.verdict := ERROR;
              IdempotencyResult.title := "Execution Error";
              IdempotencyResult.description := VStr ("Test runner failed: " ++ message);
              IdempotencyResult.meta := idempotency_meta 0 0 0 0 |}).

(** The same runner with the second [if (status1 !== status2)] block
    (lines 120-144) removed. *)
Definition runIdempotencyTest_single_mismatch_block (config : IdempotencyConfig.t)
    : M NetState IdempotencyResult.t :=
  let requestConfig :=
    {| AxiosRequestConfig.method := IdempotencyConfig.method config;
       AxiosRequestConfig.url := IdempotencyConfig.url config;
       AxiosRequestConfig.headers := IdempotencyConfig.headers config;
       AxiosRequestConfig.data := IdempotencyConfig.body config;
       AxiosRequestConfig.timeout := 8000 |} in
  try_catch
    (let! start1 := performance_now in
     let! pending1 := axios requestConfig in
     let! res1 := await pending1 in
     let! end1 := performance_now in
     let time1 := end1 - start1 in
     if AxiosResponse.status res1 >=? 500 then
       ret {| IdempotencyResult.verdict := FAIL;
              IdempotencyResult.title := "Server Crash";
              IdempotencyResult.description :=
                VStr ("API returned " ++ pretty (AxiosResponse.status res1)
                      ++ " on the first request. Cannot test idempotency on a broken endpoint.");
              IdempotencyResult.meta :=
                idempotency_meta (AxiosResponse.status res1) 0 time1 0 |}
     else
       let! schema :=
         analyzeIdempotencySchema (AxiosResponse.data res1) (AxiosResponse.status res1) in
       setTimeout 500 ;;;
       let! start2 := performance_now in
       let! pending2 := axios requestConfig in
       let! res2 := await pending2 in
       let! end2 := performance_now in
       let time2 := end2 - start2 in
       if (AxiosResponse.status res1 >=? 200) && (AxiosResponse.status res1 <? 300)
          && (AxiosResponse.status res2 =? 409) then
         ret {| IdempotencyResult.verdict := PASS;
                IdempotencyResult.title := "Conflict Correctly Handled";
                IdempotencyResult.description :=
                  VStr "Server identified the duplicate request and returned 409 Conflict.";
                IdempotencyResult.meta :=
                  idempotency_meta (AxiosResponse.status res1) (AxiosResponse.status res2)
                                   time1 time2 |}
       else
         let status1 := AxiosResponse.status res1 in
         let status2 := AxiosResponse.status res2 in
         if negb (status1 =? status2) then status_mismatch res1 res2 time1 time2
         else if negb (typeof_object (AxiosResponse.data res1)) then
           ret {| IdempotencyResult.verdict :=
                    if strict_eq (AxiosResponse.data res1) (AxiosResponse.data res2)
                    then PASS else WARN;
                  IdempotencyResult.title := "Non-JSON Response";
                  IdempotencyResult.description :=
                    VStr "Response was text/html. Simple string comparison performed.";
                  IdempotencyResult.meta :=
                    idempotency_meta (AxiosResponse.status res1) (AxiosResponse.status res2)
                                     time1 time2 |}
         else
           let! validation :=
             pure (validateBodies (AxiosResponse.data res1) (AxiosResponse.data res2)
                                  schema) in
           ret {| IdempotencyResult.verdict := Validation.verdict validation;
                  IdempotencyResult.title := Validation.title validation;
                  IdempotencyResult.description := VStr (Validation.description validation);
                  IdempotencyResult.meta :=
                    {| IdempotencyMeta.req1Status := AxiosResponse.status res1;
                       IdempotencyMeta.req2Status := AxiosResponse.status res2;
                       IdempotencyMeta.req1Time := time1;
                       IdempotencyMeta.req2Time := time2;
                       IdempotencyMeta.aiSchema := Some schema;
                       IdempotencyMeta.diff := Validation.diff validation |} |})
    (fun message =>
       ret {| IdempotencyResult.verdict := ERROR;
              IdempotencyResult.title := "Execution Error";
              IdempotencyResult.description := VStr ("Test runner failed: " ++ message);
              IdempotencyResult.meta := idempotency_meta 0 0 0 0 |}).

End idempotency.

(* ===================================================================== *)
(** ** engine/runners/race-conditions.ts *)
(* ===================================================================== *)

Module RaceConfig.
Record t := {
  url : string;
  method : string;
  headers : option Headers;
  body : value;
}.
End RaceConfig.

(** The runner's own [constraint] variable, [{ max_successes, reason }]. *)
Module Constraint.
Record t := {
  max_successes : number;
  reason : value;
}.
End Constraint.

(** What a request of the burst resolves to. *)
Module BurstResponse.
Record t := {
  status : Z;
  ok : bool;
  error : option string;
  text : string;
}.
End BurstResponse.

Module RaceMeta.
Record t := {
  totalRequests : nat;
  successCount : nat;
  failCount : nat;
  statusCodes : list Z;
  durationMs : Z;
  aiConstraint : Constraint.t;
}.
End RaceMeta.

Module RaceResult.
Record t := {
  verdict : value;
  title : string;
  description : string;
  meta : RaceMeta.t;
}.
End RaceResult.

(** [[...new Set(xs)]]: the distinct elements, in order of first
    occurrence. *)
Fixpoint Set_from (seen xs : list Z) : list Z :=
  match xs with
  | [] => seen
  | x :: rest => Set_from (if decide (x ∈ seen) then seen else seen ++ [x]) rest
  end.

Definition BATCH_SIZE : nat := 10.

Section race_conditions.
Context `{Host}.

(** Step 1, "AI Analysis": the [constraint] variable after the [try] block
    that assigns it. The [console.log] that follows the assignment inside
    the [try] converts the reason to a string; when that throws, the [catch]
    block runs with the variable already assigned. *)
Definition infer_constraint (config : RaceConfig.t) : M NetState Constraint.t :=
  try_catch
    (let! aiResult :=
       analyzeRaceConditionIntent (RaceConfig.method config) (RaceConfig.url config)
                                  (RaceConfig.body config) in
     let! max_successes :=
       match RaceConstraint.max_successes aiResult with
       | RaceConstraint.UNLIMITED => ret (of_Z 9999)
       | RaceConstraint.Limit n =>
           let! n' := pure (Number (VNum n)) in
           ret (num_or n' (of_Z 1))
       end in
     let constraint :=
       {| Constraint.max_successes := max_successes;
          Constraint.reason := RaceConstraint.reason aiResult |} in
     try_catch
       (let! _ := pure (ToString (Constraint.reason constraint)) in
        ret constraint)
       (fun _ => ret constraint))
    (fun _ =>
       ret {| Constraint.max_successes := of_Z 1;
              Constraint.reason := VStr "Default strict safety" |}).

(** [res => ({ status: res.status, ok: res.ok, text: ... })]. *)
Definition on_response (res : FetchResponse.t) : BurstResponse.t :=
  {| BurstResponse.status := FetchResponse.status res;
     BurstResponse.ok := FetchResponse.ok res;
     BurstResponse.error := None;
     BurstResponse.text :=
       match FetchResponse.text res with
       | Ok s => s
       | Throw _ => EmptyString
       end |}.

(** [err => ({ status: 0, ok: false, error: err.message, text: '' })]. *)
Definition on_error (message : string) : BurstResponse.t :=
  {| BurstResponse.status := 0;
     BurstResponse.ok := false;
     BurstResponse.error := Some message;
     BurstResponse.text := EmptyString |}.

(** Step 2, "The Attack": one element of [requestPromises]. *)
Definition burst_request (config : RaceConfig.t) : M NetState (Promise BurstResponse.t) :=
  let! pending :=
    fetch (RaceConfig.url config)
      {| FetchInit.method := RaceConfig.method config;
         FetchInit.headers := RaceConfig.headers config;
         FetchInit.body :=
           if truthy (RaceConfig.body config)
           then Some (RaceConfig.body config) else None |} in
  ret (catch_ (then_ pending on_response) on_error).

(** Steps 3 and 4, "The Tally" and "The Verdict": the result built from the
    constraint, the responses of the burst and its duration. The description
    of a FAIL converts the reason to a string, which may throw. *)
Definition tally_and_verdict (constraint : Constraint.t)
    (responses : list BurstResponse.t) (duration : Z) : Res RaceResult.t :=
  let successes := length (List.filter (fun r => BurstResponse.ok r) responses) in
  let failures := length (List.filter (fun r => negb (BurstResponse.ok r)) responses) in
  let distinctStatusCodes := Set_from [] (map BurstResponse.status responses) in
  let? classified :=
    if num_gt (of_nat successes) (Constraint.max_successes constraint) then
      let? reason := ToString (Constraint.reason constraint) in
      Ok (FAIL, "Race Condition Detected",
          "The API allowed " ++ pretty successes
          ++ " successful operations, but AI determined only "
          ++ NumberToString (Constraint.max_successes constraint)
          ++ " should be possible. (" ++ reason ++ ")")
    else if (successes =? 0)%nat && (0 <? failures)%nat then
      Ok (WARN, "Endpoint Unstable",
          "The API crashed or rejected all requests during the stress test.")
    else
      Ok (PASS, "Race Condition Safe", "The API correctly handled high concurrency.") in
  let '(verdict, title, description) := classified in
  Ok {| RaceResult.verdict := verdict;
        RaceResult.title := title;
        RaceResult.description := description;
        RaceResult.meta :=
          {| RaceMeta.totalRequests := BATCH_SIZE;
             RaceMeta.successCount := successes;
             RaceMeta.failCount := failures;
             RaceMeta.statusCodes := distinctStatusCodes;
             RaceMeta.durationMs := duration;
             RaceMeta.aiConstraint := constraint |} |}.

Definition runRaceConditionTest (config : RaceConfig.t) : M NetState RaceResult.t :=
  let! constraint := infer_constraint config in
  let! requestPromises := repeatM BATCH_SIZE (burst_request config) in
  let! start := performance_now in
  let! responses := await (Promise_all requestPromises) in
  let! finish := performance_now in
  let duration := finish - start in
  pure (tally_and_verdict constraint responses duration).

End race_conditions.

(* ===================================================================== *)
(** ** workers/queue.ts and workers/worker.ts *)
(* ===================================================================== *)

(** [TestJobData.config]. [testType] is the string the queue delivers: the
    intake schema also admits ['RATE_LIMIT']. *)
Module JobConfig.
Record t := {
  testType : string;
  url : string;
  method : string;
  headers : option Headers;
  body : value;
}.
End JobConfig.

Module TestJobData.
Record t := {
  testRunId : string;
  config : JobConfig.t;
}.
End TestJobData.

Module Job.
Record t := {
  id : string;
  data : TestJobData.t;
}.
End Job.

(** What a runner hands back to the worker. *)
Inductive ProbeResult :=
| IdempotencyReport (r : IdempotencyResult.t)
| RaceReport (r : RaceResult.t).

Definition result_verdict (result : ProbeResult) : value :=
  match result with
  | IdempotencyReport r => IdempotencyResult.verdict r
  | RaceReport r => RaceResult.verdict r
  end.

(** A row of the table "TestRun" (prisma/migrations); the row's [id] is its
    key in the store. The store keeps the columns as the worker hands them
    over: the checks of the database client against its schema, which is not
    among the sources, are not part of this model. *)
Module TestRun.
Record t := {
  projectId : option string;
  testType : string;
  status : RunStatus;
  verdict : option value;
  endpoint : string;
  method : string;
  resultSummary : option ProbeResult;
  logs : option string;
  createdAt : Z;
  finishedAt : option Z;
}.
End TestRun.

(** The [data] argument of [prisma.testRun.update]: the columns to write. *)
Module UpdateInput.
Record t := {
  status : option RunStatus;
  verdict : option value;
  resultSummary : option ProbeResult;
  logs : option string;
  finishedAt : option Z;
}.
End UpdateInput.

Definition apply_update (data : UpdateInput.t) (row : TestRun.t) : TestRun.t :=
  {| TestRun.projectId := TestRun.projectId row;
     TestRun.testType := TestRun.testType row;
     TestRun.status := default (TestRun.status row) (UpdateInput.status data);
     TestRun.verdict :=
       match UpdateInput.verdict data with
       | Some v => Some v
       | None => TestRun.verdict row
       end;
     TestRun.endpoint := TestRun.endpoint row;
     TestRun.method := TestRun.method row;
     TestRun.resultSummary :=
       match UpdateInput.resultSummary data with
       | Some r => Some r
       | None => TestRun.resultSummary row
       end;
     TestRun.logs :=
       match UpdateInput.logs data with
       | Some l => Some l
       | None => TestRun.logs row
       end;
     TestRun.createdAt := TestRun.createdAt row;
     TestRun.finishedAt :=
       match UpdateInput.finishedAt data with
       | Some t => Some t
       | None => TestRun.finishedAt row
       end |}.

(** The state the worker acts on: the runner's state, the table of runs and
    the status writes made so far, in order. *)
Record WorkerState := {
  net : NetState;
  db : gmap string TestRun.t;
  status_writes : list (string * RunStatus);
}.

(** A runner inside the worker: it acts on the network state only. *)
Definition run_probe {A} (m : M NetState A) : M WorkerState A :=
  fun e s =>
    match m e (net s) with
    | (r, n) => (r, {| net := n; db := db s; status_writes := status_writes s |})
    end.

(** [new Date()]. *)
Definition Date_now : M WorkerState Z := fun _ s => (Ok (clock (net s)), s).

(** [await prisma.testRun.update({ where: { id }, data })]: rejects when no
    row has this id. *)
Definition prisma_testRun_update (id : string) (data : UpdateInput.t)
    : M WorkerState unit :=
  fun _ s =>
    match db s !! id with
    | None => (Throw "Record to update not found.", s)
    | Some row =>
        (Ok tt,
         {| net := net s;
            db := <[id := apply_update data row]> (db s);
            status_writes :=
              match UpdateInput.status data with
              | Some st => status_writes s ++ [(id, st)]
              | None => status_writes s
              end |})
    end.

Section worker.
Context `{Host}.

(** The processor function of the BullMQ worker. The [console.log] before
    the [try] prints two strings. The one that ends the [try] block, after
    the COMPLETED update, converts [result.verdict] to a string; when that
    throws, the [catch] block runs. *)
Definition worker (job : Job.t) : M WorkerState unit :=
  let testRunId := TestJobData.testRunId (Job.data job) in
  let config := TestJobData.config (Job.data job) in
  try_catch
    (prisma_testRun_update testRunId
       {| UpdateInput.status := Some RUNNING;
          UpdateInput.verdict := None;
          UpdateInput.resultSummary := None;
          UpdateInput.logs := None;
          UpdateInput.finishedAt := None |} ;;;
     let! result :=
       if String.eqb (JobConfig.testType config) "IDEMPOTENCY" then
         let! r := run_probe (runIdempotencyTest
                     {| IdempotencyConfig.url := JobConfig.url config;
                        IdempotencyConfig.method := JobConfig.method config;
                        IdempotencyConfig.headers := JobConfig.headers config;
                        IdempotencyConfig.body := JobConfig.body config |}) in
         ret (IdempotencyReport r)
       else if String.eqb (JobConfig.testType config) "RACE_CONDITION" then
         let! r := run_probe (runRaceConditionTest
                     {| RaceConfig.url := JobConfig.url config;
                        RaceConfig.method := JobConfig.method config;
                        RaceConfig.headers := JobConfig.headers config;
                        RaceConfig.body := JobConfig.body config |}) in
         ret (RaceReport r)
       else
         throw ("Unknown test type: " ++ JobConfig.testType config) in
     let! finishedAt := Date_now in
     prisma_testRun_update testRunId
       {| UpdateInput.status := Some COMPLETED;
          UpdateInput.verdict := Some (result_verdict result);
          UpdateInput.resultSummary := Some result;
          UpdateInput.logs := None;
          UpdateInput.finishedAt := Some finishedAt |} ;;;
     let! _ := pure (ToString (result_verdict result)) in
     ret tt)
    (fun message =>
       let! finishedAt := Date_now in
       prisma_testRun_update testRunId
         {| UpdateInput.status := Some FAILED;
            UpdateInput.verdict := Some ERROR;
            UpdateInput.resultSummary := None;
            UpdateInput.logs := Some message;
            UpdateInput.finishedAt := Some finishedAt |}).

End worker.

(* ===================================================================== *)
(** ** zod/schemas.ts and controllers/test.controller.ts *)
(* ===================================================================== *)

(** [RunTestInput], the output type of [RunTestSchema]. An absent [body] is
    [undefined]. *)
Module RunTestInput.
Record t := {
  projectId : option string;
  testType : string;
  endpoint : string;
  method : string;
  headers : option Headers;
  body : value;
  expectedStatus : option number;
}.
End RunTestInput.

(** The zod combinators used by the schema, on a value read from a key of
    the request body ([undefined] when the key is absent): [None] is a
    validation issue. *)
Definition z_optional_string (v : value) : option (option string) :=
  match v with
  | VUndefined => Some None
  | VStr s => Some (Some s)
  | _ => None
  end.

Definition z_enum (options : list string) (v : value) : option string :=
  match v with
  | VStr s => if decide (s ∈ options) then Some s else None
  | _ => None
  end.

Fixpoint string_entries (props : list (string * value)) : option (list (string * string)) :=
  match props with
  | [] => Some []
  | (k, VStr s) :: rest =>
      match string_entries rest with
      | Some entries => Some ((k, s) :: entries)
      | None => None
      end
  | _ => None
  end.

(** [z.record(z.string(), z.string()).optional()]. *)
Definition z_optional_record (v : value) : option (option Headers) :=
  match v with
  | VUndefined => Some None
  | VObj props =>
      match string_entries props with
      | Some entries => Some (Some (list_to_map entries))
      | None => None
      end
  | _ => None
  end.

(** [Number.isInteger]. *)
Definition is_integer (n : number) : bool :=
  match n with
  | Fin q => Pos.eqb (Qden (Qred q)) 1
  | _ => false
  end.

Definition TEST_TYPES : list string := ["IDEMPOTENCY"; "RACE_CONDITION"; "RATE_LIMIT"].
Definition METHODS : list string := ["POST"; "PUT"; "DELETE"; "PATCH"; "GET"].

(** The reply of the controller: [res.status(code).json(...)]. The [details]
    of the 400 reply, the error object, are left out. *)
Inductive ReplyBody :=
| Queued (testRunId : string)
| InvalidRequest.

Module Reply.
Record t := {
  code : Z;
  json : ReplyBody;
}.
End Reply.

(** The state the server acts on: the worker's state and the jobs added to
    the queue (name and data), oldest first. *)
Record ServerState := {
  worker_state : WorkerState;
  queue : list (string * TestJobData.t);
}.

(** What the database and the queue answer to one request of the intake:
    the database, the id it generates for the new row or the error it
    rejects the insert with; the queue, whether it takes the job or rejects
    it (the connection to Redis is down). *)
Module Backend.
Record t := {
  database : Res string;
  redis : Res unit;
}.
End Backend.

Section intake.
(** Whether a string is a URL, as [z.string().url()] decides it, and whether
    a whole number passes the further checks of [z.number().int()] in the
    version of zod in use (none in zod 3, the safe range in zod 4). *)
Variable is_url : string -> bool.
Variable int_in_range : number -> bool.

(** [z.string().url(...)]. *)
Definition z_url (v : value) : option string :=
  match v with
  | VStr s => if is_url s then Some s else None
  | _ => None
  end.

(** [z.number().int().optional()]. *)
Definition z_optional_int (v : value) : option (option number) :=
  match v with
  | VUndefined => Some None
  | VNum n => if is_integer n && int_in_range n then Some (Some n) else None
  | _ => None
  end.

(** [RunTestSchema.parse(input)]: [None] stands for the ZodError thrown.
    Keys that the schema does not name are dropped. *)
Definition RunTestSchema_parse (input : value) : option RunTestInput.t :=
  match input with
  | VObj props =>
      match z_optional_string (assoc "projectId" props),
            z_enum TEST_TYPES (assoc "testType" props),
            z_url (assoc "endpoint" props),
            z_enum METHODS (assoc "method" props),
            z_optional_record (assoc "headers" props),
            z_optional_int (assoc "expectedStatus" props) with
      | Some projectId, Some testType, Some endpoint, Some method,
        Some headers, Some expectedStatus =>
          Some {| RunTestInput.projectId := projectId;
                  RunTestInput.testType := testType;
                  RunTestInput.endpoint := endpoint;
                  RunTestInput.method := method;
                  RunTestInput.headers := headers;
                  RunTestInput.body := assoc "body" props;
                  RunTestInput.expectedStatus := expectedStatus |}
      | _, _, _, _, _, _ => None
      end
  | _ => None
  end.

(** [await prisma.testRun.create({ data })], given the database's answer:
    it rejects with the database's error, or when a row has the generated
    id. [createdAt] is the time of the insert; the empty object stored as
    [resultSummary] is the absent report. *)
Definition prisma_testRun_create (answer : Res string) (testType endpoint method : string)
    (status : RunStatus) : M ServerState string :=
  fun _ s =>
    let w := worker_state s in
    match answer with
    | Throw message => (Throw message, s)
    | Ok id =>
        match db w !! id with
        | Some _ => (Throw "Unique constraint failed on the fields: (`id`)", s)
        | None =>
            (Ok id,
             {| worker_state :=
                  {| net := net w;
                     db := <[id := {| TestRun.projectId := None;
                                      TestRun.testType := testType;
                                      TestRun.status := status;
                                      TestRun.verdict := None;
                                      TestRun.endpoint := endpoint;
                                      TestRun.method := method;
                                      TestRun.resultSummary := None;
                                      TestRun.logs := None;
                                      TestRun.createdAt := clock (net w);
                                      TestRun.finishedAt := None |}]> (db w);
                     status_writes := status_writes w |};
                queue := queue s |})
        end
    end.

(** [await testQueue.add(name, data)], given the queue's answer. *)
Definition testQueue_add (answer : Res unit) (name : string) (data : TestJobData.t)
    : M ServerState unit :=
  fun _ s =>
    match answer with
    | Throw message => (Throw message, s)
    | Ok _ =>
        (Ok tt, {| worker_state := worker_state s; queue := queue s ++ [(name, data)] |})
    end.

(** [createTestRun(req, res)], given the body of the request and the
    answers of the database and of the queue; the result is the reply
    sent. *)
Definition createTestRun (backend : Backend.t) (req_body : value) : M ServerState Reply.t :=
  try_catch
    (let! data :=
       match RunTestSchema_parse req_body with
       | Some data => ret data
       | None => throw "ZodError"
       end in
     let! testRun_id :=
       prisma_testRun_create (Backend.database backend)
         (RunTestInput.testType data) (RunTestInput.endpoint data)
         (RunTestInput.method data) PENDING in
     testQueue_add (Backend.redis backend) "execute-test"
       {| TestJobData.testRunId := testRun_id;
          TestJobData.config :=
            {| JobConfig.testType := RunTestInput.testType data;
               JobConfig.url := RunTestInput.endpoint data;
               JobConfig.method := RunTestInput.method data;
               JobConfig.headers := RunTestInput.headers data;
               JobConfig.body := RunTestInput.body data |} |} ;;;
     ret {| Reply.code := 202; Reply.json := Queued testRun_id |})
    (fun _ => ret {| Reply.code := 400; Reply.json := InvalidRequest |}).

End intake.

(* ===================================================================== *)
(** ** Vocabulary of the statements *)
(* ===================================================================== *)

Section vocabulary.
Context `{Host}.

(** The field [field] has changed between the two bodies, in the sense of
    the test [!_.isEqual(_.get(body1, field), _.get(body2, field))]. *)
Definition changed (body1 body2 : value) (field : string) : Prop :=
  lodash_isEqual (lodash_get body1 field) (lodash_get body2 field) = false.

(** The question [analyzeIdempotencySchema] puts to the oracle, if any. *)
Definition schema_questions (responseBody : value) (status : Z) : list Question :=
  if negb (truthy responseBody) || (length (Object_keys responseBody) =? 0)%nat
  then [] else [AskSchema responseBody status].

(** A schema lists the strings [fields] under [key]: these are the fields
    the loop of [validateBodies] over [schema.key || []] walks. *)
Definition lists (schema : value) (key : string) (fields : list string) : Prop :=
  field_list schema key = Ok (map VStr fields).

(** A value a template literal can print. *)
Definition printable (v : value) : Prop := exists text, ToString v = Ok text.

End vocabulary.

(** The promise of the first and of the second request of an idempotency
    probe started in state [s], and how they settle. *)
Definition P1 (e : Env) (s : NetState) : Promise AxiosResponse.t :=
  axios_net e (length (calls s)).

Definition P2 (e : Env) (s : NetState) : Promise AxiosResponse.t :=
  axios_net e (Datatypes.S (length (calls s))).

Definition R1 (e : Env) (s : NetState) : Res AxiosResponse.t :=
  outcome (axios_net e (length (calls s))).

Definition R2 (e : Env) (s : NetState) : Res AxiosResponse.t :=
  outcome (axios_net e (Datatypes.S (length (calls s)))).

(** The answers of the target to the [BATCH_SIZE] requests of a burst whose
    first request is call number [first]. *)
Definition burst_answers (e : Env) (first : nat) : list (Res FetchResponse.t) :=
  map (fun i => outcome (fetch_net e i)) (seq first BATCH_SIZE).

(** A request of the burst succeeds when it resolves with a 2xx status. *)
Definition burst_success (r : Res FetchResponse.t) : bool :=
  match r with
  | Ok res => FetchResponse.ok res
  | Throw _ => false
  end.

(** The status it is tallied under: 0 when the call failed. *)
Definition burst_status (r : Res FetchResponse.t) : Z :=
  match r with
  | Ok res => FetchResponse.status res
  | Throw _ => 0
  end.

(** What a request of the burst resolves to, after its [then] and its
    [catch]. *)
Definition burst_response (r : Res FetchResponse.t) : BurstResponse.t :=
  match r with
  | Ok res => on_response res
  | Throw message => on_error message
  end.

(** The number of successes among the answers to a burst. *)
Definition burst_successes (e : Env) (first : nat) : nat :=
  length (List.filter burst_success (burst_answers e first)).

(** The call a request of the burst issues, and the question step 1 asks. *)
Definition burst_call (config : RaceConfig.t) : HttpCall :=
  FetchCall (RaceConfig.url config)
    {| FetchInit.method := RaceConfig.method config;
       FetchInit.headers := RaceConfig.headers config;
       FetchInit.body :=
         if truthy (RaceConfig.body config)
         then Some (RaceConfig.body config) else None |}.

Definition race_question (config : RaceConfig.t) : Question :=
  AskRaceIntent (RaceConfig.method config) (RaceConfig.url config) (RaceConfig.body config).

(** The constraint the race runner starts with. *)
Definition default_constraint : Constraint.t :=
  {| Constraint.max_successes := of_Z 1;
     Constraint.reason := VStr "Default strict safety" |}.

(** The call a request of the idempotency probe issues. *)
Definition idempotency_call (config : IdempotencyConfig.t) : HttpCall :=
  AxiosCall
    {| AxiosRequestConfig.method := IdempotencyConfig.method config;
       AxiosRequestConfig.url := IdempotencyConfig.url config;
       AxiosRequestConfig.headers := IdempotencyConfig.headers config;
       AxiosRequestConfig.data := IdempotencyConfig.body config;
       AxiosRequestConfig.timeout := 8000 |}.

(** The result of the runner's [catch] block. *)
Definition execution_error (message : string) : IdempotencyResult.t :=
  {| IdempotencyResult.verdict := ERROR;
     IdempotencyResult.title := "Execution Error";
     IdempotencyResult.description := VStr ("Test runner failed: " ++ message);
     IdempotencyResult.meta := idempotency_meta 0 0 0 0 |}.

(** The schema [analyzeIdempotencySchema] returns without a question, and
    the one it passes as fallback. *)
Definition empty_schema : value :=
  VObj [("identity", VArr []); ("noise", VArr []); ("data", VArr [])].

Definition fallback_schema (responseBody : value) : value :=
  VObj [("identity", VArr []); ("noise", VArr []);
        ("data", strings (Object_keys responseBody))].

(** The judgment [evaluateIdempotencyMismatch] passes as fallback, and the
    reply [analyzeRaceConditionIntent] passes as fallback. *)
Definition fallback_judgment : value :=
  VObj [("verdict", FAIL);
        ("reason", VStr "AI Analysis Failed, defaulting to strict fail.")].

Definition fallback_intent : value :=
  VObj [("max_successes", VNum (of_Z 1)); ("reason", VStr "Fallback Default")].

(** The schema [analyzeIdempotencySchema] returns for a body when the
    oracle's next reply on the schema channel is [reply]: the empty schema,
    without a question, for a body that is falsy or has no keys; else the
    reply as it is, or the fallback when the call or the parse fails. *)
Definition schema_for (reply : GroqOutcome) (responseBody : value) : value :=
  if negb (truthy responseBody) || (length (Object_keys responseBody) =? 0)%nat then
    empty_schema
  else
    match reply with
    | GroqParsed schema => schema
    | GroqError _ => fallback_schema responseBody
    end.

(** The row of a job that is completed, and the row of a job that has
    failed with a message. *)
Definition completed (row : TestRun.t) (result : ProbeResult) (finishedAt : Z) : TestRun.t :=
  {| TestRun.projectId := TestRun.projectId row;
     TestRun.testType := TestRun.testType row;
     TestRun.status := COMPLETED;
     TestRun.verdict := Some (result_verdict result);
     TestRun.endpoint := TestRun.endpoint row;
     TestRun.method := TestRun.method row;
     TestRun.resultSummary := Some result;
     TestRun.logs := TestRun.logs row;
     TestRun.createdAt := TestRun.createdAt row;
     TestRun.finishedAt := Some finishedAt |}.

Definition failed (row : TestRun.t) (message : string) (finishedAt : Z) : TestRun.t :=
  {| TestRun.projectId := TestRun.projectId row;
     TestRun.testType := TestRun.testType row;
     TestRun.status := FAILED;
     TestRun.verdict := Some ERROR;
     TestRun.endpoint := TestRun.endpoint row;
     TestRun.method := TestRun.method row;
     TestRun.resultSummary := TestRun.resultSummary row;
     TestRun.logs := Some message;
     TestRun.createdAt := TestRun.createdAt row;
     TestRun.finishedAt := Some finishedAt |}.

(** The row the controller inserts for a request, and the job it queues
    for the row. *)
Definition pending_row (data : RunTestInput.t) (createdAt : Z) : TestRun.t :=
  {| TestRun.projectId := None;
     TestRun.testType := RunTestInput.testType data;
     TestRun.status := PENDING;
     TestRun.verdict := None;
     TestRun.endpoint := RunTestInput.endpoint data;
     TestRun.method := RunTestInput.method data;
     TestRun.resultSummary := None;
     TestRun.logs := None;
     TestRun.createdAt := createdAt;
     TestRun.finishedAt := None |}.

Definition job_for (id : string) (data : RunTestInput.t) : TestJobData.t :=
  {| TestJobData.testRunId := id;
     TestJobData.config :=
       {| JobConfig.testType := RunTestInput.testType data;
          JobConfig.url := RunTestInput.endpoint data;
          JobConfig.method := RunTestInput.method data;
          JobConfig.headers := RunTestInput.headers data;
          JobConfig.body := RunTestInput.body data |} |}.

(** The statuses written for run [id], oldest first. *)
Definition writes_of (id : string) (writes : list (string * RunStatus)) : list RunStatus :=
  map snd (List.filter (fun w => String.eqb (fst w) id) writes).

(** The transitions of the status of a run that the specification calls
    legal, PENDING -> RUNNING -> {COMPLETED | FAILED}, and the histories
    made of legal transitions only. *)
Definition legal_transition (from to : RunStatus) : bool :=
  match from, to with
  | PENDING, RUNNING => true
  | RUNNING, COMPLETED => true
  | RUNNING, FAILED => true
  | _, _ => false
  end.

Fixpoint legal_history (from : RunStatus) (writes : list RunStatus) : bool :=
  match writes with
  | [] => true
  | to :: rest => legal_transition from to && legal_history to rest
  end.

(** The verdict rule of the race-condition probe, as the specification words
    it. *)
Definition race_verdict_rule (successCount failCount : nat) (maxSuccesses : number)
    : value * string :=
  if num_gt (of_nat successCount) maxSuccesses then (FAIL, "Race Condition Detected")
  else if (successCount =? 0)%nat && (0 <? failCount)%nat then (WARN, "Endpoint Unstable")
  else (PASS, "Race Condition Safe").

(* ===================================================================== *)
(** ** A host and some worlds to evaluate the model on *)
(* ===================================================================== *)

Fixpoint value_eqb (a b : value) : bool :=
  match a, b with
  | VUndefined, VUndefined => true
  | VNull, VNull => true
  | VBool x, VBool y => Bool.eqb x y
  | VNum NaN, VNum NaN => true
  | VNum x, VNum y => num_eq x y
  | VStr x, VStr y => String.eqb x y
  | VArr xs, VArr ys =>
      (fix items (xs ys : list value) : bool :=
         match xs, ys with
         | [], [] => true
         | x :: xs', y :: ys' => value_eqb x y && items xs' ys'
         | _, _ => false
         end) xs ys
  | VObj ps, VObj qs =>
      (fix props (ps qs : list (string * value)) : bool :=
         match ps, qs with
         | [], [] => true
         | (k, x) :: ps', (l, y) :: qs' => String.eqb k l && value_eqb x y && props ps' qs'
         | _, _ => false
         end) ps qs
  | _, _ => false
  end.

Fixpoint decimal (s : string) (acc : Z) : number :=
  match s with
  | EmptyString => of_Z acc
  | String c rest =>
      let d := Z.of_nat (Ascii.nat_of_ascii c) - 48 in
      if (0 <=? d) && (d <=? 9) then decimal rest (10 * acc + d) else NaN
  end.

Definition top_level (body : value) (field : string) : value :=
  match body with
  | VObj props => assoc field props
  | _ => VUndefined
  end.

(** A host that agrees with lodash and with the runtime on top-level keys
    given as strings, on values whose objects list their keys in the same
    order, on integers and on strings of decimal digits; its TypeErrors
    carry the messages of V8. *)
Definition example_host : Host :=
  {| lodash_get := top_level;
     lodash_get_path := fun _ _ => Ok VUndefined;
     lodash_isEqual := value_eqb;
     NumberToString := fun n =>
       match n with
       | NaN => "NaN"
       | Infinity true => "-Infinity"
       | Infinity false => "Infinity"
       | Fin q => if (Zpos (Qden q) =? 1) then pretty (Qnum q)
                  else pretty (Qnum q) ++ "/" ++ pretty (Zpos (Qden q))
       end;
     StringToNumber := fun s => decimal s 0;
     TypeError_message := fun kind =>
       match kind with
       | ReadOfNullish v key =>
           "Cannot read properties of "
           ++ match v with VNull => "null" | _ => "undefined" end
           ++ " (reading '" ++ key ++ "')"
       | NotIterable _ => "object is not iterable"
       | NotPrimitive _ => "Cannot convert object to primitive value"
       end |}.

(** The [k]-th element of a list of answers, [d] past its end. *)
Definition script {A} (answers : list A) (d : A) : nat -> A :=
  fun k => nth k answers d.

Definition responds (status : Z) (data : value) : Promise AxiosResponse.t :=
  {| took := 20;
     outcome := Ok {| AxiosResponse.status := status; AxiosResponse.data := data |} |}.

Definition times_out : Promise AxiosResponse.t :=
  {| took := 8000; outcome := Throw "timeout of 8000ms exceeded" |}.

Definition burst_responds (status : Z) : Promise FetchResponse.t :=
  {| took := 15;
     outcome := Ok {| FetchResponse.status := status; FetchResponse.text := Ok EmptyString |} |}.

Definition burst_fails : Promise FetchResponse.t :=
  {| took := 30; outcome := Throw "fetch failed" |}.

(** A world given by the answers of the target to axios and to fetch, with
    an oracle that is down. *)
Definition world_offline_oracle (axios_answers : list (Promise AxiosResponse.t))
    (fetch_answers : list (Promise FetchResponse.t)) : Env :=
  {| axios_net := script axios_answers times_out;
     fetch_net := script fetch_answers burst_fails;
     groq_schema := fun _ => GroqError "Connection error.";
     groq_mismatch := fun _ => GroqError "Connection error.";
     groq_race := fun _ => GroqError "Connection error." |}.

(** The same with an oracle that answers every question with the replies
    given. *)
Definition world (axios_answers : list (Promise AxiosResponse.t))
    (fetch_answers : list (Promise FetchResponse.t))
    (schema judgment intent : value) : Env :=
  {| axios_net := script axios_answers times_out;
     fetch_net := script fetch_answers burst_fails;
     groq_schema := fun _ => GroqParsed schema;
     groq_mismatch := fun _ => GroqParsed judgment;
     groq_race := fun _ => GroqParsed intent |}.

Definition fresh : NetState := {| clock := 0; calls := []; asked := [] |}.

Definition post_orders : IdempotencyConfig.t :=
  {| IdempotencyConfig.url := "https://shop.example/orders";
     IdempotencyConfig.method := "POST";
     IdempotencyConfig.headers := None;
     IdempotencyConfig.body := VObj [("sku", VStr "A-1")] |}.

Definition post_coupon : RaceConfig.t :=
  {| RaceConfig.url := "https://shop.example/coupon";
     RaceConfig.method := "POST";
     RaceConfig.headers := None;
     RaceConfig.body := VObj [("code", VStr "ONCE")] |}.

Definition account (id : string) (balance : Z) : value :=
  VObj [("id", VStr id); ("balance", VNum (of_Z balance))].

(** A response body whose [id] is an object that owns a key [toString]. *)
Definition boxed_account (id : string) (balance : Z) : value :=
  VObj [("id", VObj [("toString", VStr id)]); ("balance", VNum (of_Z balance))].

Definition by_id : value :=
  VObj [("identity", strings ["id"]); ("noise", VArr []); ("data", strings ["balance"])].

Definition strict_fail : value :=
  VObj [("verdict", FAIL); ("reason", VStr "Unrelated error on replay.")].

(** A reply on the race channel whose reason is an object that owns a key
    [toString]. *)
Definition single_use_boxed_reason : value :=
  VObj [("max_successes", VNum (of_Z 1));
        ("reason", VObj [("toString", VStr "single use")])].

Definition job_of (testRunId testType : string) : Job.t :=
  {| Job.id := "1";
     Job.data :=
       {| TestJobData.testRunId := testRunId;
          TestJobData.config :=
            {| JobConfig.testType := testType;
               JobConfig.url := "https://shop.example/orders";
               JobConfig.method := "POST";
               JobConfig.headers := None;
               JobConfig.body := VObj [("sku", VStr "A-1")] |} |} |}.

Definition run_row (testType : string) (status : RunStatus) : TestRun.t :=
  {| TestRun.projectId := None;
     TestRun.testType := testType;
     TestRun.status := status;
     TestRun.verdict := None;
     TestRun.endpoint := "https://shop.example/orders";
     TestRun.method := "POST";
     TestRun.resultSummary := None;
     TestRun.logs := None;
     TestRun.createdAt := 0;
     TestRun.finishedAt := None |}.

Definition store_with (id : string) (row : TestRun.t) : WorkerState :=
  {| net := fresh; db := {[ id := row ]}; status_writes := [] |}.

(** A URL check, a range check, a backend and a request to evaluate the
    intake on. *)
Definition has_http_scheme (s : string) : bool :=
  String.prefix "http://" s || String.prefix "https://" s.

Definition any_integer (n : number) : bool := true.

Definition backend_up (id : string) : Backend.t :=
  {| Backend.database := Ok id; Backend.redis := Ok tt |}.

Definition redis_down (id : string) : Backend.t :=
  {| Backend.database := Ok id; Backend.redis := Throw "connect ECONNREFUSED" |}.

Definition request_for (testType : string) : value :=
  VObj [("projectId", VStr "p-1");
        ("testType", VStr testType);
        ("endpoint", VStr "https://shop.example/orders");
        ("method", VStr "POST");
        ("headers", VObj [("Authorization", VStr "Bearer t")]);
        ("body", VObj [("sku", VStr "A-1")]);
        ("expectedStatus", VNum (of_Z 201))].

(** What the schema makes of [request_for testType], for a test type it
    admits. *)
Definition parsed_request (testType : string) : RunTestInput.t :=
  {| RunTestInput.projectId := Some "p-1";
     RunTestInput.testType := testType;
     RunTestInput.endpoint := "https://shop.example/orders";
     RunTestInput.method := "POST";
     RunTestInput.headers := Some (list_to_map [("Authorization", "Bearer t")]);
     RunTestInput.body := VObj [("sku", VStr "A-1")];
     RunTestInput.expectedStatus := Some (of_Z 201) |}.

Definition idle : ServerState :=
  {| worker_state := {| net := fresh; db := ∅; status_writes := [] |}; queue := [] |}.

(* ===================================================================== *)
(** * Properties *)
(* ===================================================================== *)

(** ** The monad *)

Section monad_facts.
Context {S : Type}.

Lemma bind_ext {A B} (m : M S A) (k1 k2 : A -> M S B) (e : Env) (s : S) :
  (forall a s', k1 a e s' = k2 a e s') -> bind m k1 e s = bind m k2 e s.
Proof.
  intros Hk. unfold bind. destruct (m e s) as [[a|message] s']; [apply Hk | reflexivity].
Qed.

Lemma try_catch_ext {A} (m1 m2 : M S A) (handler : string -> M S A) (e : Env) (s : S) :
  m1 e s = m2 e s -> try_catch m1 handler e s = try_catch m2 handler e s.
Proof. intros Hm. unfold try_catch. rewrite Hm. reflexivity. Qed.

(** A [try] whose [catch] block returns a value never throws. *)
Lemma try_catch_returns {A} (m : M S A) (recover : string -> A) (e : Env) (s : S) :
  exists a s', try_catch m (fun message => ret (recover message)) e s = (Ok a, s').
Proof.
  unfold try_catch, ret. destruct (m e s) as [[a|message] s']; eauto.
Qed.

End monad_facts.

(** ** The conversions *)

Section conversion_facts.
Context `{Host}.

Lemma ToString_VStr (text : string) : ToString (VStr text) = Ok text.
Proof. reflexivity. Qed.

Lemma printable_VStr (text : string) : printable (VStr text).
Proof. exists text. reflexivity. Qed.

(** A schema that is an object lists the items of the array it holds
    under a key, and nothing when it holds no such key. *)
Lemma field_list_strings (props : list (string * value)) (key : string) (fields : list string) :
  assoc key props = strings fields -> lists (VObj props) key fields.
Proof.
  intros Hkey. unfold lists, field_list, read. cbn [prop res_bind]. rewrite Hkey.
  reflexivity.
Qed.

End conversion_facts.

(** ** The oracle client *)

Section oracle_facts.
Context `{Host}.

(** [askGroqJSON] asks its question once and never throws: it returns the
    parsed reply as it is, or its [fallback] argument when the call or the
    parse fails. *)
Lemma askGroqJSON_returns (channel : Env -> nat -> GroqOutcome)
    (prompt : Question) (fallback : value) (e : Env) (s : NetState) :
  askGroqJSON channel prompt fallback e s
  = (Ok (match channel e (length (asked s)) with
         | GroqParsed reply => reply
         | GroqError _ => fallback
         end),
     record_question prompt s).
Proof.
  unfold askGroqJSON, try_catch, bind, groq_completion, ret.
  destruct (channel e (length (asked s))); reflexivity.
Qed.

(** The schema the analysis returns, and the question it logs:
    [analyzeIdempotencySchema] never throws and issues no HTTP call. *)
Lemma analyzeIdempotencySchema_result (responseBody : value) (status : Z)
    (e : Env) (s : NetState) :
  analyzeIdempotencySchema responseBody status e s
  = (Ok (schema_for (groq_schema e (length (asked s))) responseBody),
     {| clock := clock s; calls := calls s;
        asked := asked s ++ schema_questions responseBody status |}).
Proof.
  unfold analyzeIdempotencySchema, schema_for, schema_questions.
  destruct (negb (truthy responseBody) || (length (Object_keys responseBody) =? 0)%nat).
  - unfold ret. rewrite app_nil_r. destruct s; reflexivity.
  - rewrite askGroqJSON_returns. unfold fallback_schema.
    destruct (groq_schema e (length (asked s))); reflexivity.
Qed.

Lemma evaluateIdempotencyMismatch_returns (req1 req2 : Z * value) (e : Env) (s : NetState) :
  evaluateIdempotencyMismatch req1 req2 e s
  = (Ok (match groq_mismatch e (length (asked s)) with
         | GroqParsed judgment => judgment
         | GroqError _ => fallback_judgment
         end),
     record_question (AskMismatch (fst req1) (snd req1) (fst req2) (snd req2)) s).
Proof. unfold evaluateIdempotencyMismatch. apply askGroqJSON_returns. Qed.

End oracle_facts.

(** ** validateBodies *)

Section validateBodies_facts.
Context `{Host}.

(** What a loop of [validateBodies] over fields that are strings returns:
    it does not throw, and it stops at the first changed field. *)
Lemma first_changed_cases (body1 body2 : value) (fields : list string) :
  match first_changed body1 body2 (map VStr fields) with
  | Ok (Some d) =>
      exists pre g post,
        fields = (pre ++ g :: post)%list /\
        Forall (fun x => ~ changed body1 body2 x) pre /\
        changed body1 body2 g /\
        d = {| Diff.field := VStr g;
               Diff.val1 := lodash_get body1 g;
               Diff.val2 := lodash_get body2 g |}
  | Ok None => Forall (fun x => ~ changed body1 body2 x) fields
  | Throw _ => False
  end.
Proof.
  induction fields as [|x fields IH]; cbn [map first_changed get res_bind]; [constructor|].
  destruct (lodash_isEqual (lodash_get body1 x) (lodash_get body2 x)) eqn:E; cbn [negb].
  - destruct (first_changed body1 body2 (map VStr fields)) as [[d|]|message].
    + destruct IH as (pre & g & post & -> & Hpre & Hg & Hd).
      exists (x :: pre), g, post. repeat split; try assumption.
      constructor; [|exact Hpre]. unfold changed. congruence.
    + constructor; [|exact IH]. unfold changed. congruence.
    + exact IH.
  - exists [], x, fields. repeat split; auto.
Qed.

(** The loop stops at the first changed field of the list. *)
Lemma first_changed_stops (body1 body2 : value) (fields : list string) (f : string) :
  f ∈ fields -> changed body1 body2 f ->
  exists pre g post,
    fields = (pre ++ g :: post)%list /\
    Forall (fun x => ~ changed body1 body2 x) pre /\
    changed body1 body2 g /\
    first_changed body1 body2 (map VStr fields)
    = Ok (Some {| Diff.field := VStr g;
                  Diff.val1 := lodash_get body1 g;
                  Diff.val2 := lodash_get body2 g |}).
Proof.
  intros Hin Hch. pose proof (first_changed_cases body1 body2 fields) as Hcases.
  destruct (first_changed body1 body2 (map VStr fields)) as [[d|]|message].
  - destruct Hcases as (pre & g & post & Hsplit & Hpre & Hg & ->).
    exists pre, g, post. auto.
  - exfalso. rewrite Forall_forall in Hcases. exact (Hcases _ Hin Hch).
  - destruct Hcases.
Qed.

Lemma first_changed_none (body1 body2 : value) (fields : list string) :
  Forall (fun x => ~ changed body1 body2 x) fields ->
  first_changed body1 body2 (map VStr fields) = Ok None.
Proof.
  intros Hall. pose proof (first_changed_cases body1 body2 fields) as Hcases.
  destruct (first_changed body1 body2 (map VStr fields)) as [[d|]|message].
  - exfalso. destruct Hcases as (pre & g & post & -> & _ & Hg & _).
    rewrite Forall_forall in Hall. apply (Hall g); [|exact Hg].
    apply elem_of_app. right. apply list_elem_of_here.
  - reflexivity.
  - destruct Hcases.
Qed.

(** [validateBodies] when an identity field has changed: the two values of
    the first such field are converted to strings, which is where the
    function can throw; the data fields are not read. *)
Lemma validateBodies_identity_changed (body1 body2 schema : value) (ids : list string)
    (d : Diff.t) :
  lists schema "identity" ids ->
  first_changed body1 body2 (map VStr ids) = Ok (Some d) ->
  exists g,
    Diff.field d = VStr g /\
    validateBodies body1 body2 schema
    = let? val1 := ToString (Diff.val1 d) in
      let? val2 := ToString (Diff.val2 d) in
      Ok {| Validation.verdict := FAIL;
            Validation.title := "Double Execution Detected";
            Validation.description :=
              "Critical identity field '" ++ g ++ "' changed from '"
              ++ val1 ++ "' to '" ++ val2
              ++ "'. This implies a new resource was created.";
            Validation.diff := Some d |}.
Proof.
  intros Hids Hfc. unfold lists in Hids. unfold validateBodies.
  rewrite Hids. cbn [res_bind]. rewrite Hfc. cbn [res_bind].
  pose proof (first_changed_cases body1 body2 ids) as Hi. rewrite Hfc in Hi.
  destruct Hi as (pre & g & post & _ & _ & _ & ->). exists g. split; reflexivity.
Qed.

(** [validateBodies] when no identity field has changed: it does not
    throw. *)
Lemma validateBodies_identity_stable (body1 body2 schema : value) (ids ds : list string) :
  lists schema "identity" ids ->
  lists schema "data" ds ->
  first_changed body1 body2 (map VStr ids) = Ok None ->
  match first_changed body1 body2 (map VStr ds) with
  | Ok (Some d) =>
      exists g,
        Diff.field d = VStr g /\
        validateBodies body1 body2 schema
        = Ok {| Validation.verdict := WARN;
                Validation.title := "State Mutation Detected";
                Validation.description :=
                  "Field '" ++ g
                  ++ "' changed value. This might be a side-effect, but the resource ID remained stable.";
                Validation.diff := Some d |}
  | _ =>
      validateBodies body1 body2 schema
      = Ok {| Validation.verdict := PASS;
              Validation.title := "Idempotent Response";
              Validation.description :=
                "Response body is functionally identical (ignoring dynamic metadata).";
              Validation.diff := None |}
  end.
Proof.
  intros Hids Hds Hfc. unfold lists in Hids, Hds. unfold validateBodies.
  rewrite Hids. cbn [res_bind]. rewrite Hfc. cbn [res_bind]. rewrite Hds. cbn [res_bind].
  pose proof (first_changed_cases body1 body2 ds) as Hd.
  destruct (first_changed body1 body2 (map VStr ds)) as [[d|]|message']; cbn [res_bind].
  - destruct Hd as (pre & g & post & _ & _ & _ & ->). exists g. split; reflexivity.
  - reflexivity.
  - destruct Hd.
Qed.

End validateBodies_facts.

(** ** The idempotency runner *)

(** Run the probe up to the point where an answer of the outside world is
    needed. *)
Ltac idempotency_start :=
  unfold runIdempotencyTest, runIdempotencyTest_single_mismatch_block, status_mismatch,
    try_catch, bind, performance_now, axios, await, setTimeout, ret, pure;
  cbn -[analyzeIdempotencySchema evaluateIdempotencyMismatch validateBodies read
        Z.sub Z.add].

(** Step over the schema analysis, which leaves the calls as they are. *)
Ltac idempotency_schema :=
  rewrite analyzeIdempotencySchema_result;
  cbn -[evaluateIdempotencyMismatch validateBodies read Z.sub Z.add];
  rewrite ?length_app; cbn [length]; rewrite ?Nat.add_1_r.

Section idempotency_facts.
Context `{Host}.

(** C8. When the first response has a status of 500 or more, the runner
    returns FAIL, "Server Crash", with [req2Status] (and [req2Time]) 0: it
    has issued the first request only, and has asked the oracle nothing. *)
Theorem server_crash_stops_after_first_request
    (config : IdempotencyConfig.t) (e : Env) (s : NetState) (res1 : AxiosResponse.t) :
  R1 e s = Ok res1 ->
  500 <= AxiosResponse.status res1 ->
  exists r s' request,
    runIdempotencyTest config e s = (Ok r, s') /\
    IdempotencyResult.verdict r = FAIL /\
    IdempotencyResult.title r = "Server Crash" /\
    IdempotencyMeta.req1Status (IdempotencyResult.meta r) = AxiosResponse.status res1 /\
    IdempotencyMeta.req2Status (IdempotencyResult.meta r) = 0 /\
    IdempotencyMeta.req2Time (IdempotencyResult.meta r) = 0 /\
    calls s' = (calls s ++ [AxiosCall request])%list /\
    asked s' = asked s.
Proof.
  intros H1 Hs. unfold R1 in H1.
  idempotency_start. rewrite H1.
  destruct (Z.geb_spec (AxiosResponse.status res1) 500); [|lia].
  cbn. eexists _, _, _. repeat split.
Qed.

(** C3. When the first response has a 2xx status and the second has status
    409, the runner returns PASS, "Conflict Correctly Handled", whatever the
    two bodies and whatever the oracle would say: the mismatch adjudicator
    is not consulted (the only question asked is the schema analysis, if
    any) and the bodies are not compared. *)
Theorem gold_standard_conflict
    (config : IdempotencyConfig.t) (e : Env) (s : NetState)
    (res1 res2 : AxiosResponse.t) :
  R1 e s = Ok res1 ->
  R2 e s = Ok res2 ->
  200 <= AxiosResponse.status res1 < 300 ->
  AxiosResponse.status res2 = 409 ->
  exists r s',
    runIdempotencyTest config e s = (Ok r, s') /\
    IdempotencyResult.verdict r = PASS /\
    IdempotencyResult.title r = "Conflict Correctly Handled" /\
    IdempotencyMeta.diff (IdempotencyResult.meta r) = None /\
    asked s'
    = (asked s ++ schema_questions (AxiosResponse.data res1) (AxiosResponse.status res1))%list.
Proof.
  intros H1 H2 Hs1 Hs2. unfold R1 in H1. unfold R2 in H2.
  idempotency_start. rewrite H1.
  destruct (Z.geb_spec (AxiosResponse.status res1) 500); [lia|].
  idempotency_schema. rewrite H2.
  destruct (Z.geb_spec (AxiosResponse.status res1) 200); [|lia].
  destruct (Z.ltb_spec (AxiosResponse.status res1) 300); [|lia].
  destruct (Z.eqb_spec (AxiosResponse.status res2) 409); [|lia].
  cbn. eexists _, _. repeat split.
Qed.

(** The run in which the gold-standard rule fires. *)
Lemma gold_run (config : IdempotencyConfig.t) (e : Env) (s : NetState)
    (res1 res2 : AxiosResponse.t) :
  R1 e s = Ok res1 ->
  R2 e s = Ok res2 ->
  200 <= AxiosResponse.status res1 < 300 ->
  AxiosResponse.status res2 = 409 ->
  exists s',
    runIdempotencyTest config e s
    = (Ok {| IdempotencyResult.verdict := PASS;
             IdempotencyResult.title := "Conflict Correctly Handled";
             IdempotencyResult.description :=
               VStr "Server identified the duplicate request and returned 409 Conflict.";
             IdempotencyResult.meta :=
               idempotency_meta (AxiosResponse.status res1) (AxiosResponse.status res2)
                                (took (P1 e s)) (took (P2 e s)) |}, s') /\
    calls s' = (calls s ++ [idempotency_call config; idempotency_call config])%list.
Proof.
  intros H1 H2 Hs1 Hs2. unfold R1 in H1. unfold R2 in H2. unfold P1, P2.
  idempotency_start. fold (idempotency_call config). rewrite H1.
  destruct (Z.geb_spec (AxiosResponse.status res1) 500); [lia|].
  idempotency_schema. rewrite H2.
  destruct (Z.geb_spec (AxiosResponse.status res1) 200); [|lia].
  destruct (Z.ltb_spec (AxiosResponse.status res1) 300); [|lia].
  destruct (Z.eqb_spec (AxiosResponse.status res2) 409); [|lia].
  cbn [andb]. rewrite !Z.add_simpl_l.
  eexists. split; [reflexivity|].
  cbn [calls record_call tick]. rewrite <- List.app_assoc. reflexivity.
Qed.

(** The run in which both requests resolve, the statuses differ and the
    gold-standard rule does not fire: the adjudicator is asked, and the
    result is built from the two properties read from its judgment, or is
    the [catch] block's when the judgment is null. *)
Lemma mismatch_run (config : IdempotencyConfig.t) (e : Env) (s : NetState)
    (res1 res2 : AxiosResponse.t) :
  R1 e s = Ok res1 ->
  R2 e s = Ok res2 ->
  AxiosResponse.status res1 < 500 ->
  AxiosResponse.status res1 <> AxiosResponse.status res2 ->
  ~ (200 <= AxiosResponse.status res1 < 300 /\ AxiosResponse.status res2 = 409) ->
  let questions :=
    schema_questions (AxiosResponse.data res1) (AxiosResponse.status res1) in
  let judgment :=
    match groq_mismatch e (length (asked s) + length questions) with
    | GroqParsed reply => reply
    | GroqError _ => fallback_judgment
    end in
  exists s',
    runIdempotencyTest config e s
    = (Ok match prop judgment "verdict", prop judgment "reason" with
          | Some verdict, Some reason =>
              {| IdempotencyResult.verdict := verdict;
                 IdempotencyResult.title :=
                   if strict_eq verdict PASS
                   then "Safe Idempotent Rejection"
                   else "Inconsistent Status Code";
                 IdempotencyResult.description := reason;
                 IdempotencyResult.meta :=
                   idempotency_meta (AxiosResponse.status res1) (AxiosResponse.status res2)
                                    (took (P1 e s)) (took (P2 e s)) |}
          | _, _ => execution_error (TypeError_message (ReadOfNullish judgment "verdict"))
          end, s') /\
    calls s' = (calls s ++ [idempotency_call config; idempotency_call config])%list /\
    asked s'
    = (asked s ++ questions
       ++ [AskMismatch (AxiosResponse.status res1) (AxiosResponse.data res1)
                       (AxiosResponse.status res2) (AxiosResponse.data res2)])%list.
Proof.
  intros H1 H2 Hs1 Hne Hgold questions judgment. unfold R1 in H1. unfold R2 in H2.
  unfold P1, P2.
  idempotency_start. fold (idempotency_call config). rewrite H1.
  destruct (Z.geb_spec (AxiosResponse.status res1) 500); [lia|].
  idempotency_schema. rewrite H2.
  assert (Hg : (AxiosResponse.status res1 >=? 200) && (AxiosResponse.status res1 <? 300)
               && (AxiosResponse.status res2 =? 409) = false).
  { apply not_true_is_false. intros Ht.
    apply andb_prop in Ht as [Ht H409]. apply andb_prop in Ht as [H200 H300].
    apply Hgold. lia. }
  rewrite Hg.
  destruct (Z.eqb_spec (AxiosResponse.status res1) (AxiosResponse.status res2)); [lia|].
  cbn [negb]. rewrite evaluateIdempotencyMismatch_returns.
  cbn [asked record_question record_call tick fst snd]. rewrite length_app.
  fold questions. fold judgment.
  unfold read. clearbody judgment. rewrite !Z.add_simpl_l.
  destruct judgment as [| |b|num|str|items|props];
    cbn [prop];
    (eexists; split;
     [ reflexivity
     | split; cbn [calls asked record_question record_call tick];
       rewrite <- List.app_assoc; reflexivity ]).
Qed.

(** C5, as the code has it. When the two statuses differ and the
    gold-standard rule has not fired, the runner asks the mismatch
    adjudicator about the two (status, body) pairs. When the call or the
    parse of the reply fails, it returns FAIL, "Inconsistent Status Code",
    with the description "AI Analysis Failed, defaulting to strict fail.".
    When the reply parses to a value other than null, it returns the
    [verdict] and the [reason] read from that value, whatever they are, as
    the verdict and the description. When the reply parses to null, reading
    its verdict throws and the result is the [catch] block's. *)
Theorem status_mismatch_is_adjudicated
    (config : IdempotencyConfig.t) (e : Env) (s : NetState)
    (res1 res2 : AxiosResponse.t) :
  R1 e s = Ok res1 ->
  R2 e s = Ok res2 ->
  AxiosResponse.status res1 < 500 ->
  AxiosResponse.status res1 <> AxiosResponse.status res2 ->
  ~ (200 <= AxiosResponse.status res1 < 300 /\ AxiosResponse.status res2 = 409) ->
  let questions :=
    schema_questions (AxiosResponse.data res1) (AxiosResponse.status res1) in
  exists r s',
    runIdempotencyTest config e s = (Ok r, s') /\
    asked s'
    = (asked s ++ questions
       ++ [AskMismatch (AxiosResponse.status res1) (AxiosResponse.data res1)
                       (AxiosResponse.status res2) (AxiosResponse.data res2)])%list /\
    match groq_mismatch e (length (asked s) + length questions) with
    | GroqError _ =>
        IdempotencyResult.verdict r = FAIL /\
        IdempotencyResult.title r = "Inconsistent Status Code" /\
        IdempotencyResult.description r
        = VStr "AI Analysis Failed, defaulting to strict fail." /\
        IdempotencyMeta.req1Status (IdempotencyResult.meta r) = AxiosResponse.status res1 /\
        IdempotencyMeta.req2Status (IdempotencyResult.meta r) = AxiosResponse.status res2
    | GroqParsed reply =>
        match prop reply "verdict", prop reply "reason" with
        | Some verdict, Some reason =>
            IdempotencyResult.verdict r = verdict /\
            IdempotencyResult.title r
            = (if strict_eq verdict PASS
               then "Safe Idempotent Rejection" else "Inconsistent Status Code") /\
            IdempotencyResult.description r = reason /\
            IdempotencyMeta.req1Status (IdempotencyResult.meta r)
            = AxiosResponse.status res1 /\
            IdempotencyMeta.req2Status (IdempotencyResult.meta r)
            = AxiosResponse.status res2
        | _, _ =>
            r = execution_error (TypeError_message (ReadOfNullish reply "verdict"))
        end
    end.
Proof.
  intros H1 H2 Hs1 Hne Hgold questions.
  destruct (mismatch_run config e s res1 res2 H1 H2 Hs1 Hne Hgold)
    as (s' & Hrun & _ & Hasked).
  eexists _, s'. split; [exact Hrun|]. split; [exact Hasked|].
  fold questions.
  destruct (groq_mismatch e (length (asked s) + length questions)) as [message|reply].
  - cbn. repeat split.
  - destruct (prop reply "verdict") as [verdict|]; [|reflexivity].
    destruct (prop reply "reason") as [reason|]; [|reflexivity].
    cbn. repeat split.
Qed.

(** C10. The second block guarded by [status1 !== status2] is never
    entered: the runner and the runner without that block return the same
    result and leave the same state, in every world. *)
Theorem duplicate_mismatch_block_unreachable
    (config : IdempotencyConfig.t) (e : Env) (s : NetState) :
  runIdempotencyTest config e s = runIdempotencyTest_single_mismatch_block config e s.
Proof.
  unfold runIdempotencyTest, runIdempotencyTest_single_mismatch_block.
  apply try_catch_ext.
  repeat (apply bind_ext; intros).
  destruct (_ >=? 500); [reflexivity|].
  repeat (apply bind_ext; intros).
  destruct (_ && _); [reflexivity|].
  destruct (negb _); reflexivity.
Qed.

(** The run in which both requests resolve and the statuses are equal: the
    bodies are compared, strictly when the first is not an object, under the
    schema otherwise; when [validateBodies] throws, the result is the
    [catch] block's. *)
Lemma same_status_run (config : IdempotencyConfig.t) (e : Env) (s : NetState)
    (res1 res2 : AxiosResponse.t) :
  R1 e s = Ok res1 ->
  AxiosResponse.status res1 < 500 ->
  R2 e s = Ok res2 ->
  AxiosResponse.status res2 = AxiosResponse.status res1 ->
  let body1 := AxiosResponse.data res1 in
  let body2 := AxiosResponse.data res2 in
  let schema := schema_for (groq_schema e (length (asked s))) body1 in
  let measured :=
    idempotency_meta (AxiosResponse.status res1) (AxiosResponse.status res2)
                     (took (P1 e s)) (took (P2 e s)) in
  exists s',
    runIdempotencyTest config e s
    = (Ok (if typeof_object body1 then
             match validateBodies body1 body2 schema with
             | Ok v =>
                 {| IdempotencyResult.verdict := Validation.verdict v;
                    IdempotencyResult.title := Validation.title v;
                    IdempotencyResult.description := VStr (Validation.description v);
                    IdempotencyResult.meta :=
                      {| IdempotencyMeta.req1Status := AxiosResponse.status res1;
                         IdempotencyMeta.req2Status := AxiosResponse.status res2;
                         IdempotencyMeta.req1Time := took (P1 e s);
                         IdempotencyMeta.req2Time := took (P2 e s);
                         IdempotencyMeta.aiSchema := Some schema;
                         IdempotencyMeta.diff := Validation.diff v |} |}
             | Throw message => execution_error message
             end
           else
             {| IdempotencyResult.verdict := if strict_eq body1 body2 then PASS else WARN;
                IdempotencyResult.title := "Non-JSON Response";
                IdempotencyResult.description :=
                  VStr "Response was text/html. Simple string comparison performed.";
                IdempotencyResult.meta := measured |}), s') /\
    calls s' = (calls s ++ [idempotency_call config; idempotency_call config])%list /\
    asked s' = (asked s ++ schema_questions body1 (AxiosResponse.status res1))%list.
Proof.
  intros H1 Hs1 H2 Hs2 body1 body2 schema measured. unfold R1 in H1. unfold R2 in H2.
  unfold P1, P2 in *.
  idempotency_start. fold (idempotency_call config). rewrite H1.
  destruct (Z.geb_spec (AxiosResponse.status res1) 500); [lia|].
  idempotency_schema. rewrite H2.
  assert (Hg : (AxiosResponse.status res1 >=? 200) && (AxiosResponse.status res1 <? 300)
               && (AxiosResponse.status res2 =? 409) = false).
  { apply not_true_is_false. intros Ht.
    apply andb_prop in Ht as [Ht H409]. apply andb_prop in Ht as [H200 H300]. lia. }
  rewrite Hg, Hs2, Z.eqb_refl. cbn [negb].
  fold body1. fold body2. fold schema. subst measured. rewrite !Z.add_simpl_l, Hs2.
  destruct (typeof_object body1); cbn [negb].
  - destruct (validateBodies body1 body2 schema) as [v|message];
      (eexists; split;
       [reflexivity
       |split; cbn [calls asked record_call tick]; rewrite <- ?List.app_assoc; reflexivity]).
  - eexists. split;
      [reflexivity
      |split; cbn [calls asked record_call tick]; rewrite <- ?List.app_assoc; reflexivity].
Qed.

End idempotency_facts.

(** ** The race-condition runner *)

Section race_facts.
Context `{Host}.

(** [analyzeRaceConditionIntent] asks one question, whether it returns or
    throws. *)
Lemma analyzeRaceConditionIntent_asks (method url : string) (body : value)
    (e : Env) (s : NetState) (r : Res RaceConstraint.t) (s' : NetState) :
  analyzeRaceConditionIntent method url body e s = (r, s') ->
  s' = record_question (AskRaceIntent method url body) s.
Proof.
  unfold analyzeRaceConditionIntent, bind. rewrite askGroqJSON_returns.
  unfold pure, ret, read.
  repeat (destruct (prop _ _)); try (intros [= <- <-]; reflexivity).
  all: destruct (strict_eq _ _); try destruct (Number _);
    try (intros [= <- <-]; reflexivity).
Qed.

(** What [analyzeRaceConditionIntent] makes of the reply it reads its two
    properties from. *)
Lemma analyzeRaceConditionIntent_reads (method url : string) (body : value)
    (e : Env) (s : NetState) (m reason : value) :
  let result :=
    match groq_race e (length (asked s)) with
    | GroqParsed reply => reply
    | GroqError _ => fallback_intent
    end in
  prop result "max_successes" = Some m ->
  prop result "reason" = Some reason ->
  analyzeRaceConditionIntent method url body e s
  = (if strict_eq m (VStr "UNLIMITED")
     then Ok {| RaceConstraint.max_successes := RaceConstraint.UNLIMITED;
                RaceConstraint.reason := or_else reason (VStr "AI Default") |}
     else
       let? n := Number m in
       Ok {| RaceConstraint.max_successes := RaceConstraint.Limit (num_or n (of_Z 1));
             RaceConstraint.reason := or_else reason (VStr "AI Default") |},
     record_question (AskRaceIntent method url body) s).
Proof.
  intros result Hm Hr. unfold analyzeRaceConditionIntent, bind.
  rewrite askGroqJSON_returns. fold fallback_intent. fold result.
  unfold pure, read. rewrite Hm.
  destruct (strict_eq m (VStr "UNLIMITED")).
  - unfold ret. rewrite Hr. reflexivity.
  - destruct (Number m) as [n|message]; [|reflexivity].
    unfold ret. rewrite Hr. reflexivity.
Qed.

(** The [constraint] variable after step 1: the normalised result of the
    analysis when that returns, the initial constraint when it throws. *)
Lemma infer_constraint_assigns (config : RaceConfig.t) (e : Env) (s : NetState) :
  infer_constraint config e s
  = (Ok match fst (analyzeRaceConditionIntent (RaceConfig.method config)
                     (RaceConfig.url config) (RaceConfig.body config) e s) with
        | Ok aiResult =>
            {| Constraint.max_successes :=
                 match RaceConstraint.max_successes aiResult with
                 | RaceConstraint.UNLIMITED => of_Z 9999
                 | RaceConstraint.Limit n => num_or n (of_Z 1)
                 end;
               Constraint.reason := RaceConstraint.reason aiResult |}
        | Throw _ => default_constraint
        end,
     record_question (race_question config) s).
Proof.
  unfold infer_constraint, try_catch. unfold bind at 1.
  destruct (analyzeRaceConditionIntent _ _ _ e s) as [[aiResult|message] s'] eqn:E;
    apply analyzeRaceConditionIntent_asks in E; subst s'; cbn [fst]; [|reflexivity].
  destruct aiResult as [[|n] reason]; cbn [RaceConstraint.max_successes RaceConstraint.reason];
    unfold bind, ret, pure; cbn [Number Constraint.reason];
    destruct (ToString reason); reflexivity.
Qed.

(** Step 1 never throws. *)
Lemma infer_constraint_returns (config : RaceConfig.t) (e : Env) (s : NetState) :
  exists constraint,
    infer_constraint config e s = (Ok constraint, record_question (race_question config) s).
Proof. eexists. apply infer_constraint_assigns. Qed.

(** Step 2 issues [n] calls; promise number [i] wraps the answer to call
    number [i]. *)
Lemma burst_issued (config : RaceConfig.t) (e : Env) (n : nat) : forall s : NetState,
  repeatM n (burst_request config) e s
  = (Ok (map (fun i => catch_ (then_ (fetch_net e i) on_response) on_error)
             (seq (length (calls s)) n)),
     {| clock := clock s;
        calls := calls s ++ replicate n (burst_call config);
        asked := asked s |}).
Proof.
  induction n as [|n IH]; intros s.
  - cbn. unfold ret. rewrite app_nil_r. destruct s; reflexivity.
  - cbn [repeatM]. unfold bind at 1. unfold burst_request at 1. unfold bind at 1.
    unfold fetch, ret at 1. unfold bind. rewrite IH. unfold ret.
    cbn [calls record_call clock asked]. rewrite length_app. cbn [length].
    rewrite Nat.add_1_r. cbn [seq map replicate].
    rewrite <- List.app_assoc. reflexivity.
Qed.

(** No promise of the burst rejects, so [Promise.all] resolves. *)
Lemma burst_settles (ps : list (Promise FetchResponse.t)) :
  all_outcomes (map (fun p => catch_ (then_ p on_response) on_error) ps)
  = Ok (map (fun p => burst_response (outcome p)) ps).
Proof.
  induction ps as [|p ps IH]; [reflexivity|].
  cbn [map all_outcomes]. rewrite IH. unfold catch_, then_. cbn.
  destruct (outcome p); reflexivity.
Qed.

Lemma tally_successes (rs : list (Res FetchResponse.t)) :
  length (List.filter (fun r => BurstResponse.ok r) (map burst_response rs))
  = length (List.filter burst_success rs).
Proof.
  induction rs as [|r rs IH]; [reflexivity|].
  cbn [map List.filter].
  replace (BurstResponse.ok (burst_response r)) with (burst_success r)
    by (destruct r; reflexivity).
  destruct (burst_success r); cbn [length]; congruence.
Qed.

Lemma tally_statuses (rs : list (Res FetchResponse.t)) :
  map BurstResponse.status (map burst_response rs) = map burst_status rs.
Proof.
  rewrite map_map. apply map_ext. intros [res|message]; reflexivity.
Qed.

(** The runner up to its last step: it asks one question, issues its ten
    calls, awaits them all, and ends as the tally and verdict of the answers
    end, under the constraint of step 1. It throws exactly when building the
    result throws. *)
Lemma runRaceConditionTest_outcome (config : RaceConfig.t) (e : Env) (s : NetState) :
  exists constraint s',
    infer_constraint config e s = (Ok constraint, record_question (race_question config) s) /\
    runRaceConditionTest config e s
    = (tally_and_verdict constraint
         (map burst_response (burst_answers e (length (calls s))))
         (foldr Z.max 0 (map (fun i => took (fetch_net e i))
                             (seq (length (calls s)) BATCH_SIZE))), s') /\
    calls s' = (calls s ++ replicate BATCH_SIZE (burst_call config))%list /\
    asked s' = (asked s ++ [race_question config])%list.
Proof.
  destruct (infer_constraint_returns config e s) as [c Hc].
  unfold runRaceConditionTest. unfold bind at 1. rewrite Hc.
  unfold bind at 1. rewrite burst_issued.
  unfold bind, performance_now, await, ret, pure. cbn [outcome took Promise_all].
  rewrite <- (map_map (fetch_net e) (fun p => catch_ (then_ p on_response) on_error)).
  rewrite burst_settles. rewrite !map_map.
  cbn [calls asked clock tick record_question took catch_ then_].
  rewrite Z.add_simpl_l.
  eexists _, _. split; [reflexivity|]. split; [reflexivity|]. split; reflexivity.
Qed.

(** The tally of any list of responses and the verdict drawn from it; the
    one way the step throws is the conversion of the reason in the
    description of a FAIL. *)
Lemma tally_and_verdict_cases (constraint : Constraint.t)
    (responses : list BurstResponse.t) (duration : Z) :
  let successes := length (List.filter (fun r => BurstResponse.ok r) responses) in
  match tally_and_verdict constraint responses duration with
  | Ok r =>
      let m := RaceResult.meta r in
      RaceMeta.aiConstraint m = constraint /\
      RaceMeta.totalRequests m = BATCH_SIZE /\
      RaceMeta.successCount m = successes /\
      (RaceMeta.successCount m + RaceMeta.failCount m)%nat = length responses /\
      RaceMeta.statusCodes m = Set_from [] (map BurstResponse.status responses) /\
      RaceMeta.durationMs m = duration /\
      (RaceResult.verdict r, RaceResult.title r)
      = race_verdict_rule (RaceMeta.successCount m) (RaceMeta.failCount m)
          (Constraint.max_successes constraint)
  | Throw message =>
      num_gt (of_nat successes) (Constraint.max_successes constraint) = true /\
      ToString (Constraint.reason constraint) = Throw message
  end.
Proof.
  unfold tally_and_verdict, race_verdict_rule.
  pose proof (List.filter_length (fun r => BurstResponse.ok r) responses) as Hsum.
  remember (length (List.filter (fun r => BurstResponse.ok r) responses)) as successes.
  remember (length (List.filter (fun r => negb (BurstResponse.ok r)) responses)) as failures.
  cbn zeta.
  destruct (num_gt (of_nat successes) (Constraint.max_successes constraint)) eqn:Egt;
    [destruct (ToString (Constraint.reason constraint)) as [reason|message]
    |destruct ((successes =? 0)%nat && (0 <? failures)%nat) eqn:Ezero];
    cbn -[num_gt Nat.eqb Nat.ltb]; rewrite ?Egt, ?Ezero; repeat split; exact Hsum.
Qed.

(** The verdict of a result is one of three literals, and ERROR is not
    among them. *)
Lemma race_verdict_rule_verdicts (successCount failCount : nat) (maxSuccesses : number) :
  fst (race_verdict_rule successCount failCount maxSuccesses) ∈ [FAIL; WARN; PASS].
Proof.
  unfold race_verdict_rule.
  destruct (num_gt _ _); [|destruct (_ && _)]; cbn [fst].
  - apply list_elem_of_here.
  - apply list_elem_of_further, list_elem_of_here.
  - do 2 apply list_elem_of_further. apply list_elem_of_here.
Qed.

(** The run of the race-condition probe, in every world: how it ends and,
    when it returns, what the result holds. *)
Lemma race_run (config : RaceConfig.t) (e : Env) (s : NetState) :
  exists constraint outcome s',
    infer_constraint config e s = (Ok constraint, record_question (race_question config) s) /\
    runRaceConditionTest config e s = (outcome, s') /\
    calls s' = (calls s ++ replicate BATCH_SIZE (burst_call config))%list /\
    asked s' = (asked s ++ [race_question config])%list /\
    let answers := burst_answers e (length (calls s)) in
    match outcome with
    | Ok r =>
        let m := RaceResult.meta r in
        RaceMeta.aiConstraint m = constraint /\
        RaceMeta.totalRequests m = BATCH_SIZE /\
        RaceMeta.successCount m = length (List.filter burst_success answers) /\
        (RaceMeta.successCount m + RaceMeta.failCount m)%nat = BATCH_SIZE /\
        RaceMeta.statusCodes m = Set_from [] (map burst_status answers) /\
        RaceMeta.durationMs m
        = foldr Z.max 0 (map (fun i => took (fetch_net e i))
                             (seq (length (calls s)) BATCH_SIZE)) /\
        (RaceResult.verdict r, RaceResult.title r)
        = race_verdict_rule (RaceMeta.successCount m) (RaceMeta.failCount m)
            (Constraint.max_successes constraint)
    | Throw message =>
        num_gt (of_nat (length (List.filter burst_success answers)))
               (Constraint.max_successes constraint) = true /\
        ToString (Constraint.reason constraint) = Throw message
    end.
Proof.
  destruct (runRaceConditionTest_outcome config e s)
    as (constraint & s' & Hinfer & Hrun & Hcalls & Hasked).
  exists constraint. eexists _, s'.
  split; [exact Hinfer|]. split; [exact Hrun|]. split; [exact Hcalls|].
  split; [exact Hasked|]. cbn zeta.
  pose proof (tally_and_verdict_cases constraint
                (map burst_response (burst_answers e (length (calls s))))
                (foldr Z.max 0 (map (fun i => took (fetch_net e i))
                                    (seq (length (calls s)) BATCH_SIZE)))) as Hcases.
  cbn zeta in Hcases. rewrite tally_successes in Hcases.
  destruct (tally_and_verdict _ _ _) as [r|message]; [|exact Hcases].
  cbn zeta in Hcases |- *.
  destruct Hcases as (Hc & Ht & Hs & Hsum & Hcodes & Hd & Hv).
  repeat split; try assumption.
  rewrite Hcodes, tally_statuses. reflexivity.
Qed.

(** When the conversion of the constraint's reason does not throw, or the
    successes do not exceed the maximum, the runner returns. *)
Lemma race_run_returns (config : RaceConfig.t) (e : Env) (s : NetState)
    (constraint : Constraint.t) :
  infer_constraint config e s = (Ok constraint, record_question (race_question config) s) ->
  printable (Constraint.reason constraint) \/
  num_gt (of_nat (burst_successes e (length (calls s))))
         (Constraint.max_successes constraint) = false ->
  exists r s', runRaceConditionTest config e s = (Ok r, s').
Proof.
  intros Hinfer Hok.
  destruct (race_run config e s)
    as (constraint' & outcome & s' & Hinfer' & Hrun & _ & _ & Hcases).
  rewrite Hinfer in Hinfer'. injection Hinfer' as <-.
  destruct outcome as [r|message]; [eauto|].
  exfalso. cbn zeta in Hcases. destruct Hcases as [Hgt Hthrows].
  destruct Hok as [[text Htext]|Hle].
  - congruence.
  - unfold burst_successes in Hle. congruence.
Qed.

End race_facts.

(** ** Failed calls and timeouts *)

Section failure_facts.
Context `{Host}.

(** The idempotency runner never throws; it issues one or two calls, each
    with a timeout of 8000 ms. *)
Lemma runIdempotencyTest_returns (config : IdempotencyConfig.t) (e : Env) (s : NetState) :
  exists r s' cs,
    runIdempotencyTest config e s = (Ok r, s') /\
    calls s' = (calls s ++ cs)%list /\
    Forall (fun c => call_timeout c = Some 8000) cs /\
    cs <> [].
Proof.
  assert (Hone : Forall (fun c => call_timeout c = Some 8000) [idempotency_call config])
    by (repeat constructor).
  assert (Htwo : Forall (fun c => call_timeout c = Some 8000)
                   [idempotency_call config; idempotency_call config])
    by (repeat constructor).
  pose (two_calls := fun s' : NetState =>
    calls s' = (calls s ++ [idempotency_call config; idempotency_call config])%list).
  assert (Hleaf : forall (r : IdempotencyResult.t) s', two_calls s' ->
    exists r0 s0 cs, (Ok r, s') = (Ok r0, s0) /\ calls s0 = (calls s ++ cs)%list /\
      Forall (fun c => call_timeout c = Some 8000) cs /\ cs <> []).
  { intros r s' Hs'. exists r, s', [idempotency_call config; idempotency_call config].
    repeat split; [exact Hs' | exact Htwo | discriminate]. }
  idempotency_start. fold (idempotency_call config).
  destruct (outcome (axios_net e (length (calls s)))) as [res1|m1].
  - destruct (AxiosResponse.status res1 >=? 500).
    + eexists _, _, _. repeat split; [exact Hone | discriminate].
    + idempotency_schema.
      destruct (outcome (axios_net e (S (length (calls s))))) as [res2|m2].
      * destruct (_ && _).
        { apply Hleaf. unfold two_calls. cbn. rewrite <- List.app_assoc. reflexivity. }
        destruct (negb _).
        { rewrite evaluateIdempotencyMismatch_returns.
          destruct (read _ "verdict"); [destruct (read _ "reason")|];
            apply Hleaf; unfold two_calls; cbn; rewrite <- List.app_assoc; reflexivity. }
        destruct (negb _); [|destruct (validateBodies _ _ _)];
          apply Hleaf; unfold two_calls; cbn; rewrite <- List.app_assoc; reflexivity.
      * apply Hleaf. unfold two_calls. cbn. rewrite <- List.app_assoc. reflexivity.
  - eexists _, _, _. repeat split; [exact Hone | discriminate].
Qed.

Lemma Set_from_elem (x : Z) (xs : list Z) : forall seen : list Z,
  x ∈ Set_from seen xs <-> x ∈ seen \/ x ∈ xs.
Proof.
  induction xs as [|y xs IH]; intros seen; cbn [Set_from].
  - rewrite elem_of_nil. tauto.
  - rewrite IH, elem_of_cons. destruct (decide (y ∈ seen)) as [Hy|Hy].
    + split; [tauto|]. intros [?|[->|?]]; auto.
    + rewrite elem_of_app, list_elem_of_singleton. tauto.
Qed.

(** A failure of the first request ends the probe in the [catch] block. *)
Lemma first_request_fails (config : IdempotencyConfig.t) (e : Env) (s : NetState)
    (message : string) :
  R1 e s = Throw message ->
  exists s',
    runIdempotencyTest config e s = (Ok (execution_error message), s') /\
    calls s' = (calls s ++ [idempotency_call config])%list /\
    asked s' = asked s.
Proof.
  intros H1. unfold R1 in H1. idempotency_start. rewrite H1.
  eexists. repeat split.
Qed.

(** So does a failure of the second request. *)
Lemma second_request_fails (config : IdempotencyConfig.t) (e : Env) (s : NetState)
    (res1 : AxiosResponse.t) (message : string) :
  R1 e s = Ok res1 ->
  AxiosResponse.status res1 < 500 ->
  R2 e s = Throw message ->
  exists s',
    runIdempotencyTest config e s = (Ok (execution_error message), s') /\
    calls s' = (calls s ++ [idempotency_call config; idempotency_call config])%list /\
    asked s'
    = (asked s ++ schema_questions (AxiosResponse.data res1) (AxiosResponse.status res1))%list.
Proof.
  intros H1 Hs H2. unfold R1 in H1. unfold R2 in H2.
  idempotency_start. rewrite H1.
  destruct (Z.geb_spec (AxiosResponse.status res1) 500); [lia|].
  idempotency_schema. rewrite H2.
  eexists. split; [reflexivity|]. split; [|reflexivity].
  cbn. rewrite <- List.app_assoc. reflexivity.
Qed.

(** C7, as the code has it. Each request of the idempotency probe is issued
    with a timeout of 8000 ms. A call of the race burst that fails (a
    timeout included) resolves to a response of status 0 that is not a
    success, and is tallied as such: whenever the race runner returns, its
    counts and its status codes are those of the ten answers, with 0 among
    the codes. In the idempotency probe a failed call yields the verdict
    ERROR, "Execution Error", with the four measurements of [meta] at 0,
    whether it is the first request or the second: a failure of the second
    request does not reach the classification rules, and the adjudicator is
    not asked. *)
Theorem failed_calls_and_timeouts
    (ci : IdempotencyConfig.t) (cr : RaceConfig.t)
    (e1 : Env) (s1 : NetState) (m1 : string)
    (e2 : Env) (s2 : NetState) (res1 : AxiosResponse.t) (m2 : string)
    (e3 : Env) (s3 : NetState) (i : nat) (m3 : string) :
  R1 e1 s1 = Throw m1 ->
  R1 e2 s2 = Ok res1 ->
  AxiosResponse.status res1 < 500 ->
  R2 e2 s2 = Throw m2 ->
  burst_answers e3 (length (calls s3)) !! i = Some (Throw m3) ->
  (exists s',
     runIdempotencyTest ci e1 s1 = (Ok (execution_error m1), s') /\
     asked s' = asked s1) /\
  (exists s',
     runIdempotencyTest ci e2 s2 = (Ok (execution_error m2), s') /\
     asked s'
     = (asked s2 ++ schema_questions (AxiosResponse.data res1)
                                     (AxiosResponse.status res1))%list) /\
  IdempotencyResult.verdict (execution_error m2) = ERROR /\
  IdempotencyResult.meta (execution_error m2) = idempotency_meta 0 0 0 0 /\
  (exists r s' cs,
     runIdempotencyTest ci e3 s3 = (Ok r, s') /\
     calls s' = (calls s3 ++ cs)%list /\
     cs <> [] /\
     Forall (fun c => call_timeout c = Some 8000) cs) /\
  BurstResponse.status (burst_response (Throw m3)) = 0 /\
  BurstResponse.ok (burst_response (Throw m3)) = false /\
  (exists constraint outcome s',
     runRaceConditionTest cr e3 s3 = (outcome, s') /\
     infer_constraint cr e3 s3 = (Ok constraint, record_question (race_question cr) s3) /\
     calls s' = (calls s3 ++ replicate BATCH_SIZE (burst_call cr))%list /\
     match outcome with
     | Ok r =>
         RaceMeta.successCount (RaceResult.meta r)
         = length (List.filter burst_success (burst_answers e3 (length (calls s3)))) /\
         (RaceMeta.successCount (RaceResult.meta r)
          + RaceMeta.failCount (RaceResult.meta r))%nat = BATCH_SIZE /\
         (1 <= RaceMeta.failCount (RaceResult.meta r))%nat /\
         RaceMeta.statusCodes (RaceResult.meta r)
         = Set_from [] (map burst_status (burst_answers e3 (length (calls s3)))) /\
         0 ∈ RaceMeta.statusCodes (RaceResult.meta r)
     | Throw message =>
         num_gt (of_nat (burst_successes e3 (length (calls s3))))
                (Constraint.max_successes constraint) = true /\
         ToString (Constraint.reason constraint) = Throw message
     end).
Proof.
  intros H1 H2 Hs H3 Hi.
  split; [|split; [|split; [|split; [|split; [|split; [|split]]]]]].
  - destruct (first_request_fails ci e1 s1 m1 H1) as (s' & Hrun & _ & Hasked).
    exists s'. split; assumption.
  - destruct (second_request_fails ci e2 s2 res1 m2 H2 Hs H3) as (s' & Hrun & _ & Hasked).
    exists s'. split; assumption.
  - reflexivity.
  - reflexivity.
  - destruct (runIdempotencyTest_returns ci e3 s3) as (r & s' & cs & Hrun & Hcalls & Hcs & Hne).
    exists r, s', cs. repeat split; assumption.
  - reflexivity.
  - reflexivity.
  - destruct (race_run cr e3 s3)
      as (constraint & outcome & s' & Hinfer & Hrun & Hcalls & _ & Hcases).
    exists constraint, outcome, s'. split; [exact Hrun|]. split; [exact Hinfer|].
    split; [exact Hcalls|]. cbn zeta in Hcases.
    destruct outcome as [r|message]; [|exact Hcases].
    destruct Hcases as (_ & _ & Hsucc & Hsum & Hcodes & _ & _).
    assert (Hfailed : (length (List.filter burst_success (burst_answers e3 (length (calls s3))))
                       < length (burst_answers e3 (length (calls s3))))%nat).
    { apply list_elem_of_lookup_2 in Hi. apply list_elem_of_split in Hi as (l1 & l2 & ->).
      rewrite List.filter_app, !length_app. cbn [List.filter burst_success length].
      pose proof (List.filter_length_le burst_success l1).
      pose proof (List.filter_length_le burst_success l2). lia. }
    assert (Hten : length (burst_answers e3 (length (calls s3))) = BATCH_SIZE).
    { unfold burst_answers. rewrite length_map, length_seq. reflexivity. }
    repeat split; try assumption.
    + lia.
    + rewrite Hcodes. apply Set_from_elem. right.
      apply (list_elem_of_fmap_2 burst_status _ (Throw m3)).
      eapply list_elem_of_lookup_2. exact Hi.
Qed.

End failure_facts.

(** ** Oracle failures *)

Section fallback_facts.
Context `{Host}.

Lemma schema_for_failure (message : string) (responseBody : value) (status : Z) :
  schema_questions responseBody status <> [] ->
  schema_for (GroqError message) responseBody = fallback_schema responseBody.
Proof.
  unfold schema_questions, schema_for.
  destruct (negb (truthy responseBody) || (length (Object_keys responseBody) =? 0)%nat);
    congruence.
Qed.

Lemma analyzeRaceConditionIntent_fallback (method url : string) (body : value)
    (e : Env) (s : NetState) (message : string) :
  groq_race e (length (asked s)) = GroqError message ->
  analyzeRaceConditionIntent method url body e s
  = (Ok {| RaceConstraint.max_successes := RaceConstraint.Limit (of_Z 1);
           RaceConstraint.reason := VStr "Fallback Default" |},
     record_question (AskRaceIntent method url body) s).
Proof.
  intros He.
  pose proof (analyzeRaceConditionIntent_reads method url body e s
                (VNum (of_Z 1)) (VStr "Fallback Default")) as Hreads.
  cbn zeta in Hreads. rewrite He in Hreads. exact (Hreads eq_refl eq_refl).
Qed.

(** The fallback schema lists no identity field and the keys of the body
    as data fields. *)
Lemma fallback_schema_lists (responseBody : value) :
  lists (fallback_schema responseBody) "identity" [] /\
  lists (fallback_schema responseBody) "data" (Object_keys responseBody).
Proof. split; apply field_list_strings; reflexivity. Qed.

Lemma empty_schema_lists : lists empty_schema "identity" [] /\ lists empty_schema "data" [].
Proof. split; apply field_list_strings; reflexivity. Qed.

(** Under a schema without identity fields [validateBodies] returns. *)
Lemma validateBodies_without_identity (body1 body2 schema : value) (ds : list string) :
  lists schema "identity" [] ->
  lists schema "data" ds ->
  exists v,
    validateBodies body1 body2 schema = Ok v /\
    Validation.verdict v <> FAIL /\
    (Validation.verdict v = WARN <-> exists k, k ∈ ds /\ changed body1 body2 k) /\
    (Validation.verdict v = PASS <-> Forall (fun k => ~ changed body1 body2 k) ds).
Proof.
  intros Hids Hds.
  pose proof (validateBodies_identity_stable body1 body2 schema [] ds Hids Hds eq_refl) as Hv.
  pose proof (first_changed_cases body1 body2 ds) as Hd.
  destruct (first_changed body1 body2 (map VStr ds)) as [[d|]|message].
  - destruct Hv as (g & Hg & ->). eexists. split; [reflexivity|].
    destruct Hd as (pre & g' & post & Hsplit & _ & Hch & _).
    assert (Hin : g' ∈ ds).
    { rewrite Hsplit. apply elem_of_app. right. apply list_elem_of_here. }
    cbn [Validation.verdict]. split; [discriminate|]. split; split.
    + intros _. exists g'. auto.
    + reflexivity.
    + discriminate.
    + intros Hall. exfalso. rewrite Forall_forall in Hall. exact (Hall _ Hin Hch).
  - eexists. split; [exact Hv|]. cbn [Validation.verdict].
    split; [discriminate|]. split; split.
    + discriminate.
    + intros (k & Hk & Hck). exfalso. rewrite Forall_forall in Hd. exact (Hd _ Hk Hck).
    + intros _. exact Hd.
    + reflexivity.
  - destruct Hd.
Qed.

(** The one way [analyzeRaceConditionIntent] throws on its reads: the reply
    parses to null, and reading [max_successes] from it is a TypeError. The
    runner then keeps its initial constraint. *)
Lemma infer_constraint_on_null_reply (config : RaceConfig.t) (e : Env) (s : NetState)
    (reply : value) :
  groq_race e (length (asked s)) = GroqParsed reply ->
  prop reply "max_successes" = None ->
  (exists message s',
     analyzeRaceConditionIntent (RaceConfig.method config) (RaceConfig.url config)
       (RaceConfig.body config) e s = (Throw message, s')) /\
  infer_constraint config e s
  = (Ok {| Constraint.max_successes := of_Z 1;
           Constraint.reason := VStr "Default strict safety" |},
     record_question (race_question config) s).
Proof.
  intros He Hp.
  assert (Hthrows :
    analyzeRaceConditionIntent (RaceConfig.method config) (RaceConfig.url config)
      (RaceConfig.body config) e s
    = (Throw (TypeError_message (ReadOfNullish reply "max_successes")),
       record_question (race_question config) s)).
  { unfold analyzeRaceConditionIntent, bind. rewrite askGroqJSON_returns, He.
    unfold pure, read. rewrite Hp. reflexivity. }
  split; [eexists _, _; exact Hthrows|].
  rewrite infer_constraint_assigns, Hthrows. reflexivity.
Qed.

(** C6, as the code has it. [askGroqJSON] never throws: it returns the
    reply as it was parsed, unchecked, and its [fallback] argument when the
    call or the parse fails. [analyzeIdempotencySchema] and
    [evaluateIdempotencyMismatch] never throw either. On such a failure
    [analyzeIdempotencySchema] returns the schema with [identity] and
    [noise] empty and all the keys of the body as [data], and the
    idempotency runner goes on to compare the bodies under that schema;
    [analyzeRaceConditionIntent] returns the constraint of 1 success with
    reason "Fallback Default", and the race runner goes on with that
    constraint and returns. Whenever [analyzeRaceConditionIntent] throws,
    the race runner keeps the constraint it starts with, 1 success with
    reason "Default strict safety". *)
Theorem oracle_failure_falls_back
    (ci : IdempotencyConfig.t) (cr : RaceConfig.t) (e : Env) (s : NetState)
    (res1 res2 : AxiosResponse.t) (ms mr : string) :
  groq_schema e (length (asked s)) = GroqError ms ->
  groq_race e (length (asked s)) = GroqError mr ->
  R1 e s = Ok res1 ->
  AxiosResponse.status res1 < 500 ->
  schema_questions (AxiosResponse.data res1) (AxiosResponse.status res1) <> [] ->
  R2 e s = Ok res2 ->
  AxiosResponse.status res2 = AxiosResponse.status res1 ->
  typeof_object (AxiosResponse.data res1) = true ->
  (forall channel prompt fallback e' s',
     exists t, askGroqJSON channel prompt fallback e' s' = (Ok t, record_question prompt s') /\
               (forall message, channel e' (length (asked s')) = GroqError message ->
                                t = fallback) /\
               (forall reply, channel e' (length (asked s')) = GroqParsed reply ->
                              t = reply)) /\
  (forall body status req1 req2 e' s',
     (exists schema s'', analyzeIdempotencySchema body status e' s' = (Ok schema, s'')) /\
     (exists judgment s'', evaluateIdempotencyMismatch req1 req2 e' s' = (Ok judgment, s''))) /\
  analyzeIdempotencySchema (AxiosResponse.data res1) (AxiosResponse.status res1) e s
  = (Ok (VObj [("identity", VArr []); ("noise", VArr []);
               ("data", strings (Object_keys (AxiosResponse.data res1)))]),
     record_question (AskSchema (AxiosResponse.data res1) (AxiosResponse.status res1)) s) /\
  (exists r s' v,
     runIdempotencyTest ci e s = (Ok r, s') /\
     IdempotencyMeta.aiSchema (IdempotencyResult.meta r)
     = Some (fallback_schema (AxiosResponse.data res1)) /\
     validateBodies (AxiosResponse.data res1) (AxiosResponse.data res2)
                    (fallback_schema (AxiosResponse.data res1)) = Ok v /\
     IdempotencyResult.verdict r = Validation.verdict v /\
     IdempotencyResult.title r = Validation.title v) /\
  analyzeRaceConditionIntent (RaceConfig.method cr) (RaceConfig.url cr) (RaceConfig.body cr) e s
  = (Ok {| RaceConstraint.max_successes := RaceConstraint.Limit (of_Z 1);
           RaceConstraint.reason := VStr "Fallback Default" |},
     record_question (race_question cr) s) /\
  (exists r s',
     runRaceConditionTest cr e s = (Ok r, s') /\
     RaceMeta.aiConstraint (RaceResult.meta r)
     = {| Constraint.max_successes := of_Z 1;
          Constraint.reason := VStr "Fallback Default" |}) /\
  (forall e' s' message s'',
     analyzeRaceConditionIntent (RaceConfig.method cr) (RaceConfig.url cr)
       (RaceConfig.body cr) e' s' = (Throw message, s'') ->
     infer_constraint cr e' s'
     = (Ok {| Constraint.max_successes := of_Z 1;
              Constraint.reason := VStr "Default strict safety" |},
        record_question (race_question cr) s')).
Proof.
  intros Hschema Hrace H1 Hs1 Hq H2 Hs2 Hobj.
  split; [|split; [|split; [|split; [|split; [|split]]]]].
  - intros channel prompt fallback e' s'. eexists. split; [|split].
    + apply askGroqJSON_returns.
    + intros message Hm. cbn beta. rewrite Hm. reflexivity.
    + intros reply Hm. cbn beta. rewrite Hm. reflexivity.
  - intros body status req1 req2 e' s'. split.
    + eexists _, _. apply analyzeIdempotencySchema_result.
    + eexists _, _. apply evaluateIdempotencyMismatch_returns.
  - rewrite analyzeIdempotencySchema_result, Hschema, (schema_for_failure _ _ _ Hq).
    unfold schema_questions in *.
    destruct (negb (truthy _) || _); [congruence|]. reflexivity.
  - destruct (same_status_run ci e s res1 res2 H1 Hs1 H2 Hs2) as (s' & Hrun & _ & _).
    cbn zeta in Hrun. rewrite Hobj, Hschema, (schema_for_failure _ _ _ Hq) in Hrun.
    destruct (fallback_schema_lists (AxiosResponse.data res1)) as [Hids Hds].
    destruct (validateBodies_without_identity (AxiosResponse.data res1)
                (AxiosResponse.data res2) _ _ Hids Hds) as (v & Hv & _).
    rewrite Hv in Hrun.
    eexists _, s', v. split; [exact Hrun|]. repeat split. exact Hv.
  - exact (analyzeRaceConditionIntent_fallback _ _ _ e s mr Hrace).
  - pose proof (infer_constraint_assigns cr e s) as Hinfer.
    rewrite (analyzeRaceConditionIntent_fallback _ _ _ e s mr Hrace) in Hinfer.
    cbn [fst RaceConstraint.max_successes RaceConstraint.reason] in Hinfer.
    destruct (race_run cr e s)
      as (constraint & outcome & s' & Hinfer' & Hrun & _ & _ & Hcases).
    rewrite Hinfer in Hinfer'. injection Hinfer' as <-.
    destruct outcome as [r|message].
    + exists r, s'. split; [exact Hrun|]. apply Hcases.
    + exfalso. cbn zeta in Hcases. destruct Hcases as [_ Hthrows]. discriminate Hthrows.
  - intros e' s' message s'' Hthrows.
    rewrite infer_constraint_assigns, Hthrows. reflexivity.
Qed.

End fallback_facts.

(** ** The worker *)

Section worker_facts.
Context `{Host}.

Lemma prisma_update_found (id : string) (data : UpdateInput.t) (e : Env) (s : WorkerState)
    (row : TestRun.t) :
  db s !! id = Some row ->
  prisma_testRun_update id data e s
  = (Ok tt,
     {| net := net s;
        db := <[id := apply_update data row]> (db s);
        status_writes :=
          match UpdateInput.status data with
          | Some st => status_writes s ++ [(id, st)]
          | None => status_writes s
          end |}).
Proof. intros Hrow. unfold prisma_testRun_update. rewrite Hrow. reflexivity. Qed.

(** When the run is not in the table both updates reject, and so does the
    processor: the job fails, nothing is written, no call is issued. *)
Lemma worker_run_missing (job : Job.t) (e : Env) (s : WorkerState) :
  db s !! TestJobData.testRunId (Job.data job) = None ->
  worker job e s = (Throw "Record to update not found.", s).
Proof.
  intros Hrow. unfold worker, try_catch, bind, prisma_testRun_update, Date_now.
  rewrite Hrow. cbn. rewrite Hrow. reflexivity.
Qed.

(** The job of an idempotency test, for a run that is in the table: the
    run is completed with the runner's result; when the verdict of that
    result cannot be written to the log, it is then marked failed. *)
Lemma worker_idempotency_job (job : Job.t) (e : Env) (s : WorkerState) (row : TestRun.t)
    (r : IdempotencyResult.t) (n : NetState) :
  let id := TestJobData.testRunId (Job.data job) in
  let config := TestJobData.config (Job.data job) in
  JobConfig.testType config = "IDEMPOTENCY" ->
  db s !! id = Some row ->
  runIdempotencyTest
    {| IdempotencyConfig.url := JobConfig.url config;
       IdempotencyConfig.method := JobConfig.method config;
       IdempotencyConfig.headers := JobConfig.headers config;
       IdempotencyConfig.body := JobConfig.body config |} e (net s) = (Ok r, n) ->
  worker job e s
  = (Ok tt,
     {| net := n;
        db := <[id := match ToString (IdempotencyResult.verdict r) with
                      | Ok _ => completed row (IdempotencyReport r) (clock n)
                      | Throw message =>
                          failed (completed row (IdempotencyReport r) (clock n))
                                 message (clock n)
                      end]> (db s);
        status_writes :=
          status_writes s
          ++ (id, RUNNING) :: (id, COMPLETED)
             :: match ToString (IdempotencyResult.verdict r) with
                | Ok _ => []
                | Throw _ => [(id, FAILED)]
                end |}).
Proof.
  intros id config Hty Hrow Hrun.
  unfold worker, try_catch. unfold bind at 1. fold id. fold config.
  rewrite (prisma_update_found _ _ _ _ row Hrow).
  unfold bind at 1. rewrite Hty. cbn [String.eqb Ascii.eqb Bool.eqb].
  unfold bind at 1. unfold run_probe. cbn [net db status_writes].
  rewrite Hrun. unfold ret at 1. unfold bind at 1. unfold bind at 1. unfold Date_now at 1.
  cbn [net]. unfold bind at 1.
  erewrite prisma_update_found by (cbn [db]; apply lookup_insert_eq).
  cbn [net db status_writes UpdateInput.status result_verdict].
  unfold bind, pure, ret.
  destruct (ToString (IdempotencyResult.verdict r)) as [text|message].
  - rewrite insert_insert_eq, <- List.app_assoc. reflexivity.
  - unfold Date_now.
    erewrite prisma_update_found by (cbn [db]; apply lookup_insert_eq).
    cbn [net db status_writes UpdateInput.status].
    rewrite !insert_insert_eq, <- !List.app_assoc. reflexivity.
Qed.

(** The verdict of a result of the race runner can be written to the
    log. *)
Lemma race_verdict_printable (config : RaceConfig.t) (e : Env) (s : NetState)
    (r : RaceResult.t) (s' : NetState) :
  runRaceConditionTest config e s = (Ok r, s') ->
  RaceResult.verdict r ∈ [FAIL; WARN; PASS] /\ printable (RaceResult.verdict r).
Proof.
  intros Hrun.
  destruct (race_run config e s)
    as (constraint & outcome & s'' & _ & Hrun' & _ & _ & Hcases).
  rewrite Hrun in Hrun'. injection Hrun' as <- <-. cbn zeta in Hcases.
  destruct Hcases as (_ & _ & _ & _ & _ & _ & Hv).
  apply (f_equal fst) in Hv. cbn [fst] in Hv.
  pose proof (race_verdict_rule_verdicts
                (RaceMeta.successCount (RaceResult.meta r))
                (RaceMeta.failCount (RaceResult.meta r))
                (Constraint.max_successes constraint)) as Hin.
  rewrite <- Hv in Hin. split; [exact Hin|].
  repeat (apply elem_of_cons in Hin as [->|Hin]); try apply printable_VStr.
  inversion Hin.
Qed.

(** The job of a race-condition test: the run is completed with the
    runner's result, or marked failed with the runner's error when the
    runner throws. *)
Lemma worker_race_job (job : Job.t) (e : Env) (s : WorkerState) (row : TestRun.t)
    (outcome : Res RaceResult.t) (n : NetState) :
  let id := TestJobData.testRunId (Job.data job) in
  let config := TestJobData.config (Job.data job) in
  JobConfig.testType config = "RACE_CONDITION" ->
  db s !! id = Some row ->
  runRaceConditionTest
    {| RaceConfig.url := JobConfig.url config;
       RaceConfig.method := JobConfig.method config;
       RaceConfig.headers := JobConfig.headers config;
       RaceConfig.body := JobConfig.body config |} e (net s) = (outcome, n) ->
  worker job e s
  = (Ok tt,
     {| net := n;
        db := <[id := match outcome with
                      | Ok r => completed row (RaceReport r) (clock n)
                      | Throw message => failed row message (clock n)
                      end]> (db s);
        status_writes :=
          status_writes s
          ++ [(id, RUNNING);
              (id, match outcome with Ok _ => COMPLETED | Throw _ => FAILED end)] |}).
Proof.
  intros id config Hty Hrow Hrun.
  unfold worker, try_catch. unfold bind at 1. fold id. fold config.
  rewrite (prisma_update_found _ _ _ _ row Hrow).
  unfold bind at 1. rewrite Hty. cbn [String.eqb Ascii.eqb Bool.eqb].
  unfold bind at 1. unfold run_probe. cbn [net db status_writes].
  rewrite Hrun. destruct outcome as [r|message].
  - destruct (race_verdict_printable _ _ _ _ _ Hrun) as [_ [text Htext]].
    unfold ret at 1. unfold bind at 1. unfold bind at 1. unfold Date_now at 1.
    cbn [net]. unfold bind at 1.
    erewrite prisma_update_found by (cbn [db]; apply lookup_insert_eq).
    cbn [net db status_writes UpdateInput.status result_verdict].
    unfold bind, pure, ret. rewrite Htext.
    rewrite insert_insert_eq, <- List.app_assoc. reflexivity.
  - unfold bind, Date_now.
    erewrite prisma_update_found by (cbn [db]; apply lookup_insert_eq).
    cbn [net db status_writes UpdateInput.status].
    rewrite insert_insert_eq, <- List.app_assoc. reflexivity.
Qed.

(** The job of any other test type. *)
Lemma worker_unknown_job (job : Job.t) (e : Env) (s : WorkerState) (row : TestRun.t) :
  let id := TestJobData.testRunId (Job.data job) in
  let testType := JobConfig.testType (TestJobData.config (Job.data job)) in
  testType <> "IDEMPOTENCY" ->
  testType <> "RACE_CONDITION" ->
  db s !! id = Some row ->
  worker job e s
  = (Ok tt,
     {| net := net s;
        db := <[id := failed row ("Unknown test type: " ++ testType) (clock (net s))]> (db s);
        status_writes := status_writes s ++ [(id, RUNNING); (id, FAILED)] |}).
Proof.
  intros id testType Hi Hr Hrow.
  apply String.eqb_neq in Hi, Hr.
  unfold worker, try_catch. unfold bind at 1. fold id. fold testType.
  rewrite (prisma_update_found _ _ _ _ row Hrow).
  unfold bind at 1. rewrite Hi, Hr. unfold throw. unfold bind, Date_now.
  erewrite prisma_update_found by (cbn [db]; apply lookup_insert_eq).
  cbn [net db status_writes UpdateInput.status].
  rewrite insert_insert_eq, <- List.app_assoc. reflexivity.
Qed.

(** C9. When the job's test type is neither 'IDEMPOTENCY' nor
    'RACE_CONDITION' (and its run is in the table), the processor returns
    normally and leaves the run in status FAILED with verdict ERROR and the
    message "Unknown test type: <type>" in its logs; no probe is run, and no
    other run is touched. *)
Theorem unknown_test_type_fails_the_run
    (job : Job.t) (e : Env) (s : WorkerState) (row : TestRun.t) :
  let id := TestJobData.testRunId (Job.data job) in
  let testType := JobConfig.testType (TestJobData.config (Job.data job)) in
  testType <> "IDEMPOTENCY" ->
  testType <> "RACE_CONDITION" ->
  db s !! id = Some row ->
  exists s' row',
    worker job e s = (Ok tt, s') /\
    db s' !! id = Some row' /\
    TestRun.status row' = FAILED /\
    terminal (TestRun.status row') = true /\
    TestRun.verdict row' = Some ERROR /\
    TestRun.logs row' = Some ("Unknown test type: " ++ testType) /\
    status_writes s' = (status_writes s ++ [(id, RUNNING); (id, FAILED)])%list /\
    net s' = net s /\
    forall other, other <> id -> db s' !! other = db s !! other.
Proof.
  intros id testType Hi Hr Hrow.
  eexists _, _. split; [exact (worker_unknown_job job e s row Hi Hr Hrow)|].
  cbn [db net status_writes].
  split; [apply lookup_insert_eq|]. cbn.
  repeat split.
  intros other Hne. apply lookup_insert_ne. intros Heq. apply Hne. symmetry. exact Heq.
Qed.

(** The two writes of one job make a legal history exactly when the run
    was PENDING before. *)
Lemma legal_history_running_then_terminal (before final : RunStatus) :
  terminal final = true ->
  legal_history before [RUNNING; final] = true <-> before = PENDING.
Proof.
  intros Hfinal.
  destruct before, final; cbn in *; split; congruence.
Qed.

(** What one job writes, in every world: RUNNING, then COMPLETED, or
    FAILED, or COMPLETED and then FAILED. *)
Lemma worker_history (job : Job.t) (e : Env) (s : WorkerState) (row : TestRun.t) :
  let id := TestJobData.testRunId (Job.data job) in
  let testType := JobConfig.testType (TestJobData.config (Job.data job)) in
  db s !! id = Some row ->
  exists s' later,
    worker job e s = (Ok tt, s') /\
    status_writes s' = (status_writes s ++ (id, RUNNING) :: map (pair id) later)%list /\
    later ∈ [[COMPLETED]; [FAILED]; [COMPLETED; FAILED]] /\
    TestRun.status <$> db s' !! id = last later /\
    (forall other, other <> id -> db s' !! other = db s !! other) /\
    (testType <> "IDEMPOTENCY" -> testType <> "RACE_CONDITION" ->
       later = [FAILED] /\ net s' = net s) /\
    (testType = "IDEMPOTENCY" \/ testType = "RACE_CONDITION" ->
       exists c cs, calls (net s') = (calls (net s) ++ c :: cs)%list).
Proof.
  intros id testType Hrow.
  assert (Hothers : forall row' : TestRun.t, forall other : string,
            other <> id -> <[id := row']> (db s) !! other = db s !! other).
  { intros row' other Hne. apply lookup_insert_ne. congruence. }
  destruct (String.eqb_spec testType "IDEMPOTENCY") as [Hi|Hi];
    [|destruct (String.eqb_spec testType "RACE_CONDITION") as [Hr|Hr]].
  - destruct (runIdempotencyTest_returns
                {| IdempotencyConfig.url := JobConfig.url (TestJobData.config (Job.data job));
                   IdempotencyConfig.method := JobConfig.method (TestJobData.config (Job.data job));
                   IdempotencyConfig.headers := JobConfig.headers (TestJobData.config (Job.data job));
                   IdempotencyConfig.body := JobConfig.body (TestJobData.config (Job.data job)) |}
                e (net s)) as (r & n & cs & Hrun & Hcalls & _ & Hne).
    rewrite (worker_idempotency_job job e s row r n Hi Hrow Hrun). fold id.
    destruct (ToString (IdempotencyResult.verdict r)) as [text|message].
    + eexists _, [COMPLETED]. split; [reflexivity|]. cbn [status_writes db net map].
      split; [reflexivity|]. split; [apply list_elem_of_here|].
      split; [rewrite lookup_insert_eq; reflexivity|]. split; [apply Hothers|].
      split; [congruence|]. intros _.
      destruct cs as [|c cs]; [congruence|]. eauto.
    + eexists _, [COMPLETED; FAILED]. split; [reflexivity|]. cbn [status_writes db net map].
      split; [reflexivity|].
      split; [do 2 apply list_elem_of_further; apply list_elem_of_here|].
      split; [rewrite lookup_insert_eq; reflexivity|]. split; [apply Hothers|].
      split; [congruence|]. intros _.
      destruct cs as [|c cs]; [congruence|]. eauto.
  - destruct (race_run
                {| RaceConfig.url := JobConfig.url (TestJobData.config (Job.data job));
                   RaceConfig.method := JobConfig.method (TestJobData.config (Job.data job));
                   RaceConfig.headers := JobConfig.headers (TestJobData.config (Job.data job));
                   RaceConfig.body := JobConfig.body (TestJobData.config (Job.data job)) |}
                e (net s)) as (constraint & outcome & n & _ & Hrun & Hcalls & _).
    rewrite (worker_race_job job e s row outcome n Hr Hrow Hrun). fold id.
    destruct outcome as [r|message].
    + eexists _, [COMPLETED]. split; [reflexivity|]. cbn [status_writes db net map].
      split; [reflexivity|]. split; [apply list_elem_of_here|].
      split; [rewrite lookup_insert_eq; reflexivity|]. split; [apply Hothers|].
      split; [congruence|]. intros _. rewrite Hcalls. eexists _, _. reflexivity.
    + eexists _, [FAILED]. split; [reflexivity|]. cbn [status_writes db net map].
      split; [reflexivity|]. split; [apply list_elem_of_further, list_elem_of_here|].
      split; [rewrite lookup_insert_eq; reflexivity|]. split; [apply Hothers|].
      split; [congruence|]. intros _. rewrite Hcalls. eexists _, _. reflexivity.
  - rewrite (worker_unknown_job job e s row Hi Hr Hrow). fold id. fold testType.
    eexists _, [FAILED]. split; [reflexivity|]. cbn [status_writes db net map].
    split; [reflexivity|]. split; [apply list_elem_of_further, list_elem_of_here|].
    split; [rewrite lookup_insert_eq; reflexivity|]. split; [apply Hothers|].
    split; [auto|]. intros [Hc|Hc]; congruence.
Qed.

(** C1, as the code has it. Each time the worker processes a job whose run
    is in the table, whatever status the run has at that time, it writes
    RUNNING first and terminal statuses after that, at least one: it never
    writes PENDING, and it leaves the run in the terminal status written
    last. When it writes one terminal status only, a run found PENDING has
    the legal history PENDING -> RUNNING -> {COMPLETED | FAILED}, and no
    other run has. The worker does not read the current status: a run that
    was already terminal is set to RUNNING again and, when the type names a
    runner, the probe is run again (calls are issued). *)
Theorem worker_writes_running_then_terminal
    (job : Job.t) (e : Env) (s : WorkerState) (row : TestRun.t) :
  let id := TestJobData.testRunId (Job.data job) in
  let testType := JobConfig.testType (TestJobData.config (Job.data job)) in
  db s !! id = Some row ->
  exists s' later final,
    worker job e s = (Ok tt, s') /\
    status_writes s' = (status_writes s ++ (id, RUNNING) :: map (pair id) later)%list /\
    later <> [] /\
    Forall (fun status => terminal status = true) later /\
    last later = Some final /\
    TestRun.status <$> db s' !! id = Some final /\
    (later = [final] ->
       (legal_history (TestRun.status row) (RUNNING :: later) = true
        <-> TestRun.status row = PENDING)) /\
    (forall other, other <> id -> db s' !! other = db s !! other) /\
    (testType <> "IDEMPOTENCY" -> testType <> "RACE_CONDITION" -> later = [FAILED]) /\
    (testType = "IDEMPOTENCY" \/ testType = "RACE_CONDITION" ->
       exists c cs, calls (net s') = (calls (net s) ++ c :: cs)%list).
Proof.
  intros id testType Hrow.
  destruct (worker_history job e s row Hrow)
    as (s' & later & Hrun & Hwrites & Hlater & Hstatus & Hothers & Hunknown & Hknown).
  assert (Hshape : exists final, last later = Some final /\ later <> [] /\
                     Forall (fun status => terminal status = true) later).
  { repeat (apply elem_of_cons in Hlater as [->|Hlater]); [| | |inversion Hlater];
      eexists; (split; [reflexivity|]); (split; [discriminate|]); repeat constructor. }
  destruct Hshape as (final & Hlast & Hne & Hterminal).
  exists s', later, final. split; [exact Hrun|]. split; [exact Hwrites|].
  split; [exact Hne|]. split; [exact Hterminal|]. split; [exact Hlast|].
  split; [exact (eq_trans Hstatus Hlast)|]. split.
  { intros ->. apply legal_history_running_then_terminal.
    inversion Hterminal; assumption. }
  split; [exact Hothers|]. split; [|exact Hknown].
  intros Hi Hr. apply (Hunknown Hi Hr).
Qed.

End worker_facts.

(* ===================================================================== *)
(** * Further properties *)
(* ===================================================================== *)

(** ** validateBodies and the body comparison of the idempotency runner *)

Section body_comparison_facts.
Context `{Host}.

(** The verdict of [validateBodies], under a schema that lists strings,
    tells which fields changed. When it returns: FAIL says that some
    identity field changed; WARN, that no identity field changed and some
    data field did; PASS, that no identity field and no data field changed;
    it is never ERROR, and a diff is reported exactly when the verdict is
    not PASS. It throws only on its way to a FAIL, when one of the two
    values of the first changed identity field cannot be converted to a
    string. Fields listed under [noise], and fields listed nowhere, are not
    looked at. *)
Theorem validateBodies_verdict_characterised
    (body1 body2 schema : value) (ids ds : list string) :
  lists schema "identity" ids ->
  lists schema "data" ds ->
  match validateBodies body1 body2 schema with
  | Ok v =>
      (Validation.verdict v = FAIL <-> exists f, f ∈ ids /\ changed body1 body2 f) /\
      (Validation.verdict v = WARN <->
         Forall (fun f => ~ changed body1 body2 f) ids /\
         exists f, f ∈ ds /\ changed body1 body2 f) /\
      (Validation.verdict v = PASS <->
         Forall (fun f => ~ changed body1 body2 f) (ids ++ ds)) /\
      Validation.verdict v <> ERROR /\
      (Validation.diff v = None <-> Validation.verdict v = PASS)
  | Throw message =>
      exists pre g post,
        ids = (pre ++ g :: post)%list /\
        Forall (fun f => ~ changed body1 body2 f) pre /\
        changed body1 body2 g /\
        (ToString (lodash_get body1 g) = Throw message \/
         ToString (lodash_get body2 g) = Throw message)
  end.
Proof.
  intros Hids Hds.
  pose proof (first_changed_cases body1 body2 ids) as Hi.
  pose proof (first_changed_cases body1 body2 ds) as Hd.
  destruct (first_changed body1 body2 (map VStr ids)) as [[d|]|message] eqn:Ei.
  - destruct (validateBodies_identity_changed _ _ _ _ _ Hids Ei) as (g' & _ & ->).
    destruct Hi as (pre & g & post & Hsplit & Hpre & Hch & ->).
    cbn [Diff.val1 Diff.val2].
    assert (Hin : g ∈ ids).
    { rewrite Hsplit. apply elem_of_app. right. apply list_elem_of_here. }
    destruct (ToString (lodash_get body1 g)) as [t1|m1] eqn:E1; cbn [res_bind].
    + destruct (ToString (lodash_get body2 g)) as [t2|m2] eqn:E2; cbn [res_bind].
      * cbn. repeat split; try discriminate; try (intros; exfalso; congruence).
        -- intros _. exists g. auto.
        -- intros [Hall _]. exfalso. rewrite Forall_forall in Hall. exact (Hall _ Hin Hch).
        -- intros Hall. exfalso. apply Forall_app in Hall as [Hall _].
           rewrite Forall_forall in Hall. exact (Hall _ Hin Hch).
      * exists pre, g, post. auto.
    + exists pre, g, post. auto.
  - pose proof (validateBodies_identity_stable _ _ _ _ _ Hids Hds Ei) as Hv.
    destruct (first_changed body1 body2 (map VStr ds)) as [[d|]|message'].
    + destruct Hv as (g' & _ & ->).
      destruct Hd as (pre & g & post & Hsplit & _ & Hch & _).
      assert (Hin : g ∈ ds).
      { rewrite Hsplit. apply elem_of_app. right. apply list_elem_of_here. }
      cbn. repeat split; try discriminate; try (intros; exfalso; congruence); auto.
      * intros (f & Hf & Hcf). exfalso. rewrite Forall_forall in Hi. exact (Hi _ Hf Hcf).
      * exists g. auto.
      * intros Hall. exfalso. apply Forall_app in Hall as [_ Hall].
        rewrite Forall_forall in Hall. exact (Hall _ Hin Hch).
    + rewrite Hv.
      cbn. repeat split; try discriminate; try (intros; exfalso; congruence); auto.
      * intros (f & Hf & Hcf). exfalso. rewrite Forall_forall in Hi. exact (Hi _ Hf Hcf).
      * intros [_ (f & Hf & Hcf)]. exfalso. rewrite Forall_forall in Hd. exact (Hd _ Hf Hcf).
      * intros _. apply Forall_app. auto.
    + destruct Hd.
  - destruct Hi.
Qed.

(** A body the oracle is not asked about has no keys, so the fallback
    schema is the empty one there. *)
Lemma schema_for_oracle_failure (message : string) (responseBody : value) :
  schema_for (GroqError message) responseBody = fallback_schema responseBody.
Proof.
  unfold schema_for, fallback_schema, empty_schema.
  destruct (negb (truthy responseBody) || (length (Object_keys responseBody) =? 0)%nat)
    eqn:E; [|reflexivity].
  assert (Hkeys : Object_keys responseBody = []).
  { apply orb_prop in E as [E|E].
    - destruct responseBody as [| |b|n|str|items|props]; try reflexivity;
        cbn in E; try discriminate E.
      destruct str; [reflexivity | cbn in E; discriminate E].
    - apply Nat.eqb_eq in E. apply length_zero_iff_nil. exact E. }
  rewrite Hkeys. reflexivity.
Qed.

Lemma strict_eq_non_object_object (a b : value) :
  typeof_object a = false -> typeof_object b = true -> strict_eq a b = false.
Proof. destruct a, b; cbn; intros; congruence. Qed.

Lemma strict_eq_refl (a : value) :
  typeof_object a = false -> a <> VNum NaN -> strict_eq a a = true.
Proof.
  destruct a as [| |b|n|str|items|props]; cbn; intros Hty Hnan; try congruence.
  - apply Bool.eqb_reflx.
  - destruct n as [|neg|q]; cbn; [congruence | apply Bool.eqb_reflx |].
    apply Qeq_bool_iff. reflexivity.
  - apply String.eqb_refl.
Qed.

(** When both statuses are equal and the first body is not an object (a
    string, a number, a boolean), no schema is used: the verdict is PASS when
    the two bodies are strictly equal and WARN otherwise, under the title
    "Non-JSON Response". A second body that is an object therefore gives
    WARN. *)
Theorem non_object_bodies_are_compared_strictly
    (config : IdempotencyConfig.t) (e : Env) (s : NetState)
    (res1 res2 : AxiosResponse.t) :
  R1 e s = Ok res1 ->
  AxiosResponse.status res1 < 500 ->
  R2 e s = Ok res2 ->
  AxiosResponse.status res2 = AxiosResponse.status res1 ->
  typeof_object (AxiosResponse.data res1) = false ->
  exists r s',
    runIdempotencyTest config e s = (Ok r, s') /\
    IdempotencyResult.title r = "Non-JSON Response" /\
    (IdempotencyResult.verdict r = PASS
     <-> strict_eq (AxiosResponse.data res1) (AxiosResponse.data res2) = true) /\
    (IdempotencyResult.verdict r = WARN
     <-> strict_eq (AxiosResponse.data res1) (AxiosResponse.data res2) = false) /\
    (typeof_object (AxiosResponse.data res2) = true -> IdempotencyResult.verdict r = WARN) /\
    IdempotencyMeta.aiSchema (IdempotencyResult.meta r) = None /\
    IdempotencyMeta.diff (IdempotencyResult.meta r) = None.
Proof.
  intros H1 Hs1 H2 Hs2 Hty.
  destruct (same_status_run config e s res1 res2 H1 Hs1 H2 Hs2) as (s' & Hrun & _ & _).
  cbn zeta in Hrun. rewrite Hty in Hrun.
  eexists _, s'. split; [exact Hrun|]. cbn.
  split; [reflexivity|]. repeat split.
  - destruct (strict_eq _ _); congruence.
  - intros ->. reflexivity.
  - destruct (strict_eq _ _); congruence.
  - intros ->. reflexivity.
  - intros Hobj. rewrite (strict_eq_non_object_object _ _ Hty Hobj). reflexivity.
Qed.

(** When both statuses are equal, the first body is an object, the schema
    in use lists strings, no identity field has changed and some data field
    has, the runner returns WARN, "State Mutation Detected", and reports the
    first data field that changed, with its two values, and the schema. *)
Theorem data_change_is_a_warning
    (config : IdempotencyConfig.t) (e : Env) (s : NetState)
    (res1 res2 : AxiosResponse.t) (ids ds : list string) (fd : string) :
  let body1 := AxiosResponse.data res1 in
  let body2 := AxiosResponse.data res2 in
  let schema := schema_for (groq_schema e (length (asked s))) body1 in
  R1 e s = Ok res1 ->
  AxiosResponse.status res1 < 500 ->
  R2 e s = Ok res2 ->
  AxiosResponse.status res2 = AxiosResponse.status res1 ->
  typeof_object body1 = true ->
  lists schema "identity" ids ->
  lists schema "data" ds ->
  Forall (fun f => ~ changed body1 body2 f) ids ->
  fd ∈ ds ->
  changed body1 body2 fd ->
  exists r s',
    runIdempotencyTest config e s = (Ok r, s') /\
    IdempotencyResult.verdict r = WARN /\
    IdempotencyResult.title r = "State Mutation Detected" /\
    IdempotencyMeta.aiSchema (IdempotencyResult.meta r) = Some schema /\
    exists pre g post,
      ds = (pre ++ g :: post)%list /\
      Forall (fun f => ~ changed body1 body2 f) pre /\
      changed body1 body2 g /\
      IdempotencyMeta.diff (IdempotencyResult.meta r)
      = Some {| Diff.field := VStr g;
                Diff.val1 := lodash_get body1 g;
                Diff.val2 := lodash_get body2 g |}.
Proof.
  intros body1 body2 schema H1 Hs1 H2 Hs2 Hty Hlids Hlds Hids Hfd Hch.
  destruct (same_status_run config e s res1 res2 H1 Hs1 H2 Hs2) as (s' & Hrun & _ & _).
  cbn zeta in Hrun. fold body1 in Hrun. fold body2 in Hrun. fold schema in Hrun.
  rewrite Hty in Hrun.
  destruct (first_changed_stops _ _ _ _ Hfd Hch)
    as (pre & g & post & Hsplit & Hpre & Hg & Hfc).
  pose proof (validateBodies_identity_stable body1 body2 schema ids ds Hlids Hlds
                (first_changed_none _ _ _ Hids)) as Hv.
  rewrite Hfc in Hv. destruct Hv as (g' & _ & Hv). rewrite Hv in Hrun.
  eexists _, s'. split; [exact Hrun|]. cbn. repeat split.
  exists pre, g, post. auto.
Qed.

(** When the first body is null, an empty object or an empty array (an
    object without keys), the schema is empty and the oracle is not asked:
    with equal statuses the runner returns PASS, "Idempotent Response",
    whatever the second body is, and reports the empty schema. *)
Theorem keyless_body_always_passes
    (config : IdempotencyConfig.t) (e : Env) (s : NetState)
    (res1 res2 : AxiosResponse.t) :
  R1 e s = Ok res1 ->
  AxiosResponse.status res1 < 500 ->
  R2 e s = Ok res2 ->
  AxiosResponse.status res2 = AxiosResponse.status res1 ->
  typeof_object (AxiosResponse.data res1) = true ->
  Object_keys (AxiosResponse.data res1) = [] ->
  exists r s',
    runIdempotencyTest config e s = (Ok r, s') /\
    IdempotencyResult.verdict r = PASS /\
    IdempotencyResult.title r = "Idempotent Response" /\
    IdempotencyMeta.diff (IdempotencyResult.meta r) = None /\
    asked s' = asked s /\
    IdempotencyMeta.aiSchema (IdempotencyResult.meta r)
    = Some (VObj [("identity", VArr []); ("noise", VArr []); ("data", VArr [])]).
Proof.
  intros H1 Hs1 H2 Hs2 Hty Hkeys.
  destruct (same_status_run config e s res1 res2 H1 Hs1 H2 Hs2) as (s' & Hrun & _ & Hasked).
  cbn zeta in Hrun. rewrite Hty in Hrun.
  unfold schema_for, schema_questions in *. rewrite Hkeys in *.
  cbn [length Nat.eqb] in *. rewrite orb_true_r in *.
  destruct empty_schema_lists as [Hids Hds].
  pose proof (validateBodies_identity_stable (AxiosResponse.data res1)
                (AxiosResponse.data res2) empty_schema [] [] Hids Hds eq_refl) as Hv.
  cbn [map first_changed] in Hv. rewrite Hv in Hrun.
  eexists _, s'. split; [exact Hrun|]. cbn.
  rewrite Hasked, app_nil_r. repeat split.
Qed.

(** A target that answers the replay exactly as it answered the first
    request (same status below 500, same body) passes, under any schema
    that lists strings: this needs only that [_.isEqual] holds of a value
    and itself (and that the body is not the number NaN, which is not equal
    to itself). *)
Theorem identical_replay_passes
    (config : IdempotencyConfig.t) (e : Env) (s : NetState) (res : AxiosResponse.t) :
  let schema := schema_for (groq_schema e (length (asked s))) (AxiosResponse.data res) in
  (forall v, lodash_isEqual v v = true) ->
  R1 e s = Ok res ->
  AxiosResponse.status res < 500 ->
  R2 e s = Ok res ->
  AxiosResponse.data res <> VNum NaN ->
  (typeof_object (AxiosResponse.data res) = true ->
   exists ids ds, lists schema "identity" ids /\ lists schema "data" ds) ->
  exists r s',
    runIdempotencyTest config e s = (Ok r, s') /\
    IdempotencyResult.verdict r = PASS /\
    IdempotencyMeta.diff (IdempotencyResult.meta r) = None.
Proof.
  intros schema Hrefl H1 Hs1 H2 Hnan Hlists.
  destruct (same_status_run config e s res res H1 Hs1 H2 eq_refl) as (s' & Hrun & _ & _).
  cbn zeta in Hrun. fold schema in Hrun.
  assert (Hsame : forall fields,
    Forall (fun f => ~ changed (AxiosResponse.data res) (AxiosResponse.data res) f) fields).
  { intros fields. apply Forall_forall. intros f _. unfold changed.
    rewrite Hrefl. discriminate. }
  destruct (typeof_object (AxiosResponse.data res)) eqn:Hty.
  - destruct (Hlists eq_refl) as (ids & ds & Hids & Hds).
    pose proof (validateBodies_identity_stable _ _ schema ids ds Hids Hds
                  (first_changed_none _ _ _ (Hsame ids))) as Hv.
    rewrite (first_changed_none _ _ _ (Hsame ds)) in Hv. rewrite Hv in Hrun.
    eexists _, s'. split; [exact Hrun|]. split; reflexivity.
  - rewrite (strict_eq_refl _ Hty Hnan) in Hrun.
    eexists _, s'. split; [exact Hrun|]. split; reflexivity.
Qed.

(** With the oracle down the body comparison cannot detect a double
    execution: under the fallback schema no field is an identity field, so
    the verdict is never FAIL. It is WARN exactly when the value under some
    top-level key of the first body has changed, PASS otherwise. *)
Theorem oracle_down_never_detects_double_execution
    (config : IdempotencyConfig.t) (e : Env) (s : NetState)
    (res1 res2 : AxiosResponse.t) (message : string) :
  let body1 := AxiosResponse.data res1 in
  let body2 := AxiosResponse.data res2 in
  groq_schema e (length (asked s)) = GroqError message ->
  R1 e s = Ok res1 ->
  AxiosResponse.status res1 < 500 ->
  R2 e s = Ok res2 ->
  AxiosResponse.status res2 = AxiosResponse.status res1 ->
  typeof_object body1 = true ->
  exists r s',
    runIdempotencyTest config e s = (Ok r, s') /\
    IdempotencyResult.verdict r <> FAIL /\
    (IdempotencyResult.verdict r = WARN
     <-> exists k, k ∈ Object_keys body1 /\ changed body1 body2 k) /\
    (IdempotencyResult.verdict r = PASS
     <-> Forall (fun k => ~ changed body1 body2 k) (Object_keys body1)).
Proof.
  intros body1 body2 He H1 Hs1 H2 Hs2 Hty. subst body1 body2.
  destruct (same_status_run config e s res1 res2 H1 Hs1 H2 Hs2) as (s' & Hrun & _ & _).
  cbn zeta in Hrun.
  rewrite Hty, He, schema_for_oracle_failure in Hrun.
  destruct (fallback_schema_lists (AxiosResponse.data res1)) as [Hids Hds].
  destruct (validateBodies_without_identity (AxiosResponse.data res1)
              (AxiosResponse.data res2) _ _ Hids Hds) as (v & Hv & Hfail & Hwarn & Hpass).
  rewrite Hv in Hrun.
  eexists _, s'. split; [exact Hrun|]. cbn [IdempotencyResult.verdict].
  split; [exact Hfail|]. split; assumption.
Qed.

(** Whenever both requests resolve (the first with a status below 500),
    the two requests are the same request with a timeout of 8000 ms, and
    the result either reports the two statuses and the two latencies, each
    latency being the time its own request took, or is the [catch] block's
    result, with the four measurements at 0. The second happens in two
    cases only: the statuses differ and the adjudicator's reply parsed to
    null, or they are equal and the body comparison threw. *)
Theorem both_statuses_and_latencies_are_reported
    (config : IdempotencyConfig.t) (e : Env) (s : NetState)
    (res1 res2 : AxiosResponse.t) :
  let body1 := AxiosResponse.data res1 in
  let body2 := AxiosResponse.data res2 in
  let questions := schema_questions body1 (AxiosResponse.status res1) in
  R1 e s = Ok res1 ->
  AxiosResponse.status res1 < 500 ->
  R2 e s = Ok res2 ->
  exists r s',
    runIdempotencyTest config e s = (Ok r, s') /\
    calls s' = (calls s ++ [idempotency_call config; idempotency_call config])%list /\
    ((IdempotencyMeta.req1Status (IdempotencyResult.meta r) = AxiosResponse.status res1 /\
      IdempotencyMeta.req2Status (IdempotencyResult.meta r) = AxiosResponse.status res2 /\
      IdempotencyMeta.req1Time (IdempotencyResult.meta r) = took (P1 e s) /\
      IdempotencyMeta.req2Time (IdempotencyResult.meta r) = took (P2 e s)) \/
     (exists message,
        r = execution_error message /\
        ((AxiosResponse.status res1 <> AxiosResponse.status res2 /\
          exists reply,
            groq_mismatch e (length (asked s) + length questions) = GroqParsed reply /\
            prop reply "verdict" = None) \/
         (AxiosResponse.status res1 = AxiosResponse.status res2 /\
          typeof_object body1 = true /\
          validateBodies body1 body2
            (schema_for (groq_schema e (length (asked s))) body1) = Throw message)))).
Proof.
  intros body1 body2 questions H1 Hs1 H2.
  destruct (Z.eq_dec (AxiosResponse.status res1) (AxiosResponse.status res2)) as [Heq|Hne].
  - destruct (same_status_run config e s res1 res2 H1 Hs1 H2 (eq_sym Heq))
      as (s' & Hrun & Hcalls & _).
    cbn zeta in Hrun. fold body1 in Hrun. fold body2 in Hrun.
    eexists _, s'. split; [exact Hrun|]. split; [exact Hcalls|].
    destruct (typeof_object body1) eqn:Hty.
    + destruct (validateBodies body1 body2 _) as [v|message] eqn:Hv.
      * left. cbn. repeat split.
      * right. exists message. split; [reflexivity|]. right. auto.
    + left. cbn. repeat split.
  - destruct (decide (200 <= AxiosResponse.status res1 < 300
                      /\ AxiosResponse.status res2 = 409)) as [[Hgold H409]|Hgold].
    + destruct (gold_run config e s res1 res2 H1 H2 Hgold H409) as (s' & Hrun & Hcalls).
      eexists _, s'. split; [exact Hrun|]. split; [exact Hcalls|]. left. cbn. repeat split.
    + destruct (mismatch_run config e s res1 res2 H1 H2 Hs1 Hne Hgold)
        as (s' & Hrun & Hcalls & _).
      cbn zeta in Hrun. fold body1 in Hrun. fold questions in Hrun.
      eexists _, s'. split; [exact Hrun|]. split; [exact Hcalls|].
      destruct (groq_mismatch e (length (asked s) + length questions)) as [m|reply].
      * left. cbn. repeat split.
      * destruct (prop reply "verdict") as [verdict|] eqn:Hverdict.
        -- destruct (prop reply "reason") as [reason|] eqn:Hreason;
             [left; cbn; repeat split|].
           destruct reply; discriminate.
        -- right. eexists. split; [reflexivity|]. left. eauto.
Qed.

End body_comparison_facts.

(** ** The constraint and the tally of the race-condition runner *)

Section race_further_facts.
Context `{Host}.

Lemma num_gt_nat_Z (n : nat) (k : Z) : num_gt (of_nat n) (of_Z k) = (k <? Z.of_nat n).
Proof.
  unfold num_gt, of_nat, of_Z, Qle_bool. cbn [inject_Z Qnum Qden].
  rewrite !Z.mul_1_r. symmetry. apply Z.ltb_antisym.
Qed.

Lemma num_or_truthy (n d : number) : num_truthy d = true -> num_truthy (num_or n d) = true.
Proof. intros Hd. unfold num_or. destruct (num_truthy n) eqn:E; assumption. Qed.

Lemma or_else_truthy (a b : value) : truthy b = true -> truthy (or_else a b) = true.
Proof. intros Hb. unfold or_else. destruct (truthy a) eqn:E; assumption. Qed.

Lemma strict_eq_UNLIMITED (m : value) :
  strict_eq m (VStr "UNLIMITED") = true <-> m = VStr "UNLIMITED".
Proof.
  destruct m; cbn; try (split; [discriminate | congruence]).
  rewrite String.eqb_eq. split; congruence.
Qed.

(** A value read without error from a reply shows that the reply is neither
    null nor undefined, so every other read succeeds too. *)
Lemma prop_defined (v : value) (k k' : string) (x : value) :
  prop v k = Some x -> exists y, prop v k' = Some y.
Proof. destruct v; cbn; intros; try discriminate; eauto. Qed.

(** [analyzeRaceConditionIntent] normalises a reply that is not null. When
    it returns: the maximum is UNLIMITED exactly when the reply's
    [max_successes] is the string "UNLIMITED"; otherwise it is the number
    [Number(max_successes)], or 1 when that number is 0 or NaN, so it is
    never 0 and never NaN: a reply without [max_successes], or with null,
    false or 0 there, allows 1 success. The reason is the reply's, or "AI
    Default" when that one is missing or falsy. It throws exactly when
    [max_successes] is not "UNLIMITED" and its conversion to a number
    throws. *)
Theorem analyzeRaceConditionIntent_normalises
    (method url : string) (body : value) (e : Env) (s : NetState)
    (reply m reason : value) :
  groq_race e (length (asked s)) = GroqParsed reply ->
  prop reply "max_successes" = Some m ->
  prop reply "reason" = Some reason ->
  exists outcome,
    analyzeRaceConditionIntent method url body e s
    = (outcome, record_question (AskRaceIntent method url body) s) /\
    match outcome with
    | Ok c =>
        (RaceConstraint.max_successes c = RaceConstraint.UNLIMITED <-> m = VStr "UNLIMITED") /\
        (forall n, RaceConstraint.max_successes c = RaceConstraint.Limit n ->
           num_truthy n = true /\
           exists converted,
             Number m = Ok converted /\
             (num_truthy converted = true -> n = converted) /\
             (num_truthy converted = false -> n = of_Z 1)) /\
        (m ∈ [VUndefined; VNull; VBool false; VNum (of_Z 0); VNum NaN] ->
         RaceConstraint.max_successes c = RaceConstraint.Limit (of_Z 1)) /\
        truthy (RaceConstraint.reason c) = true /\
        (truthy reason = true -> RaceConstraint.reason c = reason) /\
        (truthy reason = false -> RaceConstraint.reason c = VStr "AI Default")
    | Throw message =>
        m <> VStr "UNLIMITED" /\ Number m = Throw message
    end.
Proof.
  intros He Hm Hr.
  pose proof (analyzeRaceConditionIntent_reads method url body e s m reason) as Hreads.
  cbn zeta in Hreads. rewrite He in Hreads. specialize (Hreads Hm Hr).
  eexists. split; [exact Hreads|].
  destruct (strict_eq m (VStr "UNLIMITED")) eqn:E.
  - apply strict_eq_UNLIMITED in E.
    cbn [RaceConstraint.max_successes RaceConstraint.reason].
    split; [split; [intros _; exact E | reflexivity]|].
    split; [discriminate|]. split.
    { intros Hin. subst m. repeat (apply elem_of_cons in Hin as [Hin|Hin]); try discriminate.
      inversion Hin. }
    split; [apply or_else_truthy; reflexivity|].
    split; intros Ht; unfold or_else; rewrite Ht; reflexivity.
  - assert (Hnot : m <> VStr "UNLIMITED").
    { intros Hu. apply strict_eq_UNLIMITED in Hu. congruence. }
    destruct (Number m) as [converted|message] eqn:En; cbn [res_bind].
    + cbn [RaceConstraint.max_successes RaceConstraint.reason].
      split; [split; [discriminate | intros Hu; contradiction]|].
      split.
      { intros n [= <-]. split; [apply num_or_truthy; reflexivity|].
        exists converted. split; [reflexivity|].
        unfold num_or. split; intros Ht; rewrite Ht; reflexivity. }
      split.
      { intros Hin.
        repeat (apply elem_of_cons in Hin as [->|Hin]);
          try (cbn in En; injection En as <-; reflexivity).
        inversion Hin. }
      split; [apply or_else_truthy; reflexivity|].
      split; intros Ht; unfold or_else; rewrite Ht; reflexivity.
    + split; [exact Hnot | reflexivity].
Qed.

(** The rule under a whole, non-negative maximum, for a tally of ten. *)
Lemma race_verdict_rule_whole (succ fail : nat) (k : Z) :
  (succ + fail)%nat = BATCH_SIZE ->
  0 <= k ->
  fst (race_verdict_rule succ fail (of_Z k))
  = if k <? Z.of_nat succ then FAIL else if (succ =? 0)%nat then WARN else PASS.
Proof.
  intros Hsum Hk. unfold race_verdict_rule. rewrite num_gt_nat_Z.
  destruct (k <? Z.of_nat succ); [reflexivity|].
  destruct succ as [|succ]; cbn [Nat.eqb andb].
  - cbn in Hsum. subst fail. reflexivity.
  - reflexivity.
Qed.

Lemma burst_successes_le (e : Env) (first : nat) : (burst_successes e first <= BATCH_SIZE)%nat.
Proof.
  unfold burst_successes.
  pose proof (List.filter_length_le burst_success (burst_answers e first)) as Hle.
  unfold burst_answers in Hle at 2. rewrite length_map, length_seq in Hle. exact Hle.
Qed.

(** When the oracle says "UNLIMITED" the runner allows 9999 successes, more
    than a burst can have: the verdict is never FAIL. It is WARN when no
    request succeeded and PASS otherwise. *)
Theorem unlimited_never_fails (config : RaceConfig.t) (e : Env) (s : NetState)
    (reply : value) :
  groq_race e (length (asked s)) = GroqParsed reply ->
  prop reply "max_successes" = Some (VStr "UNLIMITED") ->
  exists r s',
    runRaceConditionTest config e s = (Ok r, s') /\
    Constraint.max_successes (RaceMeta.aiConstraint (RaceResult.meta r)) = of_Z 9999 /\
    RaceResult.verdict r <> FAIL /\
    (RaceResult.verdict r = WARN <-> RaceMeta.successCount (RaceResult.meta r) = 0%nat) /\
    (RaceResult.verdict r = PASS <-> (1 <= RaceMeta.successCount (RaceResult.meta r))%nat).
Proof.
  intros He Hm.
  destruct (prop_defined reply "max_successes" "reason" _ Hm) as [reason Hr].
  pose proof (analyzeRaceConditionIntent_reads (RaceConfig.method config)
                (RaceConfig.url config) (RaceConfig.body config) e s
                (VStr "UNLIMITED") reason) as Hreads.
  cbn zeta in Hreads. rewrite He in Hreads. specialize (Hreads Hm Hr).
  cbn [strict_eq String.eqb Ascii.eqb Bool.eqb] in Hreads.
  destruct (race_run config e s)
    as (constraint & outcome & s' & Hinfer & Hrun & _ & _ & Hcases).
  rewrite infer_constraint_assigns, Hreads in Hinfer.
  cbn [fst RaceConstraint.max_successes RaceConstraint.reason] in Hinfer.
  assert (Hmax : Constraint.max_successes constraint = of_Z 9999)
    by (injection Hinfer as <-; reflexivity).
  pose proof (burst_successes_le e (length (calls s))) as Hle.
  unfold burst_successes, BATCH_SIZE in Hle.
  cbn zeta in Hcases. rewrite Hmax in Hcases.
  destruct outcome as [r|message].
  - destruct Hcases as (Hc & _ & Hsucc & Hsum & _ & _ & Hv).
    exists r, s'. split; [exact Hrun|]. rewrite Hc. split; [exact Hmax|].
    apply (f_equal fst) in Hv. cbn [fst] in Hv.
    rewrite (race_verdict_rule_whole _ _ 9999 Hsum) in Hv by lia.
    rewrite <- Hsucc in Hle.
    destruct (Z.ltb_spec 9999 (Z.of_nat (RaceMeta.successCount (RaceResult.meta r)))); [lia|].
    rewrite Hv.
    destruct (RaceMeta.successCount (RaceResult.meta r)) as [|k]; cbn [Nat.eqb];
      repeat split; try discriminate; try lia; auto.
  - exfalso. destruct Hcases as [Hgt _]. rewrite num_gt_nat_Z in Hgt.
    apply Z.ltb_lt in Hgt. lia.
Qed.

(** With the oracle down the runner is strict: the verdict is FAIL exactly
    when two or more requests of the burst succeeded, PASS exactly when one
    did, and WARN exactly when none did. *)
Theorem oracle_down_allows_one_success (config : RaceConfig.t) (e : Env) (s : NetState)
    (message : string) :
  groq_race e (length (asked s)) = GroqError message ->
  exists r s',
    runRaceConditionTest config e s = (Ok r, s') /\
    let successCount := RaceMeta.successCount (RaceResult.meta r) in
    successCount = length (List.filter burst_success (burst_answers e (length (calls s)))) /\
    (RaceResult.verdict r = FAIL <-> (2 <= successCount)%nat) /\
    (RaceResult.verdict r = PASS <-> successCount = 1%nat) /\
    (RaceResult.verdict r = WARN <-> successCount = 0%nat).
Proof.
  intros He.
  destruct (race_run config e s)
    as (constraint & outcome & s' & Hinfer & Hrun & _ & _ & Hcases).
  rewrite infer_constraint_assigns,
    (analyzeRaceConditionIntent_fallback _ _ _ e s message He) in Hinfer.
  cbn [fst RaceConstraint.max_successes RaceConstraint.reason] in Hinfer.
  injection Hinfer as <-. cbn zeta in Hcases.
  cbn [Constraint.max_successes Constraint.reason] in Hcases.
  destruct outcome as [r|message']; [|destruct Hcases as [_ Hthrows]; discriminate Hthrows].
  destruct Hcases as (_ & _ & Hsucc & Hsum & _ & _ & Hv).
  exists r, s'. split; [exact Hrun|]. cbn zeta. split; [exact Hsucc|].
  apply (f_equal fst) in Hv. cbn [fst] in Hv.
  change (num_or (of_Z 1) (of_Z 1)) with (of_Z 1) in Hv.
  rewrite (race_verdict_rule_whole _ _ 1 Hsum) in Hv by lia.
  rewrite Hv.
  destruct (RaceMeta.successCount (RaceResult.meta r)) as [|[|k]].
  - cbn. repeat split; try discriminate; try lia; auto.
  - cbn. repeat split; try discriminate; try lia; auto.
  - destruct (Z.ltb_spec 1 (Z.of_nat (S (S k)))); [|lia].
    repeat split; try discriminate; try lia; auto.
Qed.

(** The verdict follows the tally, in every world. The race-condition
    runner ends in one of two ways. It returns a result whose tally counts
    the answers to its [BATCH_SIZE] calls (a success is a 2xx answer,
    everything else is a failure) and whose verdict and title follow the
    rule: FAIL "Race Condition Detected" when [successCount] exceeds the
    allowed maximum, else WARN "Endpoint Unstable" when [successCount] is 0
    and [failCount] is positive, else PASS "Race Condition Safe". Or it
    throws: that happens only where the rule gives FAIL, when the reason of
    the constraint cannot be converted to a string for the description. *)
Theorem race_verdict_follows_tally_or_throws
    (config : RaceConfig.t) (e : Env) (s : NetState) :
  exists constraint outcome s',
    infer_constraint config e s = (Ok constraint, record_question (race_question config) s) /\
    runRaceConditionTest config e s = (outcome, s') /\
    let successes := burst_successes e (length (calls s)) in
    match outcome with
    | Ok r =>
        let m := RaceResult.meta r in
        RaceMeta.aiConstraint m = constraint /\
        RaceMeta.totalRequests m = BATCH_SIZE /\
        RaceMeta.successCount m = successes /\
        (RaceMeta.successCount m + RaceMeta.failCount m)%nat = BATCH_SIZE /\
        (RaceResult.verdict r, RaceResult.title r)
        = race_verdict_rule (RaceMeta.successCount m) (RaceMeta.failCount m)
            (Constraint.max_successes constraint)
    | Throw message =>
        race_verdict_rule successes (BATCH_SIZE - successes)
          (Constraint.max_successes constraint)
        = (FAIL, "Race Condition Detected") /\
        ToString (Constraint.reason constraint) = Throw message
    end.
Proof.
  destruct (race_run config e s)
    as (constraint & outcome & s' & Hinfer & Hrun & _ & _ & Hcases).
  exists constraint, outcome, s'. split; [exact Hinfer|]. split; [exact Hrun|].
  cbn zeta in Hcases |- *. destruct outcome as [r|message].
  - destruct Hcases as (Hc & Ht & Hs & Hsum & _ & _ & Hv). repeat split; assumption.
  - destruct Hcases as [Hgt Hthrows]. split; [|exact Hthrows].
    unfold race_verdict_rule, burst_successes. rewrite Hgt. reflexivity.
Qed.

(** Whatever the constraint, a burst without a success never passes, and
    the verdict WARN is only given when all ten requests failed; the verdict
    of a result is never ERROR. When the runner throws instead, the
    successes exceed the maximum. *)
Theorem no_success_never_passes (config : RaceConfig.t) (e : Env) (s : NetState) :
  exists constraint outcome s',
    infer_constraint config e s = (Ok constraint, record_question (race_question config) s) /\
    runRaceConditionTest config e s = (outcome, s') /\
    match outcome with
    | Ok r =>
        let m := RaceResult.meta r in
        (RaceResult.verdict r = PASS -> (1 <= RaceMeta.successCount m)%nat) /\
        (RaceResult.verdict r = WARN ->
           RaceMeta.successCount m = 0%nat /\ RaceMeta.failCount m = BATCH_SIZE) /\
        (RaceMeta.successCount m = 0%nat -> RaceResult.verdict r <> PASS) /\
        RaceResult.verdict r <> ERROR
    | Throw _ =>
        num_gt (of_nat (burst_successes e (length (calls s))))
               (Constraint.max_successes constraint) = true
    end.
Proof.
  destruct (race_run config e s)
    as (constraint & outcome & s' & Hinfer & Hrun & _ & _ & Hcases).
  exists constraint, outcome, s'. split; [exact Hinfer|]. split; [exact Hrun|].
  cbn zeta in Hcases |- *. destruct outcome as [r|message]; [|apply Hcases].
  destruct Hcases as (_ & _ & _ & Hsum & _ & _ & Hv).
  apply (f_equal fst) in Hv. cbn [fst] in Hv. rewrite Hv.
  unfold race_verdict_rule.
  destruct (num_gt _ _); cbn [fst].
  - repeat split; try discriminate.
  - destruct (RaceMeta.successCount (RaceResult.meta r)) as [|k] eqn:Ek; cbn [Nat.eqb andb].
    + cbn in Hsum. rewrite Hsum. cbn. repeat split; try discriminate; auto.
    + cbn. repeat split; try discriminate; try lia.
Qed.

Lemma Set_from_NoDup (xs : list Z) : forall seen : list Z,
  NoDup seen -> NoDup (Set_from seen xs).
Proof.
  induction xs as [|x xs IH]; intros seen Hseen; cbn [Set_from]; [exact Hseen|].
  apply IH. destruct (decide (x ∈ seen)) as [Hx|Hx]; [exact Hseen|].
  apply NoDup_app. split; [exact Hseen|]. split.
  - intros y Hy Hy'. apply list_elem_of_singleton in Hy'. subst y. exact (Hx Hy).
  - apply NoDup_singleton.
Qed.

(** Whenever the runner returns, the status codes of the result are the
    statuses the ten requests were tallied under (0 for a failed call), each
    listed once. It returns whenever the successes do not exceed the
    maximum. *)
Theorem status_codes_are_the_distinct_statuses
    (config : RaceConfig.t) (e : Env) (s : NetState) :
  exists constraint outcome s',
    infer_constraint config e s = (Ok constraint, record_question (race_question config) s) /\
    runRaceConditionTest config e s = (outcome, s') /\
    match outcome with
    | Ok r =>
        let codes := RaceMeta.statusCodes (RaceResult.meta r) in
        NoDup codes /\
        codes <> [] /\
        forall z, z ∈ codes <-> z ∈ map burst_status (burst_answers e (length (calls s)))
    | Throw _ =>
        num_gt (of_nat (burst_successes e (length (calls s))))
               (Constraint.max_successes constraint) = true
    end.
Proof.
  destruct (race_run config e s)
    as (constraint & outcome & s' & Hinfer & Hrun & _ & _ & Hcases).
  exists constraint, outcome, s'. split; [exact Hinfer|]. split; [exact Hrun|].
  cbn zeta in Hcases |- *. destruct outcome as [r|message]; [|apply Hcases].
  destruct Hcases as (_ & _ & _ & _ & Hcodes & _ & _). rewrite Hcodes.
  assert (Hmem : forall z, z ∈ Set_from [] (map burst_status (burst_answers e (length (calls s))))
                 <-> z ∈ map burst_status (burst_answers e (length (calls s)))).
  { intros z. rewrite Set_from_elem, elem_of_nil. tauto. }
  split; [apply Set_from_NoDup; constructor|]. split; [|exact Hmem].
  intros Hnil.
  assert (Hin : burst_status (outcome (fetch_net e (length (calls s))))
                ∈ map burst_status (burst_answers e (length (calls s)))).
  { unfold burst_answers, BATCH_SIZE. cbn [seq map]. apply list_elem_of_here. }
  apply Hmem in Hin. rewrite Hnil in Hin. inversion Hin.
Qed.

(** The burst, in every world: whether the runner then returns or throws,
    it has asked the oracle one question and issued [BATCH_SIZE] calls that
    are the same call, before it awaited any of them. The duration a result
    reports is the time the slowest of them took, not the sum of their
    times. *)
Theorem burst_is_ten_identical_concurrent_calls
    (config : RaceConfig.t) (e : Env) (s : NetState) :
  exists outcome s',
    runRaceConditionTest config e s = (outcome, s') /\
    calls s' = (calls s ++ replicate BATCH_SIZE (burst_call config))%list /\
    asked s' = (asked s ++ [race_question config])%list /\
    forall r, outcome = Ok r ->
      RaceMeta.totalRequests (RaceResult.meta r) = BATCH_SIZE /\
      RaceMeta.durationMs (RaceResult.meta r)
      = foldr Z.max 0 (map (fun i => took (fetch_net e i)) (seq (length (calls s)) BATCH_SIZE)).
Proof.
  destruct (race_run config e s)
    as (constraint & outcome & s' & _ & Hrun & Hcalls & Hasked & Hcases).
  exists outcome, s'. split; [exact Hrun|]. split; [exact Hcalls|]. split; [exact Hasked|].
  intros r ->. cbn zeta in Hcases.
  destruct Hcases as (_ & Ht & _ & _ & _ & Hd & _). split; assumption.
Qed.

End race_further_facts.

(** ** What the worker stores *)

Section worker_further_facts.
Context `{Host}.

(** What the worker stores for a job that ran a probe: the run is COMPLETED,
    its verdict is the verdict of the runner's result, the whole result is
    its summary, and it is finished at the time the runner returned; its
    logs and its other columns are as they were. This holds for every
    result of the race runner, and for every result of the idempotency
    runner whose verdict is a string, as every verdict the runner sets by
    itself is (a verdict adopted from the oracle's reply need not be). *)
Theorem worker_stores_the_runner_result
    (job_i job_r : Job.t) (e : Env) (s : WorkerState) (row_i row_r : TestRun.t)
    (ri : IdempotencyResult.t) (rr : RaceResult.t) (ni nr : NetState) :
  let config_i := TestJobData.config (Job.data job_i) in
  let config_r := TestJobData.config (Job.data job_r) in
  JobConfig.testType config_i = "IDEMPOTENCY" ->
  db s !! TestJobData.testRunId (Job.data job_i) = Some row_i ->
  runIdempotencyTest
    {| IdempotencyConfig.url := JobConfig.url config_i;
       IdempotencyConfig.method := JobConfig.method config_i;
       IdempotencyConfig.headers := JobConfig.headers config_i;
       IdempotencyConfig.body := JobConfig.body config_i |} e (net s) = (Ok ri, ni) ->
  (exists text, IdempotencyResult.verdict ri = VStr text) ->
  JobConfig.testType config_r = "RACE_CONDITION" ->
  db s !! TestJobData.testRunId (Job.data job_r) = Some row_r ->
  runRaceConditionTest
    {| RaceConfig.url := JobConfig.url config_r;
       RaceConfig.method := JobConfig.method config_r;
       RaceConfig.headers := JobConfig.headers config_r;
       RaceConfig.body := JobConfig.body config_r |} e (net s) = (Ok rr, nr) ->
  (exists s' row',
     worker job_i e s = (Ok tt, s') /\
     net s' = ni /\
     db s' !! TestJobData.testRunId (Job.data job_i) = Some row' /\
     TestRun.status row' = COMPLETED /\
     TestRun.verdict row' = Some (IdempotencyResult.verdict ri) /\
     TestRun.resultSummary row' = Some (IdempotencyReport ri) /\
     TestRun.finishedAt row' = Some (clock ni) /\
     TestRun.logs row' = TestRun.logs row_i /\
     TestRun.createdAt row' = TestRun.createdAt row_i /\
     row' = completed row_i (IdempotencyReport ri) (clock ni) /\
     status_writes s'
     = (status_writes s
        ++ [(TestJobData.testRunId (Job.data job_i), RUNNING);
            (TestJobData.testRunId (Job.data job_i), COMPLETED)])%list) /\
  (exists s' row',
     worker job_r e s = (Ok tt, s') /\
     net s' = nr /\
     db s' !! TestJobData.testRunId (Job.data job_r) = Some row' /\
     TestRun.status row' = COMPLETED /\
     TestRun.verdict row' = Some (RaceResult.verdict rr) /\
     TestRun.resultSummary row' = Some (RaceReport rr) /\
     TestRun.finishedAt row' = Some (clock nr) /\
     TestRun.logs row' = TestRun.logs row_r /\
     TestRun.createdAt row' = TestRun.createdAt row_r /\
     row' = completed row_r (RaceReport rr) (clock nr) /\
     status_writes s'
     = (status_writes s
        ++ [(TestJobData.testRunId (Job.data job_r), RUNNING);
            (TestJobData.testRunId (Job.data job_r), COMPLETED)])%list).
Proof.
  intros config_i config_r Hti Hrow_i Hrun_i [text Htext] Htr Hrow_r Hrun_r. split.
  - eexists _, _.
    split; [exact (worker_idempotency_job job_i e s row_i ri ni Hti Hrow_i Hrun_i)|].
    rewrite Htext. cbn [ToString net db status_writes].
    split; [reflexivity|]. split; [apply lookup_insert_eq|]. cbn. rewrite Htext.
    repeat split.
  - eexists _, _.
    split; [exact (worker_race_job job_r e s row_r (Ok rr) nr Htr Hrow_r Hrun_r)|].
    cbn [net db status_writes].
    split; [reflexivity|]. split; [apply lookup_insert_eq|]. cbn. repeat split.
Qed.

(** A target that cannot be reached does not fail the run: when the first
    request of an idempotency job fails, the run ends COMPLETED, with the
    verdict ERROR and the runner's "Execution Error" report as its summary;
    its logs are left as they were. The status FAILED is kept for a job
    the worker cannot run. *)
Theorem unreachable_target_completes_with_error
    (job : Job.t) (e : Env) (s : WorkerState) (row : TestRun.t) (message : string) :
  let id := TestJobData.testRunId (Job.data job) in
  JobConfig.testType (TestJobData.config (Job.data job)) = "IDEMPOTENCY" ->
  db s !! id = Some row ->
  R1 e (net s) = Throw message ->
  exists s' row',
    worker job e s = (Ok tt, s') /\
    db s' !! id = Some row' /\
    TestRun.status row' = COMPLETED /\
    TestRun.verdict row' = Some ERROR /\
    TestRun.resultSummary row' = Some (IdempotencyReport (execution_error message)) /\
    TestRun.logs row' = TestRun.logs row /\
    status_writes s' = (status_writes s ++ [(id, RUNNING); (id, COMPLETED)])%list.
Proof.
  intros id Hty Hrow H1.
  destruct (first_request_fails
              {| IdempotencyConfig.url := JobConfig.url (TestJobData.config (Job.data job));
                 IdempotencyConfig.method := JobConfig.method (TestJobData.config (Job.data job));
                 IdempotencyConfig.headers := JobConfig.headers (TestJobData.config (Job.data job));
                 IdempotencyConfig.body := JobConfig.body (TestJobData.config (Job.data job)) |}
              e (net s) message H1) as (n & Hrun & _ & _).
  eexists _, _. split; [exact (worker_idempotency_job job e s row _ n Hty Hrow Hrun)|].
  cbn [db status_writes]. split; [apply lookup_insert_eq|]. repeat split.
Qed.

(** An error of the race runner fails the run: when the runner throws, the
    processor still returns normally; the run is marked FAILED with the
    verdict ERROR and the error's message in its logs, no result is stored,
    and no other run is touched. *)
Theorem runner_error_fails_the_run
    (job : Job.t) (e : Env) (s : WorkerState) (row : TestRun.t)
    (message : string) (n : NetState) :
  let config := TestJobData.config (Job.data job) in
  let id := TestJobData.testRunId (Job.data job) in
  JobConfig.testType config = "RACE_CONDITION" ->
  db s !! id = Some row ->
  runRaceConditionTest
    {| RaceConfig.url := JobConfig.url config;
       RaceConfig.method := JobConfig.method config;
       RaceConfig.headers := JobConfig.headers config;
       RaceConfig.body := JobConfig.body config |} e (net s) = (Throw message, n) ->
  exists s' row',
    worker job e s = (Ok tt, s') /\
    net s' = n /\
    db s' !! id = Some row' /\
    TestRun.status row' = FAILED /\
    TestRun.verdict row' = Some ERROR /\
    TestRun.logs row' = Some message /\
    TestRun.resultSummary row' = TestRun.resultSummary row /\
    TestRun.finishedAt row' = Some (clock n) /\
    status_writes s' = (status_writes s ++ [(id, RUNNING); (id, FAILED)])%list /\
    forall other, other <> id -> db s' !! other = db s !! other.
Proof.
  intros config id Hty Hrow Hrun.
  eexists _, _.
  split; [exact (worker_race_job job e s row _ n Hty Hrow Hrun)|].
  cbn [net db status_writes]. split; [reflexivity|].
  split; [apply lookup_insert_eq|]. cbn. repeat split.
  intros other Hne. apply lookup_insert_ne. intros Heq. apply Hne. symmetry. exact Heq.
Qed.

End worker_further_facts.

(** ** The intake: RunTestSchema and createTestRun *)

Section intake_facts.
Context `{Host}.
Variable is_url : string -> bool.
Variable int_in_range : number -> bool.

Lemma z_enum_Some (options : list string) (v : value) (s : string) :
  z_enum options v = Some s -> v = VStr s /\ s ∈ options.
Proof.
  destruct v; cbn; try discriminate.
  destruct (decide (_ ∈ options)); [|discriminate]. intros [= <-]. auto.
Qed.

Lemma z_url_Some (v : value) (s : string) :
  z_url is_url v = Some s -> v = VStr s /\ is_url s = true.
Proof.
  destruct v; cbn; try discriminate.
  destruct (is_url _) eqn:E; [|discriminate]. intros [= <-]. auto.
Qed.

(** What the schema lets through: an object whose [testType] is one of the
    three test types, whose [method] is one of the five methods and whose
    [endpoint] is a URL; the [body] is taken as it is. *)
Lemma RunTestSchema_parse_Some (input : value) (data : RunTestInput.t) :
  RunTestSchema_parse is_url int_in_range input = Some data ->
  exists props,
    input = VObj props /\
    assoc "testType" props = VStr (RunTestInput.testType data) /\
    RunTestInput.testType data ∈ TEST_TYPES /\
    assoc "method" props = VStr (RunTestInput.method data) /\
    RunTestInput.method data ∈ METHODS /\
    assoc "endpoint" props = VStr (RunTestInput.endpoint data) /\
    is_url (RunTestInput.endpoint data) = true /\
    RunTestInput.body data = assoc "body" props /\
    z_optional_record (assoc "headers" props) = Some (RunTestInput.headers data) /\
    z_optional_int int_in_range (assoc "expectedStatus" props)
    = Some (RunTestInput.expectedStatus data).
Proof.
  destruct input as [| |b|n|str|items|props]; try discriminate.
  unfold RunTestSchema_parse.
  destruct (z_optional_string _) as [projectId|]; [|discriminate].
  destruct (z_enum TEST_TYPES _) as [testType|] eqn:Et; [|discriminate].
  destruct (z_url is_url _) as [endpoint|] eqn:Eu; [|discriminate].
  destruct (z_enum METHODS _) as [method|] eqn:Em; [|discriminate].
  destruct (z_optional_record _) as [headers|] eqn:Eh; [|discriminate].
  destruct (z_optional_int _ _) as [expectedStatus|] eqn:Ee; [|discriminate].
  intros [= <-]. cbn.
  apply z_enum_Some in Et as [Et1 Et2]. apply z_enum_Some in Em as [Em1 Em2].
  apply z_url_Some in Eu as [Eu1 Eu2].
  exists props. repeat split; assumption.
Qed.

(** The state after the insert of a pending row, and the job the controller
    queues for it. *)
Lemma accepted_request (backend : Backend.t) (id : string) (req_body : value)
    (data : RunTestInput.t) (e : Env) (s : ServerState) :
  RunTestSchema_parse is_url int_in_range req_body = Some data ->
  Backend.database backend = Ok id ->
  db (worker_state s) !! id = None ->
  Backend.redis backend = Ok tt ->
  createTestRun is_url int_in_range backend req_body e s
  = (Ok {| Reply.code := 202; Reply.json := Queued id |},
     {| worker_state :=
          {| net := net (worker_state s);
             db := <[id := pending_row data (clock (net (worker_state s)))]>
                     (db (worker_state s));
             status_writes := status_writes (worker_state s) |};
        queue := queue s ++ [("execute-test", job_for id data)] |}).
Proof.
  intros Hparse Hdb Hfree Hredis.
  unfold createTestRun, try_catch, bind, prisma_testRun_create, testQueue_add.
  rewrite Hparse, Hdb, Hredis. unfold ret. rewrite Hfree. reflexivity.
Qed.

(** A request that validates, with a database that inserts the row under an
    id that is free and a queue that takes the job, is answered 202 with
    that id. A row is inserted under the id, PENDING, with the request's
    test type, endpoint and method (its [projectId] and [expectedStatus] are
    not stored); one job is added to the queue, "execute-test", that carries
    the same id and the request's test type, endpoint (as [url]), method,
    headers and body. Nothing else changes: no other row, no call, no status
    write. The job's test type is one of the three the schema admits, which
    includes 'RATE_LIMIT'. *)
Theorem accepted_request_is_stored_and_queued
    (backend : Backend.t) (id : string) (req_body : value) (data : RunTestInput.t)
    (e : Env) (s : ServerState) :
  RunTestSchema_parse is_url int_in_range req_body = Some data ->
  Backend.database backend = Ok id ->
  db (worker_state s) !! id = None ->
  Backend.redis backend = Ok tt ->
  exists s' row job,
    createTestRun is_url int_in_range backend req_body e s
    = (Ok {| Reply.code := 202; Reply.json := Queued id |}, s') /\
    db (worker_state s') !! id = Some row /\
    TestRun.status row = PENDING /\
    TestRun.testType row = RunTestInput.testType data /\
    TestRun.endpoint row = RunTestInput.endpoint data /\
    TestRun.method row = RunTestInput.method data /\
    TestRun.projectId row = None /\
    TestRun.verdict row = None /\
    TestRun.finishedAt row = None /\
    (forall other, other <> id ->
       db (worker_state s') !! other = db (worker_state s) !! other) /\
    net (worker_state s') = net (worker_state s) /\
    status_writes (worker_state s') = status_writes (worker_state s) /\
    queue s' = (queue s ++ [("execute-test", job)])%list /\
    TestJobData.testRunId job = id /\
    TestJobData.config job
    = {| JobConfig.testType := RunTestInput.testType data;
         JobConfig.url := RunTestInput.endpoint data;
         JobConfig.method := RunTestInput.method data;
         JobConfig.headers := RunTestInput.headers data;
         JobConfig.body := RunTestInput.body data |} /\
    JobConfig.testType (TestJobData.config job) ∈ TEST_TYPES /\
    JobConfig.method (TestJobData.config job) ∈ METHODS /\
    is_url (JobConfig.url (TestJobData.config job)) = true.
Proof.
  intros Hparse Hdb Hfree Hredis.
  destruct (RunTestSchema_parse_Some _ _ Hparse)
    as (props & _ & _ & Htype & _ & Hmethod & _ & Hurl & _).
  eexists _, _, _.
  split; [exact (accepted_request backend id req_body data e s Hparse Hdb Hfree Hredis)|].
  cbn [worker_state db net status_writes queue].
  split; [apply lookup_insert_eq|]. cbn.
  repeat split; try assumption.
  intros other Hne. apply lookup_insert_ne. congruence.
Qed.

(** The controller never throws, and what a refusal leaves behind depends
    on the step that failed. When the body does not validate, or when the
    insert is rejected (by the database, or because the id is taken), the
    reply is 400 "Invalid Request" and the state is as it was. When the
    insert succeeds and the queue then rejects the job, the reply is 400
    too, but the row stays in the table, PENDING, with no job for it. In the
    remaining case the reply is 202. So a job is queued only after its row
    is in the table, and only with a 202. *)
Theorem refusals_and_what_they_leave
    (backend : Backend.t) (req_body : value) (e : Env) (s : ServerState) :
  exists reply s',
    createTestRun is_url int_in_range backend req_body e s = (Ok reply, s') /\
    let refused := {| Reply.code := 400; Reply.json := InvalidRequest |} in
    match RunTestSchema_parse is_url int_in_range req_body, Backend.database backend with
    | None, _ | Some _, Throw _ => reply = refused /\ s' = s
    | Some data, Ok id =>
        match db (worker_state s) !! id with
        | Some _ => reply = refused /\ s' = s
        | None =>
            net (worker_state s') = net (worker_state s) /\
            status_writes (worker_state s') = status_writes (worker_state s) /\
            db (worker_state s')
            = <[id := pending_row data (clock (net (worker_state s)))]>
                (db (worker_state s)) /\
            match Backend.redis backend with
            | Throw _ => reply = refused /\ queue s' = queue s
            | Ok _ =>
                reply = {| Reply.code := 202; Reply.json := Queued id |} /\
                queue s' = (queue s ++ [("execute-test", job_for id data)])%list
            end
        end
    end.
Proof.
  unfold createTestRun, try_catch, bind, prisma_testRun_create, testQueue_add.
  destruct (RunTestSchema_parse is_url int_in_range req_body) as [data|].
  - unfold ret. destruct (Backend.database backend) as [id|message].
    + destruct (db (worker_state s) !! id) as [row|].
      * eexists _, _. split; [reflexivity|]. split; reflexivity.
      * destruct (Backend.redis backend) as [[]|message];
          (eexists _, _; split; [reflexivity|]); cbn; repeat split.
    + eexists _, _. split; [reflexivity|]. split; reflexivity.
  - eexists _, _. split; [reflexivity|]. split; reflexivity.
Qed.

Lemma string_entries_refuses (props : list (string * value)) (k : string) (v : value) :
  (k, v) ∈ props -> (forall str, v <> VStr str) -> string_entries props = None.
Proof.
  induction props as [|[k' v'] props IH]; intros Hin Hv; [inversion Hin|].
  apply elem_of_cons in Hin as [[= <- <-]|Hin].
  - cbn. destruct v; try reflexivity. exfalso. exact (Hv _ eq_refl).
  - cbn. rewrite (IH Hin Hv). destruct v'; reflexivity.
Qed.

(** What the validation refuses: a body that is not an object, a test type
    outside the three test types, a method outside the five methods, an
    endpoint that is not a string or not a URL, headers with a value that is
    not a string, an expected status that is a number but not a whole
    one. *)
Theorem validation_refuses
    (req_body : value) :
  match req_body with
  | VObj props =>
      (forall t, t ∈ TEST_TYPES -> assoc "testType" props <> VStr t) \/
      (forall m, m ∈ METHODS -> assoc "method" props <> VStr m) \/
      (forall u, assoc "endpoint" props = VStr u -> is_url u = false) \/
      (exists hs k v, assoc "headers" props = VObj hs /\ (k, v) ∈ hs /\
                      forall str, v <> VStr str) \/
      (exists n, assoc "expectedStatus" props = VNum n /\ is_integer n = false)
  | _ => True
  end ->
  RunTestSchema_parse is_url int_in_range req_body = None.
Proof.
  intros Hbad.
  destruct (RunTestSchema_parse is_url int_in_range req_body) as [data|] eqn:Hparse;
    [|reflexivity].
  exfalso.
  destruct (RunTestSchema_parse_Some _ _ Hparse)
    as (props & -> & Ht & Htype & Hm & Hmethod & Hu & Hurl & _ & Hh & He).
  destruct Hbad as [Hbad|[Hbad|[Hbad|[Hbad|Hbad]]]].
  - exact (Hbad _ Htype Ht).
  - exact (Hbad _ Hmethod Hm).
  - rewrite (Hbad _ Hu) in Hurl. discriminate.
  - destruct Hbad as (hs & k & v & Hhs & Hin & Hv).
    rewrite Hhs in Hh. cbn in Hh. rewrite (string_entries_refuses _ _ _ Hin Hv) in Hh.
    discriminate.
  - destruct Hbad as (n & Hn & Hint). rewrite Hn in He. cbn in He. rewrite Hint in He.
    discriminate.
Qed.

(** From the request to the terminal status. A request that is accepted
    leaves a job in the queue; when the worker processes that job, in any
    world, the run goes from PENDING to RUNNING and is left in a terminal
    status: the worker writes COMPLETED, or FAILED, or COMPLETED and then
    FAILED. For 'IDEMPOTENCY' and 'RACE_CONDITION' the probe is run (calls
    are issued). A request for 'RATE_LIMIT', which the intake accepts,
    always ends FAILED, with "Unknown test type: RATE_LIMIT" in its logs and
    without a call to the target. *)
Theorem accepted_request_reaches_a_terminal_status
    (backend : Backend.t) (id : string) (req_body : value) (data : RunTestInput.t)
    (e e' : Env) (s : ServerState) (job_id : string) :
  RunTestSchema_parse is_url int_in_range req_body = Some data ->
  Backend.database backend = Ok id ->
  db (worker_state s) !! id = None ->
  Backend.redis backend = Ok tt ->
  exists s1 job w later row,
    createTestRun is_url int_in_range backend req_body e s
    = (Ok {| Reply.code := 202; Reply.json := Queued id |}, s1) /\
    queue s1 = (queue s ++ [("execute-test", job)])%list /\
    TestRun.status <$> db (worker_state s1) !! id = Some PENDING /\
    worker {| Job.id := job_id; Job.data := job |} e' (worker_state s1) = (Ok tt, w) /\
    status_writes w
    = (status_writes (worker_state s) ++ (id, RUNNING) :: map (pair id) later)%list /\
    later ∈ [[COMPLETED]; [FAILED]; [COMPLETED; FAILED]] /\
    db w !! id = Some row /\
    Some (TestRun.status row) = last later /\
    terminal (TestRun.status row) = true /\
    (RunTestInput.testType data = "IDEMPOTENCY" \/
     RunTestInput.testType data = "RACE_CONDITION" ->
       exists c cs, calls (net w) = (calls (net (worker_state s)) ++ c :: cs)%list) /\
    (RunTestInput.testType data = "RATE_LIMIT" ->
       later = [FAILED] /\
       TestRun.verdict row = Some ERROR /\
       TestRun.logs row = Some "Unknown test type: RATE_LIMIT" /\
       net w = net (worker_state s)).
Proof.
  intros Hparse Hdb Hfree Hredis.
  rewrite (accepted_request backend id req_body data e s Hparse Hdb Hfree Hredis).
  set (row0 := pending_row data (clock (net (worker_state s)))).
  set (w1 := {| net := net (worker_state s);
                db := <[id := row0]> (db (worker_state s));
                status_writes := status_writes (worker_state s) |}).
  set (job := {| Job.id := job_id; Job.data := job_for id data |}).
  assert (Hrow : db w1 !! TestJobData.testRunId (Job.data job) = Some row0)
    by apply lookup_insert_eq.
  destruct (worker_history job e' w1 row0 Hrow)
    as (w & later & Hrun & Hwrites & Hlater & Hstatus & _ & Hunknown & Hknown).
  cbn [Job.data job job_for TestJobData.testRunId TestJobData.config JobConfig.testType]
    in Hwrites, Hstatus, Hunknown, Hknown.
  destruct (db w !! id) as [row|] eqn:Hfinal.
  2: { exfalso. cbn in Hstatus.
       repeat (apply elem_of_cons in Hlater as [->|Hlater]); try discriminate.
       inversion Hlater. }
  cbn [fmap option_fmap option_map] in Hstatus.
  eexists _, (job_for id data), w, later, row.
  split; [reflexivity|]. split; [reflexivity|].
  split; [exact (f_equal (fmap TestRun.status) Hrow)|].
  split; [exact Hrun|]. split; [exact Hwrites|]. split; [exact Hlater|].
  split; [exact Hfinal|]. split; [exact Hstatus|]. split.
  { repeat (apply elem_of_cons in Hlater as [->|Hlater]);
      [| | |inversion Hlater]; cbn in Hstatus; injection Hstatus as ->; reflexivity. }
  split; [exact Hknown|].
  intros Hrate.
  assert (Hi : RunTestInput.testType data <> "IDEMPOTENCY") by (rewrite Hrate; discriminate).
  assert (Hr : RunTestInput.testType data <> "RACE_CONDITION")
    by (rewrite Hrate; discriminate).
  destruct (Hunknown Hi Hr) as [-> Hnet]. split; [reflexivity|].
  pose proof (worker_unknown_job job e' w1 row0 Hi Hr Hrow) as Hjob.
  rewrite Hjob in Hrun. injection Hrun as <-.
  cbn [db net] in Hfinal |- *. rewrite lookup_insert_eq in Hfinal. injection Hfinal as <-.
  cbn. rewrite Hrate. repeat split.
Qed.

End intake_facts.

(* ===================================================================== *)
(** * The statements at concrete worlds *)
(* ===================================================================== *)

(** The examples of the specification. *)

Example identity_field_changed :
  let e := world [responds 200 (account "a1" 100); responds 200 (account "a2" 100)] []
                 by_id strict_fail VNull in
  exists r s',
    runIdempotencyTest (H := example_host) post_orders e fresh = (Ok r, s') /\
    IdempotencyResult.verdict r = FAIL /\
    IdempotencyResult.title r = "Double Execution Detected" /\
    IdempotencyMeta.diff (IdempotencyResult.meta r)
    = Some {| Diff.field := VStr "id"; Diff.val1 := VStr "a1"; Diff.val2 := VStr "a2" |}.
Proof. eexists _, _. vm_compute. repeat split. Qed.

Example burst_all_succeed_single_use :
  let e := world_offline_oracle [] (repeat (burst_responds 200) 10) in
  exists r s',
    runRaceConditionTest (H := example_host) post_coupon e fresh = (Ok r, s') /\
    RaceResult.verdict r = FAIL /\
    RaceMeta.successCount (RaceResult.meta r) = 10%nat.
Proof. eexists _, _. vm_compute. repeat split. Qed.

Example burst_all_succeed_unlimited :
  let e := world [] (repeat (burst_responds 200) 10) by_id strict_fail
                 (VObj [("max_successes", VStr "UNLIMITED"); ("reason", VStr "search")]) in
  exists r s',
    runRaceConditionTest (H := example_host) post_coupon e fresh = (Ok r, s') /\
    RaceResult.verdict r = PASS /\
    Constraint.max_successes (RaceMeta.aiConstraint (RaceResult.meta r)) = of_Z 9999.
Proof. eexists _, _. vm_compute. repeat split. Qed.

Example burst_all_fail :
  let e := world_offline_oracle [] [] in
  exists r s',
    runRaceConditionTest (H := example_host) post_coupon e fresh = (Ok r, s') /\
    RaceResult.verdict r = WARN /\
    RaceResult.title r = "Endpoint Unstable" /\
    RaceMeta.successCount (RaceResult.meta r) = 0%nat /\
    RaceMeta.failCount (RaceResult.meta r) = 10%nat.
Proof. eexists _, _. vm_compute. repeat split. Qed.

(** A reply that parses to null makes [analyzeRaceConditionIntent] throw;
    the runner keeps the constraint it started with. *)
Example null_reply_keeps_default_constraint :
  let e := world [] [] by_id strict_fail VNull in
  exists r s',
    runRaceConditionTest (H := example_host) post_coupon e fresh = (Ok r, s') /\
    RaceMeta.aiConstraint (RaceResult.meta r) = default_constraint.
Proof. eexists _, _. vm_compute. repeat split. Qed.

(** C2, where the code leaves the claim. The schema names [id] as identity
    and [balance] as data, and both differ between the two bodies; the two
    values of [id] are objects that own a key [toString]. The FAIL
    description is built from the two values with a template literal, which
    throws: [validateBodies] returns no verdict, and the runner reports
    ERROR, "Execution Error", where the claim has FAIL. *)
Theorem validateBodies_throws_on_boxed_identity :
  let body1 := boxed_account "a1" 100 in
  let body2 := boxed_account "a2" 250 in
  let e := world [responds 200 body1; responds 200 body2] [] by_id strict_fail VNull in
  lists (H := example_host) by_id "identity" ["id"] /\
  lists (H := example_host) by_id "data" ["balance"] /\
  changed (H := example_host) body1 body2 "id" /\
  changed (H := example_host) body1 body2 "balance" /\
  validateBodies (H := example_host) body1 body2 by_id
  = Throw "Cannot convert object to primitive value" /\
  exists s',
    runIdempotencyTest (H := example_host) post_orders e fresh
    = (Ok (execution_error "Cannot convert object to primitive value"), s') /\
    IdempotencyResult.verdict (execution_error "Cannot convert object to primitive value")
    = ERROR.
Proof.
  cbv zeta. do 4 (split; [vm_compute; reflexivity|]).
  split; [vm_compute; reflexivity|].
  eexists. split; [vm_compute; reflexivity|reflexivity].
Qed.

(** With identity values that are strings the same two bodies give the
    verdict of the claim. *)
Example identity_and_data_changed :
  validateBodies (H := example_host) (account "a1" 100) (account "a2" 250) by_id
  = Ok {| Validation.verdict := FAIL;
          Validation.title := "Double Execution Detected";
          Validation.description
          := "Critical identity field 'id' changed from 'a1' to 'a2'. This implies a new resource was created.";
          Validation.diff := Some {| Diff.field := VStr "id";
                                     Diff.val1 := VStr "a1";
                                     Diff.val2 := VStr "a2" |} |}.
Proof. vm_compute. reflexivity. Qed.

(** C4, where the code leaves the claim. The oracle allows one success and
    gives a reason that is an object owning a key [toString]; all ten
    requests of the burst succeed. The tally calls for FAIL, "Race Condition
    Detected", but the FAIL description is built from the reason with a
    template literal, outside any [try]: the runner throws and returns no
    verdict, and the worker marks the run FAILED. *)
Theorem race_fail_description_throws :
  let e := world [] (repeat (burst_responds 200) 10) by_id strict_fail
                 single_use_boxed_reason in
  let job := job_of "run-3" "RACE_CONDITION" in
  let s0 := store_with "run-3" (run_row "RACE_CONDITION" PENDING) in
  burst_successes e 0 = 10%nat /\
  fst (infer_constraint (H := example_host) post_coupon e fresh)
  = Ok {| Constraint.max_successes := of_Z 1;
          Constraint.reason := VObj [("toString", VStr "single use")] |} /\
  race_verdict_rule 10 0 (of_Z 1) = (FAIL, "Race Condition Detected") /\
  fst (runRaceConditionTest (H := example_host) post_coupon e fresh)
  = Throw "Cannot convert object to primitive value" /\
  exists w,
    worker (H := example_host) job e s0 = (Ok tt, w) /\
    writes_of "run-3" (status_writes w) = [RUNNING; FAILED] /\
    TestRun.verdict <$> db w !! "run-3" = Some (Some ERROR) /\
    TestRun.logs <$> db w !! "run-3"
    = Some (Some "Cannot convert object to primitive value").
Proof.
  cbv zeta. do 4 (split; [vm_compute; reflexivity|]).
  eexists. split; [vm_compute; reflexivity|].
  vm_compute. repeat split.
Qed.

(** With a reason that is a string the same burst gets the verdict of the
    claim. *)
Example race_fail_description :
  let e := world [] (repeat (burst_responds 200) 10) by_id strict_fail
                 (VObj [("max_successes", VNum (of_Z 1)); ("reason", VStr "single use")]) in
  exists r s',
    runRaceConditionTest (H := example_host) post_coupon e fresh = (Ok r, s') /\
    RaceResult.verdict r = FAIL /\
    RaceResult.title r = "Race Condition Detected" /\
    RaceResult.description r
    = "The API allowed 10 successful operations, but AI determined only 1 should be possible. (single use)".
Proof. eexists _, _. vm_compute. repeat split. Qed.

(** C1, the claim as stated fails: a job delivered twice. The first
    delivery takes the run from PENDING to COMPLETED; the second finds it
    COMPLETED, writes RUNNING (a transition that is not legal) and probes the
    target again (two more requests go out) before it writes COMPLETED once
    more. *)
Lemma redelivered_terminal_run_is_probed_again :
  let e := world [responds 200 (account "a1" 100); responds 200 (account "a1" 100);
                  responds 200 (account "a1" 100); responds 200 (account "a1" 100)] []
                 by_id strict_fail VNull in
  let job := job_of "run-1" "IDEMPOTENCY" in
  let s0 := store_with "run-1" (run_row "IDEMPOTENCY" PENDING) in
  exists s1 s2,
    worker (H := example_host) job e s0 = (Ok tt, s1) /\
    TestRun.status <$> db s1 !! "run-1" = Some COMPLETED /\
    length (calls (net s1)) = 2%nat /\
    worker (H := example_host) job e s1 = (Ok tt, s2) /\
    writes_of "run-1" (status_writes s2) = [RUNNING; COMPLETED; RUNNING; COMPLETED] /\
    legal_history PENDING (writes_of "run-1" (status_writes s2)) = false /\
    legal_transition COMPLETED RUNNING = false /\
    length (calls (net s2)) = 4%nat.
Proof.
  eexists _, _.
  split; [vm_compute; reflexivity|].
  split; [vm_compute; reflexivity|].
  split; [vm_compute; reflexivity|].
  split; [vm_compute; reflexivity|].
  vm_compute. repeat split.
Qed.

Lemma worker_writes_running_then_terminal_witness :
  let e := world [responds 200 (account "a1" 100); responds 200 (account "a1" 100)] []
                 by_id strict_fail VNull in
  let s := store_with "run-1" (run_row "IDEMPOTENCY" PENDING) in
  exists s' later final,
    worker (H := example_host) (job_of "run-1" "IDEMPOTENCY") e s = (Ok tt, s') /\
    status_writes s' = (("run-1", RUNNING) :: map (pair "run-1") later)%list /\
    last later = Some final /\
    Forall (fun status => terminal status = true) later.
Proof.
  intros e s.
  destruct (worker_writes_running_then_terminal (H := example_host)
              (job_of "run-1" "IDEMPOTENCY") e s (run_row "IDEMPOTENCY" PENDING))
    as (s' & later & final & Hrun & Hwrites & _ & Hterminal & Hlast & _).
  - vm_compute. reflexivity.
  - exists s', later, final. repeat split; assumption.
Defined.

Lemma unknown_test_type_fails_the_run_witness :
  let s := store_with "run-2" (run_row "RATE_LIMIT" PENDING) in
  exists s' row',
    worker (H := example_host) (job_of "run-2" "RATE_LIMIT") (world_offline_oracle [] []) s
    = (Ok tt, s') /\
    db s' !! "run-2" = Some row' /\
    TestRun.status row' = FAILED /\
    TestRun.logs row' = Some "Unknown test type: RATE_LIMIT".
Proof.
  intros s.
  destruct (unknown_test_type_fails_the_run (H := example_host)
              (job_of "run-2" "RATE_LIMIT") (world_offline_oracle [] []) s
              (run_row "RATE_LIMIT" PENDING))
    as (s' & row' & Hrun & Hrow & Hstatus & _ & _ & Hlogs & _).
  - vm_compute. discriminate.
  - vm_compute. discriminate.
  - vm_compute. reflexivity.
  - exists s', row'. repeat split; assumption.
Defined.

Lemma server_crash_stops_after_first_request_witness :
  let e := world_offline_oracle [responds 503 (VStr "Service Unavailable")] [] in
  exists r s',
    runIdempotencyTest (H := example_host) post_orders e fresh = (Ok r, s') /\
    IdempotencyResult.verdict r = FAIL /\
    IdempotencyResult.title r = "Server Crash" /\
    IdempotencyMeta.req2Status (IdempotencyResult.meta r) = 0 /\
    length (calls s') = 1%nat.
Proof.
  intros e.
  destruct (server_crash_stops_after_first_request (H := example_host) post_orders e fresh
              {| AxiosResponse.status := 503;
                 AxiosResponse.data := VStr "Service Unavailable" |})
    as (r & s' & request & Hrun & Hverdict & Htitle & _ & Hreq2 & _ & Hcalls & _).
  - reflexivity.
  - cbn. lia.
  - exists r, s'. rewrite Hcalls. repeat split; assumption.
Defined.

Lemma gold_standard_conflict_witness :
  let e := world [responds 201 (account "a1" 100); responds 409 (VStr "duplicate")] []
                 by_id strict_fail VNull in
  exists r s',
    runIdempotencyTest (H := example_host) post_orders e fresh = (Ok r, s') /\
    IdempotencyResult.verdict r = PASS /\
    IdempotencyResult.title r = "Conflict Correctly Handled".
Proof.
  intros e.
  destruct (gold_standard_conflict (H := example_host) post_orders e fresh
              {| AxiosResponse.status := 201; AxiosResponse.data := account "a1" 100 |}
              {| AxiosResponse.status := 409; AxiosResponse.data := VStr "duplicate" |})
    as (r & s' & Hrun & Hverdict & Htitle & _).
  - reflexivity.
  - reflexivity.
  - cbn. lia.
  - reflexivity.
  - exists r, s'. repeat split; assumption.
Defined.

(** C5, the claim as stated fails. The reply of the adjudicator is not
    checked. A reply that parses to null is a reply, not a failure of the
    call: the fallback is not used, the read of its verdict throws and the
    result is ERROR, "Execution Error", neither a verdict of the oracle nor
    FAIL with the fallback reason. And a reply whose verdict is neither PASS
    nor FAIL is adopted as it is, with a reason that need not be a
    string. *)
Lemma mismatch_reply_is_not_checked :
  let answers := [responds 200 (account "a1" 100); responds 404 (VStr "gone")] in
  let e_null := world answers [] by_id VNull VNull in
  let e_maybe := world answers [] by_id
                   (VObj [("verdict", VStr "MAYBE"); ("reason", VNum (of_Z 7))]) VNull in
  (exists r s',
     runIdempotencyTest (H := example_host) post_orders e_null fresh = (Ok r, s') /\
     AskMismatch 200 (account "a1" 100) 404 (VStr "gone") ∈ asked s' /\
     IdempotencyResult.verdict r = ERROR /\
     IdempotencyResult.title r = "Execution Error" /\
     IdempotencyResult.description r
     = VStr "Test runner failed: Cannot read properties of null (reading 'verdict')" /\
     IdempotencyResult.description r
     <> VStr "AI Analysis Failed, defaulting to strict fail.") /\
  (exists r s',
     runIdempotencyTest (H := example_host) post_orders e_maybe fresh = (Ok r, s') /\
     IdempotencyResult.verdict r = VStr "MAYBE" /\
     IdempotencyResult.verdict r <> PASS /\
     IdempotencyResult.verdict r <> FAIL /\
     IdempotencyResult.title r = "Inconsistent Status Code" /\
     IdempotencyResult.description r = VNum (of_Z 7)).
Proof.
  split.
  - eexists _, _. split; [vm_compute; reflexivity|].
    split; [apply list_elem_of_further, list_elem_of_here|].
    vm_compute. repeat split; discriminate.
  - eexists _, _. split; [vm_compute; reflexivity|].
    vm_compute. repeat split; discriminate.
Qed.

Lemma status_mismatch_is_adjudicated_witness :
  let e := world [responds 200 (account "a1" 100); responds 404 (VStr "gone")] []
                 by_id strict_fail VNull in
  exists r s',
    runIdempotencyTest (H := example_host) post_orders e fresh = (Ok r, s') /\
    IdempotencyResult.verdict r = FAIL /\
    IdempotencyResult.title r = "Inconsistent Status Code" /\
    IdempotencyResult.description r = VStr "Unrelated error on replay.".
Proof.
  intros e.
  destruct (status_mismatch_is_adjudicated (H := example_host) post_orders e fresh
              {| AxiosResponse.status := 200; AxiosResponse.data := account "a1" 100 |}
              {| AxiosResponse.status := 404; AxiosResponse.data := VStr "gone" |})
    as (r & s' & Hrun & _ & Hverdict & Htitle & Hreason & _).
  - reflexivity.
  - reflexivity.
  - cbn. lia.
  - cbn. lia.
  - cbn. lia.
  - exists r, s'. repeat split; assumption.
Defined.

(** C6, the claim as stated fails. With the oracle down, the constraint the
    race runner goes on with has the reason "Fallback Default", not
    "Default strict safety". And an oracle operation can raise to its
    caller: on a reply that parses to null [analyzeRaceConditionIntent]
    throws. On the same reply [analyzeIdempotencySchema] does not fall back:
    it returns null as the schema, and the idempotency runner ends in
    ERROR. *)
Lemma oracle_failure_reason_is_fallback_default :
  let e := world_offline_oracle [] [] in
  let e_null := world [responds 200 (account "a1" 100); responds 200 (account "a1" 100)] []
                      VNull VNull VNull in
  (exists r s',
     groq_race e (length (asked fresh)) = GroqError "Connection error." /\
     runRaceConditionTest (H := example_host) post_coupon e fresh = (Ok r, s') /\
     RaceMeta.aiConstraint (RaceResult.meta r)
     = {| Constraint.max_successes := of_Z 1;
          Constraint.reason := VStr "Fallback Default" |} /\
     RaceMeta.aiConstraint (RaceResult.meta r)
     <> {| Constraint.max_successes := of_Z 1;
           Constraint.reason := VStr "Default strict safety" |}) /\
  (exists s',
     analyzeRaceConditionIntent (H := example_host) "POST" "https://shop.example/coupon"
       (VObj [("code", VStr "ONCE")]) e_null fresh
     = (Throw "Cannot read properties of null (reading 'max_successes')", s')) /\
  (exists s',
     analyzeIdempotencySchema (account "a1" 100) 200 e_null fresh
     = (Ok VNull, s') /\
     VNull <> fallback_schema (account "a1" 100)) /\
  (exists s',
     runIdempotencyTest (H := example_host) post_orders e_null fresh
     = (Ok (execution_error "Cannot read properties of null (reading 'identity')"), s')).
Proof.
  split; [eexists _, _; vm_compute; repeat split; discriminate|].
  split; [eexists; vm_compute; reflexivity|].
  split; [eexists; split; [vm_compute; reflexivity|discriminate]|].
  eexists. vm_compute. reflexivity.
Qed.

Lemma oracle_failure_falls_back_witness :
  let e := world_offline_oracle
             [responds 200 (account "a1" 100); responds 200 (account "a1" 250)] [] in
  (exists r s',
     runIdempotencyTest (H := example_host) post_orders e fresh = (Ok r, s') /\
     IdempotencyMeta.aiSchema (IdempotencyResult.meta r)
     = Some (VObj [("identity", VArr []); ("noise", VArr []);
                   ("data", VArr [VStr "id"; VStr "balance"])])) /\
  (exists r s',
     runRaceConditionTest (H := example_host) post_coupon e fresh = (Ok r, s') /\
     RaceMeta.aiConstraint (RaceResult.meta r)
     = {| Constraint.max_successes := of_Z 1;
          Constraint.reason := VStr "Fallback Default" |}).
Proof.
  intros e.
  destruct (oracle_failure_falls_back (H := example_host) post_orders post_coupon e fresh
              {| AxiosResponse.status := 200; AxiosResponse.data := account "a1" 100 |}
              {| AxiosResponse.status := 200; AxiosResponse.data := account "a1" 250 |}
              "Connection error." "Connection error.")
    as (_ & _ & _ & (r & s' & v & Hrun & Hschema & _) & _ & Hrace & _).
  - reflexivity.
  - reflexivity.
  - reflexivity.
  - cbn. lia.
  - vm_compute. discriminate.
  - reflexivity.
  - reflexivity.
  - reflexivity.
  - split; [|exact Hrace]. exists r, s'. split; [exact Hrun|exact Hschema].
Defined.

(** C7, the claim as stated fails: when the second request times out the
    verdict is ERROR, "Execution Error", with all four measurements 0; the
    failure does not enter the classification rules and the adjudicator is
    not asked. *)
Lemma second_request_timeout_yields_error :
  let e := world [responds 200 (account "a1" 100)] [] by_id strict_fail VNull in
  exists r s',
    R1 e fresh = Ok {| AxiosResponse.status := 200; AxiosResponse.data := account "a1" 100 |} /\
    R2 e fresh = Throw "timeout of 8000ms exceeded" /\
    runIdempotencyTest (H := example_host) post_orders e fresh = (Ok r, s') /\
    IdempotencyResult.verdict r = ERROR /\
    IdempotencyResult.title r = "Execution Error" /\
    IdempotencyResult.meta r = idempotency_meta 0 0 0 0 /\
    asked s' = [AskSchema (account "a1" 100) 200].
Proof. eexists _, _. vm_compute. repeat split. Qed.

Lemma failed_calls_and_timeouts_witness :
  let e1 := world_offline_oracle [] [] in
  let e2 := world_offline_oracle [responds 200 (account "a1" 100)] [] in
  (exists s',
     runIdempotencyTest (H := example_host) post_orders e1 fresh
     = (Ok (execution_error "timeout of 8000ms exceeded"), s')) /\
  (exists s',
     runIdempotencyTest (H := example_host) post_orders e2 fresh
     = (Ok (execution_error "timeout of 8000ms exceeded"), s')) /\
  BurstResponse.status (burst_response (Throw "fetch failed")) = 0 /\
  (exists outcome s',
     runRaceConditionTest (H := example_host) post_coupon e1 fresh = (outcome, s') /\
     length (calls s') = 10%nat).
Proof.
  intros e1 e2.
  destruct (failed_calls_and_timeouts (H := example_host) post_orders post_coupon
              e1 fresh "timeout of 8000ms exceeded"
              e2 fresh {| AxiosResponse.status := 200; AxiosResponse.data := account "a1" 100 |}
              "timeout of 8000ms exceeded"
              e1 fresh 0%nat "fetch failed")
    as ((s1 & Hrun1 & _) & (s2 & Hrun2 & _) & _ & _ & _ & Hzero & _
        & (constraint & outcome & s3 & Hrun3 & _ & Hcalls & _)).
  - reflexivity.
  - reflexivity.
  - cbn. lia.
  - reflexivity.
  - reflexivity.
  - split; [exists s1; exact Hrun1|]. split; [exists s2; exact Hrun2|].
    split; [exact Hzero|]. exists outcome, s3. split; [exact Hrun3|].
    rewrite Hcalls. reflexivity.
Defined.

(* ===================================================================== *)
(** * The further properties at concrete worlds *)
(* ===================================================================== *)

(** [value_eqb] holds of a value and itself. *)
Lemma value_eqb_refl : forall v : value, value_eqb v v = true.
Proof.
  fix IH 1. intros [| |b|n|str|items|props]; cbn [value_eqb].
  - reflexivity.
  - reflexivity.
  - apply Bool.eqb_reflx.
  - destruct n as [|neg|q]; [reflexivity| |].
    + cbn. apply Bool.eqb_reflx.
    + cbn. apply Qeq_bool_iff. reflexivity.
  - apply String.eqb_refl.
  - revert items. fix IHitems 1. intros [|x xs]; [reflexivity|].
    rewrite (IH x). exact (IHitems xs).
  - revert props. fix IHprops 1. intros [|[k x] ps]; [reflexivity|].
    rewrite String.eqb_refl, (IH x). exact (IHprops ps).
Qed.

Lemma validateBodies_verdict_characterised_witness :
  let body1 := account "a1" 100 in
  let body2 := account "a2" 250 in
  exists v,
    validateBodies (H := example_host) body1 body2 by_id = Ok v /\
    (Validation.verdict v = FAIL
     <-> exists f, f ∈ ["id"] /\ changed (H := example_host) body1 body2 f) /\
    Validation.verdict v <> ERROR.
Proof.
  intros body1 body2.
  pose proof (validateBodies_verdict_characterised (H := example_host)
                body1 body2 by_id ["id"] ["balance"]) as Hc.
  destruct (validateBodies (H := example_host) body1 body2 by_id) as [v|message] eqn:Hv.
  - destruct Hc as (Hfail & _ & _ & Herror & _).
    + vm_compute. reflexivity.
    + vm_compute. reflexivity.
    + exists v. split; [reflexivity|]. split; assumption.
  - vm_compute in Hv. discriminate Hv.
Defined.

Lemma non_object_bodies_are_compared_strictly_witness :
  let e := world_offline_oracle [responds 200 (VStr "ok"); responds 200 (VStr "ok!")] [] in
  exists r s',
    runIdempotencyTest (H := example_host) post_orders e fresh = (Ok r, s') /\
    IdempotencyResult.title r = "Non-JSON Response" /\
    IdempotencyResult.verdict r = WARN.
Proof.
  intros e.
  destruct (non_object_bodies_are_compared_strictly (H := example_host) post_orders e fresh
              {| AxiosResponse.status := 200; AxiosResponse.data := VStr "ok" |}
              {| AxiosResponse.status := 200; AxiosResponse.data := VStr "ok!" |})
    as (r & s' & Hrun & Htitle & _ & Hwarn & _).
  - reflexivity.
  - cbn. lia.
  - reflexivity.
  - reflexivity.
  - reflexivity.
  - exists r, s'. repeat split; try assumption. apply Hwarn. reflexivity.
Defined.

Lemma data_change_is_a_warning_witness :
  let e := world [responds 200 (account "a1" 100); responds 200 (account "a1" 250)] []
                 by_id strict_fail VNull in
  exists r s',
    runIdempotencyTest (H := example_host) post_orders e fresh = (Ok r, s') /\
    IdempotencyResult.verdict r = WARN /\
    IdempotencyResult.title r = "State Mutation Detected".
Proof.
  intros e.
  destruct (data_change_is_a_warning (H := example_host) post_orders e fresh
              {| AxiosResponse.status := 200; AxiosResponse.data := account "a1" 100 |}
              {| AxiosResponse.status := 200; AxiosResponse.data := account "a1" 250 |}
              ["id"] ["balance"] "balance")
    as (r & s' & Hrun & Hverdict & Htitle & _).
  - reflexivity.
  - cbn. lia.
  - reflexivity.
  - reflexivity.
  - reflexivity.
  - vm_compute. reflexivity.
  - vm_compute. reflexivity.
  - vm_compute. constructor; [discriminate | constructor].
  - apply list_elem_of_here.
  - vm_compute. reflexivity.
  - exists r, s'. repeat split; assumption.
Defined.

Lemma keyless_body_always_passes_witness :
  let e := world_offline_oracle [responds 200 (VObj []); responds 200 (account "a9" 1)] [] in
  exists r s',
    runIdempotencyTest (H := example_host) post_orders e fresh = (Ok r, s') /\
    IdempotencyResult.verdict r = PASS /\
    asked s' = [] /\
    IdempotencyMeta.aiSchema (IdempotencyResult.meta r) = Some empty_schema.
Proof.
  intros e.
  destruct (keyless_body_always_passes (H := example_host) post_orders e fresh
              {| AxiosResponse.status := 200; AxiosResponse.data := VObj [] |}
              {| AxiosResponse.status := 200; AxiosResponse.data := account "a9" 1 |})
    as (r & s' & Hrun & Hverdict & _ & _ & Hasked & Hschema).
  - reflexivity.
  - cbn. lia.
  - reflexivity.
  - reflexivity.
  - reflexivity.
  - reflexivity.
  - exists r, s'. repeat split; assumption.
Defined.

Lemma identical_replay_passes_witness :
  let e := world [responds 200 (account "a1" 100); responds 200 (account "a1" 100)] []
                 by_id strict_fail VNull in
  exists r s',
    runIdempotencyTest (H := example_host) post_orders e fresh = (Ok r, s') /\
    IdempotencyResult.verdict r = PASS.
Proof.
  intros e.
  destruct (identical_replay_passes (H := example_host) post_orders e fresh
              {| AxiosResponse.status := 200; AxiosResponse.data := account "a1" 100 |})
    as (r & s' & Hrun & Hverdict & _).
  - exact value_eqb_refl.
  - reflexivity.
  - cbn. lia.
  - reflexivity.
  - discriminate.
  - intros _. exists ["id"], ["balance"]. split; vm_compute; reflexivity.
  - exists r, s'. split; assumption.
Defined.

Lemma oracle_down_never_detects_double_execution_witness :
  let e := world_offline_oracle
             [responds 200 (account "a1" 100); responds 200 (account "a2" 100)] [] in
  exists r s',
    runIdempotencyTest (H := example_host) post_orders e fresh = (Ok r, s') /\
    IdempotencyResult.verdict r <> FAIL.
Proof.
  intros e.
  destruct (oracle_down_never_detects_double_execution (H := example_host) post_orders e fresh
              {| AxiosResponse.status := 200; AxiosResponse.data := account "a1" 100 |}
              {| AxiosResponse.status := 200; AxiosResponse.data := account "a2" 100 |}
              "Connection error.")
    as (r & s' & Hrun & Hverdict & _).
  - reflexivity.
  - reflexivity.
  - cbn. lia.
  - reflexivity.
  - reflexivity.
  - reflexivity.
  - exists r, s'. split; assumption.
Defined.

Lemma both_statuses_and_latencies_are_reported_witness :
  let e := world_offline_oracle [responds 200 (VStr "ok"); responds 404 (VStr "gone")] [] in
  exists r s',
    runIdempotencyTest (H := example_host) post_orders e fresh = (Ok r, s') /\
    length (calls s') = 2%nat /\
    (IdempotencyMeta.req1Status (IdempotencyResult.meta r) = 200 /\
     IdempotencyMeta.req2Status (IdempotencyResult.meta r) = 404 /\
     IdempotencyMeta.req1Time (IdempotencyResult.meta r) = 20 /\
     IdempotencyMeta.req2Time (IdempotencyResult.meta r) = 20 \/
     exists message, r = execution_error message).
Proof.
  intros e.
  destruct (both_statuses_and_latencies_are_reported (H := example_host) post_orders e fresh
              {| AxiosResponse.status := 200; AxiosResponse.data := VStr "ok" |}
              {| AxiosResponse.status := 404; AxiosResponse.data := VStr "gone" |})
    as (r & s' & Hrun & Hcalls & Hmeta).
  - reflexivity.
  - cbn. lia.
  - reflexivity.
  - exists r, s'. split; [exact Hrun|]. split; [rewrite Hcalls; reflexivity|].
    destruct Hmeta as [Hreported|(message & Herror & _)].
    + left. exact Hreported.
    + right. exists message. exact Herror.
Defined.

Lemma analyzeRaceConditionIntent_normalises_witness :
  let e := world [] [] by_id strict_fail
                 (VObj [("max_successes", VNum (of_Z 0)); ("reason", VNull)]) in
  exists outcome s',
    analyzeRaceConditionIntent (H := example_host) "POST" "https://shop.example/coupon"
      VNull e fresh = (outcome, s') /\
    forall c, outcome = Ok c ->
      RaceConstraint.max_successes c = RaceConstraint.Limit (of_Z 1) /\
      RaceConstraint.reason c = VStr "AI Default".
Proof.
  intros e.
  destruct (analyzeRaceConditionIntent_normalises (H := example_host)
              "POST" "https://shop.example/coupon" VNull e fresh
              (VObj [("max_successes", VNum (of_Z 0)); ("reason", VNull)])
              (VNum (of_Z 0)) VNull)
    as (outcome & Hrun & Hcases).
  - reflexivity.
  - reflexivity.
  - reflexivity.
  - exists outcome. eexists. split; [exact Hrun|].
    intros c ->. destruct Hcases as (_ & _ & Hone & _ & _ & Hreason). split.
    + apply Hone. do 3 apply list_elem_of_further. apply list_elem_of_here.
    + apply Hreason. reflexivity.
Defined.

Lemma unlimited_never_fails_witness :
  let e := world [] (repeat (burst_responds 200) 10) by_id strict_fail
                 (VObj [("max_successes", VStr "UNLIMITED")]) in
  exists r s',
    runRaceConditionTest (H := example_host) post_coupon e fresh = (Ok r, s') /\
    RaceResult.verdict r <> FAIL.
Proof.
  intros e.
  destruct (unlimited_never_fails (H := example_host) post_coupon e fresh
              (VObj [("max_successes", VStr "UNLIMITED")]))
    as (r & s' & Hrun & _ & Hverdict & _).
  - reflexivity.
  - reflexivity.
  - exists r, s'. split; assumption.
Defined.

Lemma oracle_down_allows_one_success_witness :
  let e := world_offline_oracle [] [burst_responds 200; burst_responds 409] in
  exists r s',
    runRaceConditionTest (H := example_host) post_coupon e fresh = (Ok r, s') /\
    RaceMeta.successCount (RaceResult.meta r) = 1%nat /\
    RaceResult.verdict r = PASS.
Proof.
  intros e.
  destruct (oracle_down_allows_one_success (H := example_host) post_coupon e fresh
              "Connection error.")
    as (r & s' & Hrun & Hcount & _ & Hpass & _).
  - reflexivity.
  - exists r, s'. split; [exact Hrun|].
    assert (Hone : RaceMeta.successCount (RaceResult.meta r) = 1%nat)
      by (rewrite Hcount; reflexivity).
    split; [exact Hone|]. apply Hpass. exact Hone.
Defined.

Lemma infer_constraint_on_null_reply_witness :
  let e := world [] [] by_id strict_fail VNull in
  infer_constraint (H := example_host) post_coupon e fresh
  = (Ok {| Constraint.max_successes := of_Z 1;
           Constraint.reason := VStr "Default strict safety" |},
     record_question (race_question post_coupon) fresh).
Proof.
  intros e.
  destruct (infer_constraint_on_null_reply (H := example_host) post_coupon e fresh VNull)
    as (_ & Hkept).
  - reflexivity.
  - reflexivity.
  - exact Hkept.
Defined.

Lemma worker_stores_the_runner_result_witness :
  let e := world [responds 200 (account "a1" 100); responds 200 (account "a2" 100)]
                 (repeat (burst_responds 200) 10) by_id strict_fail VNull in
  let s := {| net := fresh;
              db := {[ "run-1" := run_row "IDEMPOTENCY" PENDING;
                       "run-3" := run_row "RACE_CONDITION" PENDING ]};
              status_writes := [] |} in
  (exists s' row',
     worker (H := example_host) (job_of "run-1" "IDEMPOTENCY") e s = (Ok tt, s') /\
     db s' !! "run-1" = Some row' /\
     TestRun.status row' = COMPLETED /\
     TestRun.verdict row' = Some FAIL) /\
  (exists s' row',
     worker (H := example_host) (job_of "run-3" "RACE_CONDITION") e s = (Ok tt, s') /\
     db s' !! "run-3" = Some row' /\
     TestRun.status row' = COMPLETED /\
     TestRun.verdict row' = Some FAIL).
Proof.
  intros e s.
  pose (out_i := runIdempotencyTest (H := example_host) post_orders e fresh).
  pose (out_r := runRaceConditionTest (H := example_host)
                   {| RaceConfig.url := "https://shop.example/orders";
                      RaceConfig.method := "POST";
                      RaceConfig.headers := None;
                      RaceConfig.body := VObj [("sku", VStr "A-1")] |} e fresh).
  destruct (worker_stores_the_runner_result (H := example_host)
              (job_of "run-1" "IDEMPOTENCY") (job_of "run-3" "RACE_CONDITION") e s
              (run_row "IDEMPOTENCY" PENDING) (run_row "RACE_CONDITION" PENDING)
              (match fst out_i with Ok r => r | Throw m => execution_error m end)
              (match fst out_r with
               | Ok r => r
               | Throw m =>
                   {| RaceResult.verdict := ERROR;
                      RaceResult.title := m;
                      RaceResult.description := m;
                      RaceResult.meta :=
                        {| RaceMeta.totalRequests := 0;
                           RaceMeta.successCount := 0;
                           RaceMeta.failCount := 0;
                           RaceMeta.statusCodes := [];
                           RaceMeta.durationMs := 0;
                           RaceMeta.aiConstraint := default_constraint |} |}
               end)
              (snd out_i) (snd out_r))
    as ((si & rowi & Hruni & _ & Hrowi & Hstatusi & Hverdicti & _)
        & (sr & rowr & Hrunr & _ & Hrowr & Hstatusr & Hverdictr & _)).
  - reflexivity.
  - vm_compute. reflexivity.
  - vm_compute. reflexivity.
  - exists "FAIL". vm_compute. reflexivity.
  - reflexivity.
  - vm_compute. reflexivity.
  - vm_compute. reflexivity.
  - split.
    + exists si, rowi. repeat split; assumption.
    + exists sr, rowr. repeat split; assumption.
Defined.

Lemma unreachable_target_completes_with_error_witness :
  let s := store_with "run-1" (run_row "IDEMPOTENCY" PENDING) in
  exists s' row',
    worker (H := example_host) (job_of "run-1" "IDEMPOTENCY") (world_offline_oracle [] []) s
    = (Ok tt, s') /\
    db s' !! "run-1" = Some row' /\
    TestRun.status row' = COMPLETED /\
    TestRun.verdict row' = Some ERROR.
Proof.
  intros s.
  destruct (unreachable_target_completes_with_error (H := example_host)
              (job_of "run-1" "IDEMPOTENCY") (world_offline_oracle [] []) s
              (run_row "IDEMPOTENCY" PENDING) "timeout of 8000ms exceeded")
    as (s' & row' & Hrun & Hrow & Hstatus & Hverdict & _).
  - reflexivity.
  - vm_compute. reflexivity.
  - reflexivity.
  - exists s', row'. repeat split; assumption.
Defined.

Lemma runner_error_fails_the_run_witness :
  let e := world [] (repeat (burst_responds 200) 10) by_id strict_fail
                 single_use_boxed_reason in
  let s := store_with "run-3" (run_row "RACE_CONDITION" PENDING) in
  exists s' row',
    worker (H := example_host) (job_of "run-3" "RACE_CONDITION") e s = (Ok tt, s') /\
    db s' !! "run-3" = Some row' /\
    TestRun.status row' = FAILED /\
    TestRun.verdict row' = Some ERROR /\
    TestRun.logs row' = Some "Cannot convert object to primitive value".
Proof.
  intros e s.
  destruct (runner_error_fails_the_run (H := example_host)
              (job_of "run-3" "RACE_CONDITION") e s (run_row "RACE_CONDITION" PENDING)
              "Cannot convert object to primitive value"
              (snd (runRaceConditionTest (H := example_host)
                      {| RaceConfig.url := "https://shop.example/orders";
                         RaceConfig.method := "POST";
                         RaceConfig.headers := None;
                         RaceConfig.body := VObj [("sku", VStr "A-1")] |} e fresh)))
    as (s' & row' & Hrun & _ & Hrow & Hstatus & Hverdict & Hlogs & _).
  - reflexivity.
  - vm_compute. reflexivity.
  - vm_compute. reflexivity.
  - exists s', row'. repeat split; assumption.
Defined.

(** A verdict adopted from the oracle's reply need not be a string. One
    that cannot be converted to a string makes the log line that follows the
    COMPLETED update throw, inside the [try]: the run ends FAILED, with the
    verdict ERROR. *)
Example unprintable_verdict_fails_the_run :
  let e := world [responds 200 (account "a1" 100); responds 404 (VStr "gone")] [] by_id
                 (VObj [("verdict", VObj [("toString", VNull)]); ("reason", VStr "gone")])
                 VNull in
  let s := store_with "run-1" (run_row "IDEMPOTENCY" PENDING) in
  exists r n w,
    runIdempotencyTest (H := example_host) post_orders e fresh = (Ok r, n) /\
    IdempotencyResult.verdict r = VObj [("toString", VNull)] /\
    worker (H := example_host) (job_of "run-1" "IDEMPOTENCY") e s = (Ok tt, w) /\
    TestRun.status <$> db w !! "run-1" = Some FAILED /\
    TestRun.verdict <$> db w !! "run-1" = Some (Some ERROR).
Proof.
  eexists _, _, _.
  split; [vm_compute; reflexivity|]. split; [reflexivity|].
  split; [vm_compute; reflexivity|].
  vm_compute. split; reflexivity.
Qed.

Lemma worker_run_missing_witness :
  let s := store_with "run-1" (run_row "IDEMPOTENCY" PENDING) in
  worker (H := example_host) (job_of "run-9" "IDEMPOTENCY") (world_offline_oracle [] []) s
  = (Throw "Record to update not found.", s).
Proof.
  intros s.
  apply (worker_run_missing (H := example_host)).
  vm_compute. reflexivity.
Defined.

Lemma accepted_request_is_stored_and_queued_witness :
  exists s' row job,
    createTestRun has_http_scheme any_integer (backend_up "run-7")
      (request_for "RACE_CONDITION") (world_offline_oracle [] []) idle
    = (Ok {| Reply.code := 202; Reply.json := Queued "run-7" |}, s') /\
    db (worker_state s') !! "run-7" = Some row /\
    TestRun.status row = PENDING /\
    queue s' = [("execute-test", job)] /\
    TestJobData.testRunId job = "run-7" /\
    JobConfig.url (TestJobData.config job) = "https://shop.example/orders".
Proof.
  destruct (accepted_request_is_stored_and_queued has_http_scheme any_integer
              (backend_up "run-7") "run-7" (request_for "RACE_CONDITION")
              (parsed_request "RACE_CONDITION") (world_offline_oracle [] []) idle)
    as (s' & row & job & Hrun & Hrow & Hstatus & _ & _ & _ & _ & _ & _ & _ & _ & _
        & Hqueue & Hid & Hconfig & _).
  - vm_compute. reflexivity.
  - reflexivity.
  - vm_compute. reflexivity.
  - reflexivity.
  - exists s', row, job. repeat split; try assumption. rewrite Hconfig. reflexivity.
Defined.

(** The queue is down: the request is refused, and its row stays. *)
Example queue_down_leaves_the_row :
  exists s' row,
    createTestRun has_http_scheme any_integer (redis_down "run-7")
      (request_for "RACE_CONDITION") (world_offline_oracle [] []) idle
    = (Ok {| Reply.code := 400; Reply.json := InvalidRequest |}, s') /\
    db (worker_state s') !! "run-7" = Some row /\
    TestRun.status row = PENDING /\
    queue s' = [].
Proof. eexists _, _. vm_compute. repeat split. Qed.

Lemma validation_refuses_witness :
  RunTestSchema_parse has_http_scheme any_integer
    (VObj [("testType", VStr "IDEMPOTENCY");
           ("endpoint", VStr "shop.example/orders");
           ("method", VStr "POST")]) = None.
Proof.
  apply (validation_refuses has_http_scheme any_integer).
  right. right. left. intros u Hu. vm_compute in Hu. injection Hu as <-.
  vm_compute. reflexivity.
Defined.

Lemma accepted_request_reaches_a_terminal_status_witness :
  exists s1 job w row,
    createTestRun has_http_scheme any_integer (backend_up "run-8") (request_for "RATE_LIMIT")
      (world_offline_oracle [] []) idle
    = (Ok {| Reply.code := 202; Reply.json := Queued "run-8" |}, s1) /\
    queue s1 = [("execute-test", job)] /\
    worker (H := example_host) {| Job.id := "1"; Job.data := job |}
      (world_offline_oracle [] []) (worker_state s1) = (Ok tt, w) /\
    db w !! "run-8" = Some row /\
    TestRun.status row = FAILED /\
    TestRun.logs row = Some "Unknown test type: RATE_LIMIT".
Proof.
  destruct (accepted_request_reaches_a_terminal_status (H := example_host)
              has_http_scheme any_integer (backend_up "run-8") "run-8"
              (request_for "RATE_LIMIT") (parsed_request "RATE_LIMIT")
              (world_offline_oracle [] []) (world_offline_oracle [] []) idle "1")
    as (s1 & job & w & later & row & Hrun & Hqueue & _ & Hworker & _ & _ & Hrow
        & Hstatus & _ & _ & Hrate).
  - vm_compute. reflexivity.
  - reflexivity.
  - vm_compute. reflexivity.
  - reflexivity.
  - destruct (Hrate eq_refl) as (Hlater & _ & Hlogs & _).
    exists s1, job, w, row. repeat split; try assumption.
    rewrite Hlater in Hstatus. cbn in Hstatus. congruence.
Defined.
